(** * gosuploader: a shallow embedding of the uploader adapters and factory

    The development follows the Go sources of [github.com/zjguoxin/gosuploader]:
    the four adapters ([local], [qiniu], [aliyun], [tencent]), the
    configuration records of package [config] and the factory [NewUploader].

    Go strings are byte strings and are modelled by [string]; a [[]byte] is a
    [list byte].  Everything outside the repository that the adapters call
    (the operating system, the vendor SDKs, the clock, the UUID generator) is
    gathered in a [World] that every operation threads explicitly. *)

From Stdlib Require Import List String Ascii Bool Arith ZArith NArith Lia.
From Stdlib.Strings Require Import Byte.
From Stdlib Require Import DecimalString DecimalZ.
Import ListNotations.

Local Open Scope string_scope.

(** ** Go standard library: [strings] and [fmt] *)

Module GoStrings.

(** [strings.HasSuffix]. *)
Fixpoint HasSuffix (s suffix : string) : bool :=
  if String.eqb s suffix then true
  else match s with
       | EmptyString => false
       | String _ r => HasSuffix r suffix
       end.

(** [s[:n]]. *)
Fixpoint take (n : nat) (s : string) : string :=
  match n, s with
  | S k, String c r => String c (take k r)
  | _, _ => EmptyString
  end.

(** [strings.TrimSuffix]. *)
Definition TrimSuffix (s suffix : string) : string :=
  if HasSuffix s suffix
  then take (String.length s - String.length suffix) s
  else s.

(** [strings.Join]. *)
Definition Join (elems : list string) (sep : string) : string :=
  String.concat sep elems.

(** [strings.HasPrefix]. *)
Fixpoint HasPrefix (s prefix : string) {struct prefix} : bool :=
  match prefix, s with
  | EmptyString, _ => true
  | String p prefix', String c s' => Ascii.eqb c p && HasPrefix s' prefix'
  | String _ _, EmptyString => false
  end.

(** [s[n:]]. *)
Fixpoint drop (n : nat) (s : string) : string :=
  match n, s with
  | S k, String _ r => drop k r
  | _, _ => s
  end.

(** [strings.TrimPrefix]. *)
Definition TrimPrefix (s prefix : string) : string :=
  if HasPrefix s prefix then drop (String.length prefix) s else s.

(** What precedes and what follows the first occurrence of the byte [sep]. *)
Fixpoint cut (s : string) (sep : ascii) : option (string * string) :=
  match s with
  | EmptyString => None
  | String c r =>
      if Ascii.eqb c sep then Some (EmptyString, r)
      else match cut r sep with
           | Some (before, after) => Some (String c before, after)
           | None => None
           end
  end.

(** [strings.SplitN(s, sep, 2)] for a separator of one byte. *)
Definition SplitN_2 (s : string) (sep : ascii) : list string :=
  match cut s sep with
  | Some (before, after) => [before; after]
  | None => [s]
  end.

End GoStrings.

Module GoFmt.

(** The verb [%d] on a signed integer. *)
Definition show_int (z : Z) : string := NilZero.string_of_int (Z.to_int z).

(** Decimal digits of a natural number. *)
Definition show_nat (n : nat) : string := NilZero.string_of_uint (Nat.to_uint n).

(** Left padding with zeros up to [width] characters. *)
Fixpoint zeros (k : nat) : string :=
  match k with
  | O => EmptyString
  | S k' => String "0" (zeros k')
  end.

Definition pad (width n : nat) : string :=
  let d := show_nat n in zeros (width - String.length d) ++ d.

End GoFmt.

(** ** Go standard library: [path/filepath] on a Unix target *)

Module filepath.

Definition Separator : ascii := "/"%char.

Definition IsPathSeparator (c : ascii) : bool := Ascii.eqb c Separator.

(** The backward scan of [filepath.Ext]: [r] is the unread part of the path
    in reverse, [acc] the bytes already passed. *)
Fixpoint ext_scan (r : list ascii) (acc : string) : string :=
  match r with
  | [] => EmptyString
  | c :: r' =>
      if IsPathSeparator c then EmptyString
      else if Ascii.eqb c "."%char then String c acc
      else ext_scan r' (String c acc)
  end.

(** [filepath.Ext]: the suffix starting at the last dot of the last element. *)
Definition Ext (path : string) : string :=
  ext_scan (rev (list_ascii_of_string path)) EmptyString.

(** Removal of trailing separators, as the first loop of [filepath.Base]. *)
Fixpoint strip_trailing (r : list ascii) : list ascii :=
  match r with
  | c :: r' => if IsPathSeparator c then strip_trailing r' else r
  | [] => []
  end.

(** The last element of a reversed path: everything before the first
    separator met from the end. *)
Fixpoint last_elem (r : list ascii) (acc : string) : string :=
  match r with
  | [] => acc
  | c :: r' => if IsPathSeparator c then acc else last_elem r' (String c acc)
  end.

(** [filepath.Base]. *)
Definition Base (path : string) : string :=
  if String.eqb path "" then "."
  else
    let e := last_elem (strip_trailing (rev (list_ascii_of_string path))) EmptyString in
    if String.eqb e "" then "/" else e.

(** Path elements: the pieces between separators. *)
Fixpoint split (s : string) : list string :=
  match s with
  | EmptyString => [EmptyString]
  | String c r =>
      if IsPathSeparator c then EmptyString :: split r
      else match split r with
           | h :: t => String c h :: t
           | [] => [String c EmptyString]
           end
  end.

Definition unsplit (l : list string) : string := String.concat "/" l.

(** One element of the loop of [filepath.Clean].  [st] holds the elements
    written so far, the last one first; when the path is not rooted its
    bottom may hold leading [..] elements, which cannot be backtracked. *)
Definition clean_step (rooted : bool) (st : list string) (e : string) : list string :=
  if String.eqb e "" then st
  else if String.eqb e "." then st
  else if String.eqb e ".." then
    match st with
    | top :: rest => if String.eqb top ".." then e :: st else rest
    | [] => if rooted then [] else [e]
    end
  else e :: st.

Definition is_rooted (path : string) : bool :=
  match path with
  | String c _ => IsPathSeparator c
  | EmptyString => false
  end.

Definition render (rooted : bool) (st : list string) : string :=
  match rooted, st with
  | true, _ => String Separator (unsplit (rev st))
  | false, [] => "."
  | false, _ => unsplit (rev st)
  end.

(** [filepath.Clean]. *)
Definition Clean (path : string) : string :=
  if String.eqb path "" then "."
  else
    let rooted := is_rooted path in
    render rooted (fold_left (clean_step rooted) (split path) []).

(** [filepath.Join]: leading empty elements are skipped, the rest is joined
    with separators and cleaned. *)
Fixpoint Join (elem : list string) : string :=
  match elem with
  | [] => EmptyString
  | e :: r => if String.eqb e "" then Join r else Clean (GoStrings.Join elem "/")
  end.

(** Elements visited by the comparison loop of [filepath.Rel]. *)
Definition rel_elems (p : string) : list string :=
  if String.eqb p "" then []
  else if String.eqb p "/" then [EmptyString]
  else split p.

Fixpoint drop_common (b t : list string) : list string * list string :=
  match b, t with
  | x :: b', y :: t' => if String.eqb x y then drop_common b' t' else (b, t)
  | _, _ => (b, t)
  end.

(** [filepath.Rel]; [None] stands for its error. *)
Definition Rel (basepath targpath : string) : option string :=
  let base := Clean basepath in
  let targ := Clean targpath in
  if String.eqb targ base then Some "."
  else
    let base := if String.eqb base "." then EmptyString else base in
    if negb (Bool.eqb (is_rooted base) (is_rooted targ)) then None
    else
      match drop_common (rel_elems base) (rel_elems targ) with
      | ([], t) => Some (unsplit t)
      | (b0 :: b, t) =>
          match t with
          | _ :: _ => if String.eqb b0 ".." then None
                      else Some (unsplit (map (fun _ => "..") (b0 :: b) ++ t))
          | [] => Some (unsplit (map (fun _ => "..") (b0 :: b)))
          end
      end.

End filepath.

Arguments filepath.Clean : simpl never.
Arguments filepath.Join : simpl never.
Arguments filepath.Rel : simpl never.
Arguments filepath.Ext : simpl never.
Arguments filepath.Base : simpl never.

(** ** Go standard library: [time] *)

Module time.

(** A clock reading: the civil date of the instant and its distance to the
    Unix epoch in nanoseconds. *)
Record Time := { Year : nat; Month : nat; Day : nat; UnixNano : Z }.

(** [t.Format("2006/01/02")]: four-digit year, two-digit month and day. *)
Definition Format_2006_01_02 (t : Time) : string :=
  GoFmt.pad 4 (Year t) ++ "/" ++ GoFmt.pad 2 (Month t) ++ "/" ++ GoFmt.pad 2 (Day t).

End time.

(** ** Errors *)

(** Failures reported by the collaborators: the operating system and the
    vendor SDKs. *)
Inductive cause : Type :=
| ENOENT | ENOTDIR | EISDIR | ENOTEMPTY | EINVAL
| Errno (code : nat)
| SdkError (code : nat).

(** Go [error] values as the sources build them. *)
Inductive error : Type :=
| errors_New (msg : string)
| fmt_Errorf (format : string) (err : error)
| fmt_Errorf_s (format : string) (arg : string)
| CorruptInputError
| foreign (c : cause).

(** [os.IsNotExist] on the result of a system call. *)
Definition os_IsNotExist (r : option cause) : bool :=
  match r with
  | Some ENOENT => true
  | _ => false
  end.

(** The innermost error of a chain of [fmt.Errorf] wrappings. *)
Fixpoint root (e : error) : error :=
  match e with
  | fmt_Errorf _ e' => root e'
  | _ => e
  end.

(** The error kinds of the specification, for the errors of the four
    operations of the contract. *)
Inductive ErrorKind : Type :=
| InvalidInput | DecodeError | BackendError | NotFound.

Definition kind (e : error) : ErrorKind :=
  match root e with
  | errors_New _ => InvalidInput
  | fmt_Errorf_s _ _ => NotFound
  | CorruptInputError => DecodeError
  | _ => BackendError
  end.

(** ** The file system *)

Module FS.

Inductive node : Type :=
| Dir
| File (content : list byte).

(** Entries by cleaned path. *)
Definition t : Type := list (string * node).

Definition lookup (f : t) (p : string) : option node :=
  match find (fun e => String.eqb (fst e) p) f with
  | Some e => Some (snd e)
  | None => None
  end.

Definition remove (f : t) (p : string) : t :=
  filter (fun e => negb (String.eqb (fst e) p)) f.

Definition set (f : t) (p : string) (n : node) : t := (p, n) :: remove f p.

(** [filepath.Dir] of a cleaned path: what precedes its last element. *)
Fixpoint drop_last_elem (r : list ascii) : list ascii :=
  match r with
  | c :: r' => if filepath.IsPathSeparator c then r else drop_last_elem r'
  | [] => []
  end.

Definition parent (p : string) : string :=
  filepath.Clean
    (string_of_list_ascii (rev (drop_last_elem (rev (list_ascii_of_string p))))).

(** Directories that exist whatever the entries: the working directory,
    the root, and what is above the working directory. *)
Definition always_dir (p : string) : bool :=
  String.eqb p "." || String.eqb p "/"
  || forallb (fun e => String.eqb e "..") (filepath.split p).

Definition is_dir (f : t) (p : string) : bool :=
  always_dir p ||
  match lookup f p with
  | Some Dir => true
  | _ => false
  end.

Definition exists_ (f : t) (p : string) : bool :=
  always_dir p ||
  match lookup f p with
  | Some _ => true
  | None => false
  end.

Definition has_children (f : t) (p : string) : bool :=
  existsb (fun e => String.eqb (parent (fst e)) p) f.

(** The path and its ancestors, outermost first. *)
Fixpoint prefixes (acc : list string) (l : list string) : list (list string) :=
  match l with
  | [] => []
  | e :: r => (acc ++ [e])%list :: prefixes (acc ++ [e])%list r
  end.

Definition ancestors (p : string) : list string :=
  filter (fun a => negb (String.eqb a ""))
         (map filepath.unsplit (prefixes [] (filepath.split p))).

(** [os.MkdirAll]: fails when an ancestor is a regular file. *)
Definition mkdir_all_blocked (f : t) (p : string) : bool :=
  existsb (fun a => match lookup f a with
                    | Some (File _) => true
                    | _ => false
                    end) (ancestors p).

Definition mkdir_all (f : t) (p : string) : t :=
  fold_left (fun g a => if is_dir g a then g else set g a Dir) (ancestors p) f.

(** Whether a regular file stands where a directory of the path should.  A
    file system holds nothing below a regular file, so the calls below look
    at the ancestors only for a path that has no entry of its own. *)
Definition below_file (f : t) (p : string) : bool := mkdir_all_blocked f (parent p).

(** What a path that has no entry is answered with. *)
Definition missing (f : t) (p : string) : cause :=
  if below_file f p then ENOTDIR else ENOENT.

(** [os.Stat]. *)
Definition stat_blocked (f : t) (p : string) : option cause :=
  if exists_ f p then None else Some (missing f p).

(** Creating or truncating a regular file. *)
Definition create_blocked (f : t) (p : string) : option cause :=
  if negb (is_dir f (parent p)) then Some (missing f p)
  else if is_dir f p then Some EISDIR
  else None.

(** [os.Remove]: a file, or an empty directory.  The working directory is
    refused with [EINVAL], the root with [EBUSY], and what is above the
    working directory is not empty. *)
Definition remove_blocked (f : t) (p : string) : option cause :=
  if String.eqb p "." then Some EINVAL
  else if String.eqb p "/" then Some (Errno 16)
  else if always_dir p then Some ENOTEMPTY
  else match lookup f p with
       | None => Some (missing f p)
       | Some (File _) => None
       | Some Dir => if has_children f p then Some ENOTEMPTY else None
       end.

(** The names the operating system takes: no NUL byte, no element over 255
    bytes, at most 4095 bytes in all.  It refuses the others before it looks
    at the entries; the calls above are modelled for the names it takes. *)
Definition valid_path (p : string) : bool :=
  negb (existsb (Ascii.eqb "000"%char) (list_ascii_of_string p))
  && forallb (fun e => Nat.leb (String.length e) 255) (filepath.split p)
  && Nat.leb (String.length p) 4095.

End FS.

(** ** Go standard library: [encoding/base64], the padded standard encoding *)

Module base64.

Definition encodeStd : string :=
  "ABCDEFGHIJKLMNOPQRSTUVWXYZabcdefghijklmnopqrstuvwxyz0123456789+/".

Definition padChar : ascii := "="%char.

(** [enc.encode[n]]. *)
Definition encode_char (n : N) : ascii :=
  nth (N.to_nat n) (list_ascii_of_string encodeStd) "A"%char.

Fixpoint index_of (c : ascii) (l : list ascii) (i : N) : option N :=
  match l with
  | [] => None
  | x :: r => if Ascii.eqb x c then Some i else index_of c r (N.succ i)
  end.

(** [enc.decodeMap[c]]; [None] for the bytes outside the alphabet. *)
Definition decode_char (c : ascii) : option N :=
  index_of c (list_ascii_of_string encodeStd) 0%N.

Definition byte_of_N (n : N) : byte :=
  match Byte.of_N n with
  | Some b => b
  | None => x00
  end.

(** The 24-bit group of three source bytes; shifts and masks are written
    as products, quotients and remainders by powers of two, and the [|]
    of fields that do not overlap as a sum. *)
Definition group (a b c : byte) : N :=
  (Byte.to_N a * 65536 + Byte.to_N b * 256 + Byte.to_N c)%N.

Definition sextet (val : N) (shift : N) : N := ((val / 2 ^ shift) mod 64)%N.

(** [enc.EncodeToString]. *)
Fixpoint EncodeToString (src : list byte) : string :=
  match src with
  | [] => EmptyString
  | [a] =>
      let val := group a x00 x00 in
      String (encode_char (sextet val 18)) (String (encode_char (sextet val 12))
        (String padChar (String padChar EmptyString)))
  | [a; b] =>
      let val := group a b x00 in
      String (encode_char (sextet val 18)) (String (encode_char (sextet val 12))
        (String (encode_char (sextet val 6)) (String padChar EmptyString)))
  | a :: b :: c :: rest =>
      let val := group a b c in
      String (encode_char (sextet val 18)) (String (encode_char (sextet val 12))
        (String (encode_char (sextet val 6)) (String (encode_char (sextet val 0))
          (EncodeToString rest))))
  end.

(** The decoder skips carriage returns and line feeds wherever they are. *)
Definition is_newline (c : ascii) : bool :=
  Ascii.eqb c "010"%char || Ascii.eqb c "013"%char.

Definition quantum (s1 s2 s3 s4 : N) : N :=
  (s1 * 262144 + s2 * 4096 + s3 * 64 + s4)%N.

Definition octet (val : N) (shift : N) : byte :=
  byte_of_N ((val / 2 ^ shift) mod 256)%N.

(** The quanta of four characters; a padded quantum must be the last. *)
Fixpoint decode_quanta (l : list ascii) : option (list byte) :=
  match l with
  | [] => Some []
  | a :: b :: c :: d :: rest =>
      if Ascii.eqb d padChar then
        match rest with
        | _ :: _ => None
        | [] =>
            if Ascii.eqb c padChar then
              match decode_char a, decode_char b with
              | Some s1, Some s2 =>
                  Some [octet (quantum s1 s2 0 0) 16]
              | _, _ => None
              end
            else
              match decode_char a, decode_char b, decode_char c with
              | Some s1, Some s2, Some s3 =>
                  let val := quantum s1 s2 s3 0 in
                  Some [octet val 16; octet val 8]
              | _, _, _ => None
              end
        end
      else
        match decode_char a, decode_char b, decode_char c, decode_char d with
        | Some s1, Some s2, Some s3, Some s4 =>
            let val := quantum s1 s2 s3 s4 in
            match decode_quanta rest with
            | Some out => Some (octet val 16 :: octet val 8 :: octet val 0 :: out)
            | None => None
            end
        | _, _, _, _ => None
        end
  | _ => None
  end.

(** [enc.DecodeString]; [inr] is its [CorruptInputError]. *)
Definition DecodeString (s : string) : list byte + error :=
  match decode_quanta (filter (fun c => negb (is_newline c)) (list_ascii_of_string s)) with
  | Some out => inl out
  | None => inr CorruptInputError
  end.

End base64.

(** ** Package [config] *)

Module config.

Module LocalConfig.
Record t := { BasePath : string }.
End LocalConfig.

Module QiniuConfig.
Record t := { AccessKey : string; SecretKey : string; Bucket : string;
              Domain : string; Region : string }.
End QiniuConfig.

Module AliyunConfig.
Record t := { Endpoint : string; AccessKeyID : string; AccessKeySecret : string;
              BucketName : string; Domain : string }.
End AliyunConfig.

Module TencentConfig.
Record t := { SecretID : string; SecretKey : string; BucketName : string;
              Region : string; Domain : string }.
End TencentConfig.

End config.

(** ** The collaborators *)

(** [multipart.FileHeader]: the name, the declared size and the bytes the
    opened stream delivers. *)
Module multipart.
Record FileHeader := { Filename : string; Size : Z; Body : list byte }.
End multipart.

(** The object stores of the three providers. *)
Module Store.

Inductive provider : Type := qiniu_kodo | aliyun_oss | tencent_cos.

Definition provider_eqb (a b : provider) : bool :=
  match a, b with
  | qiniu_kodo, qiniu_kodo | aliyun_oss, aliyun_oss | tencent_cos, tencent_cos => true
  | _, _ => false
  end.

(** An object: provider, bucket, key, content. *)
Definition t : Type := list (provider * string * string * list byte).

Definition same (p : provider) (bucket key : string)
           (o : provider * string * string * list byte) : bool :=
  let '(p', b', k', _) := o in
  provider_eqb p p' && String.eqb bucket b' && String.eqb key k'.

Definition get (s : t) (p : provider) (bucket key : string) : option (list byte) :=
  match find (same p bucket key) s with
  | Some (_, _, _, d) => Some d
  | None => None
  end.

Definition delete (s : t) (p : provider) (bucket key : string) : t :=
  filter (fun o => negb (same p bucket key o)) s.

Definition put (s : t) (p : provider) (bucket key : string) (d : list byte) : t :=
  (p, bucket, key, d) :: delete s p bucket key.

End Store.

(** The calls that leave the process. *)
Inductive Call : Type :=
| os_MkdirAll (path : string) (perm : N)
| os_WriteFile (name : string) (data : list byte) (perm : N)
| os_Create (name : string)
| io_Copy (dst : string) (src : list byte)
| os_Stat (name : string)
| os_Remove (name : string)
| FileHeader_Open (filename : string)
| File_Close (name : string)
| io_ReadAll (filename : string)
| storage_GetZone (ak bucket : string)
| FormUploader_Put (bucket key : string) (data : list byte)
| BucketManager_Delete (bucket key : string)
| oss_New (endpoint accessKeyID accessKeySecret : string)
| Client_Bucket (bucketName : string)
| Bucket_PutObject (bucketName objectKey : string) (data : list byte)
| Bucket_DeleteObject (bucketName objectKey : string)
| url_Parse (rawURL : string)
| cos_Bucket_Head (bucketURL : string)
| cos_Object_Put (bucketURL key : string) (data : list byte)
| cos_Object_Delete (bucketURL key : string).

Definition Event : Type := (Call * option cause)%type.

(** The state outside the process.  [clock] and [uuids] give the successive
    readings of [time.Now] and [uuid.New]; [fault] is what the environment
    makes a call fail with (a full disk, a refused connection, a rejected
    credential); [trace] records the calls made, the latest first. *)
Record World := mkWorld {
  clock : nat -> time.Time;
  ticks : nat;
  uuids : nat -> string;
  drawn : nat;
  fault : Call -> option cause;
  fs : FS.t;
  objects : Store.t;
  trace : list Event
}.

Definition time_Now (w : World) : time.Time * World :=
  (clock w (ticks w),
   mkWorld (clock w) (S (ticks w)) (uuids w) (drawn w) (fault w) (fs w) (objects w) (trace w)).

Definition uuid_New (w : World) : string * World :=
  (uuids w (drawn w),
   mkWorld (clock w) (ticks w) (uuids w) (S (drawn w)) (fault w) (fs w) (objects w) (trace w)).

Definition with_fs (w : World) (f : FS.t) : World :=
  mkWorld (clock w) (ticks w) (uuids w) (drawn w) (fault w) f (objects w) (trace w).

Definition with_objects (w : World) (o : Store.t) : World :=
  mkWorld (clock w) (ticks w) (uuids w) (drawn w) (fault w) (fs w) o (trace w).

(** The same world under another environment. *)
Definition with_fault (w : World) (f : Call -> option cause) : World :=
  mkWorld (clock w) (ticks w) (uuids w) (drawn w) f (fs w) (objects w) (trace w).

Definition log (ev : Event) (w : World) : World :=
  mkWorld (clock w) (ticks w) (uuids w) (drawn w) (fault w) (fs w) (objects w) (ev :: trace w).

(** What makes a call fail when the environment injects nothing: what the
    entries of the file system refuse, for the names the operating system
    takes ([FS.valid_path]).  What the vendor SDKs refuse on their own (a
    bucket name or a host they do not take) is left to [fault]. *)
Definition natural (c : Call) (w : World) : option cause :=
  match c with
  | os_MkdirAll p _ => if FS.mkdir_all_blocked (fs w) p then Some ENOTDIR else None
  | os_WriteFile p _ _ => FS.create_blocked (fs w) p
  | os_Create p => FS.create_blocked (fs w) p
  | os_Stat p => FS.stat_blocked (fs w) p
  | os_Remove p => FS.remove_blocked (fs w) p
  | _ => None
  end.

(** What a successful call changes. *)
Definition effect (c : Call) (w : World) : World :=
  match c with
  | os_MkdirAll p _ => with_fs w (FS.mkdir_all (fs w) p)
  | os_WriteFile p d _ => with_fs w (FS.set (fs w) p (FS.File d))
  | os_Create p => with_fs w (FS.set (fs w) p (FS.File []))
  | io_Copy p d => with_fs w (FS.set (fs w) p (FS.File d))
  | os_Remove p => with_fs w (FS.remove (fs w) p)
  | FormUploader_Put b k d => with_objects w (Store.put (objects w) Store.qiniu_kodo b k d)
  | BucketManager_Delete b k => with_objects w (Store.delete (objects w) Store.qiniu_kodo b k)
  | Bucket_PutObject b k d => with_objects w (Store.put (objects w) Store.aliyun_oss b k d)
  | Bucket_DeleteObject b k => with_objects w (Store.delete (objects w) Store.aliyun_oss b k)
  | cos_Object_Put b k d => with_objects w (Store.put (objects w) Store.tencent_cos b k d)
  | cos_Object_Delete b k => with_objects w (Store.delete (objects w) Store.tencent_cos b k)
  | _ => w
  end.

Definition outcome (c : Call) (w : World) : option cause :=
  match fault w c with
  | Some e => Some e
  | None => natural c w
  end.

(** One call: its error, if any, and the world after it. *)
Definition call (c : Call) (w : World) : option cause * World :=
  let r := outcome c w in
  (r, log (c, r) (match r with None => effect c w | Some _ => w end)).

(** The result of the three upload operations: Go's [(string, error)]. *)
Definition Ret : Type := (string * option error)%type.

Definition fail (e : error) : Ret := (EmptyString, Some e).
Definition ok (locator : string) : Ret := (locator, None).

(** ** Package [local] *)

Module local.

Record LocalUploader := { basePath : string }.

Definition New (cfg : config.LocalConfig.t) : LocalUploader :=
  {| basePath := if String.eqb (config.LocalConfig.BasePath cfg) ""
                 then "storage/uploads"
                 else config.LocalConfig.BasePath cfg |}.

Definition generateFilePath (u : LocalUploader) (originalName : string)
           (w : World) : Ret * World :=
  let (now1, w) := time_Now w in
  let dateDir := time.Format_2006_01_02 now1 in
  let storageDir := filepath.Join [basePath u; dateDir] in
  let (err, w) := call (os_MkdirAll storageDir 493) w in
  match err with
  | Some e => (fail (fmt_Errorf "failed to create storage directory: %w" (foreign e)), w)
  | None =>
      let ext := filepath.Ext originalName in
      let baseName := GoStrings.TrimSuffix (filepath.Base originalName) ext in
      let (now2, w) := time_Now w in
      let uniqueName := baseName ++ "_" ++ GoFmt.show_int (time.UnixNano now2) ++ ext in
      (ok (filepath.Join [storageDir; uniqueName]), w)
  end.

(** The end of both uploads: the path relative to [basePath], or the full
    path when [filepath.Rel] fails. *)
Definition locator (u : LocalUploader) (filePath : string) : Ret :=
  match filepath.Rel (basePath u) filePath with
  | None => ok filePath
  | Some relPath => ok relPath
  end.

(** [UploadFile] once the source is open and until the deferred closes. *)
Definition UploadFile_opened (u : LocalUploader) (file : multipart.FileHeader)
           (w : World) : Ret * World :=
  let '((filePath, err), w) := generateFilePath u (multipart.Filename file) w in
  match err with
  | Some e => (fail (fmt_Errorf "failed to generate file path: %w" e), w)
  | None =>
      let (err, w) := call (os_Create filePath) w in
      match err with
      | Some e => (fail (fmt_Errorf "failed to create destination file: %w" (foreign e)), w)
      | None =>
          let (err, w) := call (io_Copy filePath (multipart.Body file)) w in
          let r := match err with
                   | Some e => fail (fmt_Errorf "failed to save file: %w" (foreign e))
                   | None => locator u filePath
                   end in
          (r, snd (call (File_Close filePath) w))
      end
  end.

Definition UploadFile (u : LocalUploader) (file : option multipart.FileHeader)
           (w : World) : Ret * World :=
  match file with
  | None => (fail (errors_New "file header cannot be nil"), w)
  | Some fh =>
      let (err, w) := call (FileHeader_Open (multipart.Filename fh)) w in
      match err with
      | Some e => (fail (fmt_Errorf "failed to open uploaded file: %w" (foreign e)), w)
      | None =>
          let (r, w) := UploadFile_opened u fh w in
          (r, snd (call (File_Close (multipart.Filename fh)) w))
      end
  end.

Definition UploadBinary (u : LocalUploader) (filename : string) (content : list byte)
           (w : World) : Ret * World :=
  if Nat.eqb (List.length content) 0 then (fail (errors_New "content cannot be empty"), w)
  else
    let '((filePath, err), w) := generateFilePath u filename w in
    match err with
    | Some e => (fail (fmt_Errorf "failed to generate file path: %w" e), w)
    | None =>
        let (err, w) := call (os_WriteFile filePath content 420) w in
        match err with
        | Some e => (fail (fmt_Errorf "failed to write file: %w" (foreign e)), w)
        | None => (locator u filePath, w)
        end
    end.

Definition UploadBase64 (u : LocalUploader) (filename base64Str : string)
           (w : World) : Ret * World :=
  if String.eqb base64Str "" then (fail (errors_New "base64 content cannot be empty"), w)
  else
    match base64.DecodeString base64Str with
    | inr e => (fail (fmt_Errorf "failed to decode base64: %w" e), w)
    | inl data => UploadBinary u filename data w
    end.

Definition Delete (u : LocalUploader) (filePath : string) (w : World)
  : option error * World :=
  let fullPath := filepath.Join [basePath u; filePath] in
  let (err, w) := call (os_Stat fullPath) w in
  if os_IsNotExist err then (Some (fmt_Errorf_s "file not exists: %s" fullPath), w)
  else
    let (err, w) := call (os_Remove fullPath) w in
    match err with
    | Some e => (Some (fmt_Errorf "failed to delete file: %v" (foreign e)), w)
    | None => (None, w)
    end.

Definition ensureBasePathExists (u : LocalUploader) (w : World) : option cause * World :=
  call (os_MkdirAll (basePath u) 493) w.

End local.

(** ** Package [qiniu] *)

Module qbox.
Record Mac := { AccessKey : string; SecretKey : string }.
Definition NewMac (accessKey secretKey : string) : Mac :=
  {| AccessKey := accessKey; SecretKey := secretKey |}.
End qbox.

Module storage.

(** The region of a bucket as [storage.GetZone] resolves it; [nil] when
    the lookup failed. *)
Inductive Region : Type := RegionOf (ak bucket : string).

Record Config := { Region_ : option Region; Zone : option Region;
                   UseHTTPS : bool; UseCdnDomains : bool }.

Record PutPolicy := { Scope : string; Expires : Z }.

(** A signed upload token, kept symbolic. *)
Record Token := { policy : PutPolicy; signer : qbox.Mac }.

Definition UploadToken (p : PutPolicy) (mac : qbox.Mac) : Token :=
  {| policy := p; signer := mac |}.

Record PutRet := { Hash : string; Key : string }.

End storage.

Module qiniu.

Record qiniuUploader := { mac : qbox.Mac; cfg : storage.Config;
                          bucket : string; domain : string }.

Definition New (c : config.QiniuConfig.t) (w : World)
  : (option qiniuUploader * option error) * World :=
  if String.eqb (config.QiniuConfig.AccessKey c) ""
     || String.eqb (config.QiniuConfig.SecretKey c) ""
     || String.eqb (config.QiniuConfig.Bucket c) ""
  then ((None, Some (errors_New "qiniu config is incomplete")), w)
  else
    let m := qbox.NewMac (config.QiniuConfig.AccessKey c) (config.QiniuConfig.SecretKey c) in
    let (err, w) := call (storage_GetZone (config.QiniuConfig.AccessKey c)
                                          (config.QiniuConfig.Bucket c)) w in
    let region := match err with
                  | None => Some (storage.RegionOf (config.QiniuConfig.AccessKey c)
                                                   (config.QiniuConfig.Bucket c))
                  | Some _ => None
                  end in
    ((Some {| mac := m;
              cfg := {| storage.Region_ := region; storage.Zone := region;
                        storage.UseHTTPS := true; storage.UseCdnDomains := false |};
              bucket := config.QiniuConfig.Bucket c;
              domain := config.QiniuConfig.Domain c |}, None), w).

Definition getUpToken (h : qiniuUploader) : storage.Token :=
  let putPolicy := {| storage.Scope := bucket h; storage.Expires := 3600 |} in
  storage.UploadToken putPolicy (mac h).

Definition generateUniqueKey (h : qiniuUploader) (originalName : string)
           (w : World) : string * World :=
  let ext := filepath.Ext originalName in
  let (now, w) := time_Now w in
  let timestamp := time.UnixNano now in
  let (id, w) := uuid_New w in
  let randomStr := GoStrings.take 8 id in
  (GoFmt.show_int timestamp ++ "_" ++ randomStr ++ ext, w).

Definition getFileURL (h : qiniuUploader) (key : string) : string :=
  "https://" ++ domain h ++ "/" ++ key.

(** [formUploader.Put] with the token of [getUpToken]: on success the
    service stores the data under the scope of the token and answers with
    the key it stored it under. *)
Definition put (h : qiniuUploader) (key : string) (data : list byte) (w : World)
  : Ret * World :=
  let upToken := getUpToken h in
  let (err, w) := call (FormUploader_Put (storage.Scope (storage.policy upToken)) key data) w in
  match err with
  | Some e => (fail (fmt_Errorf "七牛云上传失败: %v" (foreign e)), w)
  | None =>
      let ret := {| storage.Hash := EmptyString; storage.Key := key |} in
      (ok (getFileURL h (storage.Key ret)), w)
  end.

Definition UploadBase64 (h : qiniuUploader) (fileName base64Code : string)
           (w : World) : Ret * World :=
  if String.eqb fileName "" then (fail (errors_New "文件名不能为空"), w)
  else if String.eqb base64Code "" then (fail (errors_New "base64编码不能为空"), w)
  else
    let (key, w) := generateUniqueKey h fileName w in
    match base64.DecodeString base64Code with
    | inr e => (fail (fmt_Errorf "base64解码失败: %v" e), w)
    | inl data => put h key data w
    end.

Definition UploadBinary (h : qiniuUploader) (fileName : string) (content : list byte)
           (w : World) : Ret * World :=
  if String.eqb fileName "" then (fail (errors_New "文件名不能为空"), w)
  else if Nat.eqb (List.length content) 0 then (fail (errors_New "文件内容不能为空"), w)
  else
    let (key, w) := generateUniqueKey h fileName w in
    put h key content w.

Definition Delete (h : qiniuUploader) (filePath : string) (w : World)
  : option error * World :=
  if String.eqb filePath "" then (Some (errors_New "文件路径不能为空"), w)
  else
    let (err, w) := call (BucketManager_Delete (bucket h) filePath) w in
    match err with
    | Some e => (Some (fmt_Errorf "删除七牛云文件失败: %v" (foreign e)), w)
    | None => (None, w)
    end.

Definition UploadFile (h : qiniuUploader) (fileHeader : option multipart.FileHeader)
           (w : World) : Ret * World :=
  match fileHeader with
  | None => (fail (errors_New "文件头不能为空"), w)
  | Some fh =>
      let (err, w) := call (FileHeader_Open (multipart.Filename fh)) w in
      match err with
      | Some e => (fail (fmt_Errorf "打开文件失败: %v" (foreign e)), w)
      | None =>
          let (err, w) := call (io_ReadAll (multipart.Filename fh)) w in
          let (r, w) :=
            match err with
            | Some e => (fail (fmt_Errorf "读取文件失败: %v" (foreign e)), w)
            | None => UploadBinary h (multipart.Filename fh) (multipart.Body fh) w
            end in
          (r, snd (call (File_Close (multipart.Filename fh)) w))
      end
  end.

End qiniu.

(** ** Package [aliyun] *)

Module oss.
Record Client := { Endpoint : string; AccessKeyID : string; AccessKeySecret : string }.
Record Bucket := { Client_ : Client; BucketName : string }.
End oss.

Module aliyun.

Record AliUploader := { client : oss.Client; bucket : oss.Bucket;
                        config_ : config.AliyunConfig.t; endpoint : string }.

Definition New (cfg : config.AliyunConfig.t) (w : World)
  : (option AliUploader * option error) * World :=
  if String.eqb (config.AliyunConfig.Endpoint cfg) ""
     || String.eqb (config.AliyunConfig.AccessKeyID cfg) ""
     || String.eqb (config.AliyunConfig.AccessKeySecret cfg) ""
     || String.eqb (config.AliyunConfig.BucketName cfg) ""
  then ((None, Some (errors_New "aliyun OSS configuration is incomplete")), w)
  else
    let (err, w) := call (oss_New (config.AliyunConfig.Endpoint cfg)
                                  (config.AliyunConfig.AccessKeyID cfg)
                                  (config.AliyunConfig.AccessKeySecret cfg)) w in
    match err with
    | Some e => ((None, Some (fmt_Errorf "failed to create OSS client: %w" (foreign e))), w)
    | None =>
        let c := {| oss.Endpoint := config.AliyunConfig.Endpoint cfg;
                    oss.AccessKeyID := config.AliyunConfig.AccessKeyID cfg;
                    oss.AccessKeySecret := config.AliyunConfig.AccessKeySecret cfg |} in
        let (err, w) := call (Client_Bucket (config.AliyunConfig.BucketName cfg)) w in
        match err with
        | Some e => ((None, Some (fmt_Errorf "failed to get bucket: %w" (foreign e))), w)
        | None =>
            let b := {| oss.Client_ := c;
                        oss.BucketName := config.AliyunConfig.BucketName cfg |} in
            let ep := if String.eqb (config.AliyunConfig.Domain cfg) ""
                      then "https://" ++ config.AliyunConfig.BucketName cfg ++ "."
                                      ++ config.AliyunConfig.Endpoint cfg
                      else "https://" ++ config.AliyunConfig.Domain cfg in
            ((Some {| client := c; bucket := b; config_ := cfg; endpoint := ep |}, None), w)
        end
    end.

Definition generateObjectKey (u : AliUploader) (originalName : string)
           (w : World) : string * World :=
  let ext := filepath.Ext originalName in
  let baseName := GoStrings.TrimSuffix (filepath.Base originalName) ext in
  let (now1, w) := time_Now w in
  let datePath := time.Format_2006_01_02 now1 in
  let (now2, w) := time_Now w in
  let uniqueName := baseName ++ "_" ++ GoFmt.show_int (time.UnixNano now2) ++ ext in
  (filepath.Join [datePath; uniqueName], w).

Definition getFileURL (u : AliUploader) (objectKey : string) : string :=
  endpoint u ++ "/" ++ objectKey.

Definition UploadFile (u : AliUploader) (file : option multipart.FileHeader)
           (w : World) : Ret * World :=
  match file with
  | None => (fail (errors_New "file header cannot be nil"), w)
  | Some fh =>
      let (err, w) := call (FileHeader_Open (multipart.Filename fh)) w in
      match err with
      | Some e => (fail (fmt_Errorf "failed to open uploaded file: %w" (foreign e)), w)
      | None =>
          let (objectKey, w) := generateObjectKey u (multipart.Filename fh) w in
          let (err, w) := call (Bucket_PutObject (oss.BucketName (bucket u)) objectKey
                                                 (multipart.Body fh)) w in
          let r := match err with
                   | Some e => fail (fmt_Errorf "failed to upload file to OSS: %w" (foreign e))
                   | None => ok (getFileURL u objectKey)
                   end in
          (r, snd (call (File_Close (multipart.Filename fh)) w))
      end
  end.

Definition UploadBinary (u : AliUploader) (filename : string) (content : list byte)
           (w : World) : Ret * World :=
  if Nat.eqb (List.length content) 0 then (fail (errors_New "content cannot be empty"), w)
  else
    let (objectKey, w) := generateObjectKey u filename w in
    let (err, w) := call (Bucket_PutObject (oss.BucketName (bucket u)) objectKey content) w in
    match err with
    | Some e => (fail (fmt_Errorf "failed to upload binary to OSS: %w" (foreign e)), w)
    | None => (ok (getFileURL u objectKey), w)
    end.

Definition UploadBase64 (u : AliUploader) (filename base64Str : string)
           (w : World) : Ret * World :=
  if String.eqb base64Str "" then (fail (errors_New "base64 content cannot be empty"), w)
  else
    match base64.DecodeString base64Str with
    | inr e => (fail (fmt_Errorf "failed to decode base64: %w" e), w)
    | inl data => UploadBinary u filename data w
    end.

Definition Delete (u : AliUploader) (objectKey : string) (w : World)
  : option error * World :=
  if String.eqb objectKey "" then (Some (errors_New "object key cannot be empty"), w)
  else
    let (err, w) := call (Bucket_DeleteObject (oss.BucketName (bucket u)) objectKey) w in
    match err with
    | Some e => (Some (fmt_Errorf "failed to delete OSS object: %w" (foreign e)), w)
    | None => (None, w)
    end.

End aliyun.

(** ** Package [tencent] *)

Module cos.
Record Client := { BucketURL : string; SecretID : string; SecretKey : string }.
End cos.

Module tencent.

Record TencentUploader := { client : cos.Client; config_ : config.TencentConfig.t }.

Definition New (cfg : config.TencentConfig.t) (w : World)
  : (option TencentUploader * option error) * World :=
  if String.eqb (config.TencentConfig.SecretID cfg) ""
     || String.eqb (config.TencentConfig.SecretKey cfg) ""
     || String.eqb (config.TencentConfig.BucketName cfg) ""
     || String.eqb (config.TencentConfig.Region cfg) ""
  then ((None, Some (errors_New "tencent COS configuration is incomplete")), w)
  else
    let bucketURL := "https://" ++ config.TencentConfig.BucketName cfg ++ ".cos."
                                ++ config.TencentConfig.Region cfg ++ ".myqcloud.com" in
    let (err, w) := call (url_Parse bucketURL) w in
    match err with
    | Some e => ((None, Some (fmt_Errorf "failed to parse COS URL: %w" (foreign e))), w)
    | None =>
        let c := {| cos.BucketURL := bucketURL;
                    cos.SecretID := config.TencentConfig.SecretID cfg;
                    cos.SecretKey := config.TencentConfig.SecretKey cfg |} in
        let (err, w) := call (cos_Bucket_Head bucketURL) w in
        match err with
        | Some e => ((None, Some (fmt_Errorf "failed to connect to COS bucket: %w" (foreign e))), w)
        | None => ((Some {| client := c; config_ := cfg |}, None), w)
        end
    end.

Definition generateObjectKey (u : TencentUploader) (originalName : string)
           (w : World) : string * World :=
  let ext := filepath.Ext originalName in
  let baseName := GoStrings.TrimSuffix (filepath.Base originalName) ext in
  let (now1, w) := time_Now w in
  let datePath := time.Format_2006_01_02 now1 in
  let (now2, w) := time_Now w in
  let uniqueName := baseName ++ "_" ++ GoFmt.show_int (time.UnixNano now2) ++ ext in
  (filepath.Join [datePath; uniqueName], w).

Definition getFileURL (u : TencentUploader) (objectKey : string) : string :=
  if negb (String.eqb (config.TencentConfig.Domain (config_ u)) "")
  then "https://" ++ config.TencentConfig.Domain (config_ u) ++ "/" ++ objectKey
  else "https://" ++ config.TencentConfig.BucketName (config_ u) ++ ".cos."
                  ++ config.TencentConfig.Region (config_ u) ++ ".myqcloud.com/" ++ objectKey.

Definition UploadFile (u : TencentUploader) (file : option multipart.FileHeader)
           (w : World) : Ret * World :=
  match file with
  | None => (fail (errors_New "file header cannot be nil"), w)
  | Some fh =>
      let (err, w) := call (FileHeader_Open (multipart.Filename fh)) w in
      match err with
      | Some e => (fail (fmt_Errorf "failed to open uploaded file: %w" (foreign e)), w)
      | None =>
          let (objectKey, w) := generateObjectKey u (multipart.Filename fh) w in
          let (err, w) := call (cos_Object_Put (cos.BucketURL (client u)) objectKey
                                               (multipart.Body fh)) w in
          let r := match err with
                   | Some e => fail (fmt_Errorf "failed to upload file to COS: %w" (foreign e))
                   | None => ok (getFileURL u objectKey)
                   end in
          (r, snd (call (File_Close (multipart.Filename fh)) w))
      end
  end.

Definition UploadBinary (u : TencentUploader) (filename : string) (content : list byte)
           (w : World) : Ret * World :=
  if Nat.eqb (List.length content) 0 then (fail (errors_New "content cannot be empty"), w)
  else
    let (objectKey, w) := generateObjectKey u filename w in
    let (err, w) := call (cos_Object_Put (cos.BucketURL (client u)) objectKey content) w in
    match err with
    | Some e => (fail (fmt_Errorf "failed to upload binary to COS: %w" (foreign e)), w)
    | None => (ok (getFileURL u objectKey), w)
    end.

Definition UploadBase64 (u : TencentUploader) (filename base64Str : string)
           (w : World) : Ret * World :=
  if String.eqb base64Str "" then (fail (errors_New "base64 content cannot be empty"), w)
  else
    match base64.DecodeString base64Str with
    | inr e => (fail (fmt_Errorf "failed to decode base64: %w" e), w)
    | inl data => UploadBinary u filename data w
    end.

Definition Delete (u : TencentUploader) (objectKey : string) (w : World)
  : option error * World :=
  if String.eqb objectKey "" then (Some (errors_New "object key cannot be empty"), w)
  else
    let (err, w) := call (cos_Object_Delete (cos.BucketURL (client u)) objectKey) w in
    match err with
    | Some e => (Some (fmt_Errorf "failed to delete COS object: %w" (foreign e)), w)
    | None => (None, w)
    end.

End tencent.

(** ** Package [uploader]: the contract and the factory *)

Module uploader.

Definition ErrInvalidConfig : error := errors_New "invalid config for uploader".
Definition ErrUnsupportedType : error := errors_New "unsupported uploader type".

Definition UploadType : Type := string.

Definition Local : UploadType := "local".
Definition Qiniu : UploadType := "qiniu".
Definition Aliyun : UploadType := "aliyun".
Definition Tencent : UploadType := "tencent".

(** A value of type [interface{}]: its dynamic type and its content. *)
Inductive any : Type :=
| nil
| a_string (s : string)
| a_int (z : Z)
| a_LocalConfig (c : config.LocalConfig.t)
| a_QiniuConfig (c : config.QiniuConfig.t)
| a_AliyunConfig (c : config.AliyunConfig.t)
| a_TencentConfig (c : config.TencentConfig.t)
| a_pointer (target : any).

(** A value of the interface [Uploader]: the dynamic type and the pointer
    it holds, which a failed constructor leaves [nil]. *)
Inductive Uploader : Type :=
| of_local (p : local.LocalUploader)
| of_qiniu (p : option qiniu.qiniuUploader)
| of_aliyun (p : option aliyun.AliUploader)
| of_tencent (p : option tencent.TencentUploader).

Definition NewUploader (t : UploadType) (cfg : any) (w : World)
  : (option Uploader * option error) * World :=
  if String.eqb t Local then
    match cfg with
    | a_LocalConfig localCfg => ((Some (of_local (local.New localCfg)), None), w)
    | _ => ((None, Some ErrInvalidConfig), w)
    end
  else if String.eqb t Qiniu then
    match cfg with
    | a_QiniuConfig qiniuCfg =>
        let '((p, err), w) := qiniu.New qiniuCfg w in ((Some (of_qiniu p), err), w)
    | _ => ((None, Some ErrInvalidConfig), w)
    end
  else if String.eqb t Aliyun then
    match cfg with
    | a_AliyunConfig aliCfg =>
        let '((p, err), w) := aliyun.New aliCfg w in ((Some (of_aliyun p), err), w)
    | _ => ((None, Some ErrInvalidConfig), w)
    end
  else if String.eqb t Tencent then
    match cfg with
    | a_TencentConfig txCfg =>
        let '((p, err), w) := tencent.New txCfg w in ((Some (of_tencent p), err), w)
    | _ => ((None, Some ErrInvalidConfig), w)
    end
  else ((None, Some ErrUnsupportedType), w).

(** The adapters a caller can hold: the non-nil receivers of the four
    methods of the contract. *)
Inductive Adapter : Type :=
| LocalAdapter (u : local.LocalUploader)
| QiniuAdapter (u : qiniu.qiniuUploader)
| AliyunAdapter (u : aliyun.AliUploader)
| TencentAdapter (u : tencent.TencentUploader).

Definition UploadFile (a : Adapter) (file : option multipart.FileHeader) (w : World) :=
  match a with
  | LocalAdapter u => local.UploadFile u file w
  | QiniuAdapter u => qiniu.UploadFile u file w
  | AliyunAdapter u => aliyun.UploadFile u file w
  | TencentAdapter u => tencent.UploadFile u file w
  end.

Definition UploadBinary (a : Adapter) (filename : string) (content : list byte) (w : World) :=
  match a with
  | LocalAdapter u => local.UploadBinary u filename content w
  | QiniuAdapter u => qiniu.UploadBinary u filename content w
  | AliyunAdapter u => aliyun.UploadBinary u filename content w
  | TencentAdapter u => tencent.UploadBinary u filename content w
  end.

Definition UploadBase64 (a : Adapter) (filename base64Str : string) (w : World) :=
  match a with
  | LocalAdapter u => local.UploadBase64 u filename base64Str w
  | QiniuAdapter u => qiniu.UploadBase64 u filename base64Str w
  | AliyunAdapter u => aliyun.UploadBase64 u filename base64Str w
  | TencentAdapter u => tencent.UploadBase64 u filename base64Str w
  end.

Definition Delete (a : Adapter) (filepath : string) (w : World) :=
  match a with
  | LocalAdapter u => local.Delete u filepath w
  | QiniuAdapter u => qiniu.Delete u filepath w
  | AliyunAdapter u => aliyun.Delete u filepath w
  | TencentAdapter u => tencent.Delete u filepath w
  end.

End uploader.

(** ** Package [uploader_test]: the helper of the tests *)

Module uploader_test.

(** [extractKey]: the scheme is trimmed, then what follows the first
    separator is the key; without a separator the rest is returned whole. *)
Definition extractKey (url : string) : string :=
  let url := GoStrings.TrimPrefix url "http://" in
  let url := GoStrings.TrimPrefix url "https://" in
  let parts := GoStrings.SplitN_2 url "/"%char in
  match parts with
  | _ :: key :: _ => key
  | _ => url
  end.

End uploader_test.

(** ** The factory as the specification words it *)

Module FactorySpec.

Inductive BackendKind : Type := KLocal | KQiniu | KAliyun | KTencent.

Definition BackendKind_eqb (a b : BackendKind) : bool :=
  match a, b with
  | KLocal, KLocal | KQiniu, KQiniu | KAliyun, KAliyun | KTencent, KTencent => true
  | _, _ => false
  end.

(** The recognized kinds. *)
Definition recognize (t : uploader.UploadType) : option BackendKind :=
  if String.eqb t "local" then Some KLocal
  else if String.eqb t "qiniu" then Some KQiniu
  else if String.eqb t "aliyun" then Some KAliyun
  else if String.eqb t "tencent" then Some KTencent
  else None.

(** The kind whose configuration variant a dynamic value is, if any. *)
Definition variant (cfg : uploader.any) : option BackendKind :=
  match cfg with
  | uploader.a_LocalConfig _ => Some KLocal
  | uploader.a_QiniuConfig _ => Some KQiniu
  | uploader.a_AliyunConfig _ => Some KAliyun
  | uploader.a_TencentConfig _ => Some KTencent
  | _ => None
  end.

(** The constructor of the backend a configuration variant belongs to,
    with its result handed over as it is. *)
Definition construct (cfg : uploader.any) (w : World)
  : (option uploader.Uploader * option error) * World :=
  match cfg with
  | uploader.a_LocalConfig c => ((Some (uploader.of_local (local.New c)), None), w)
  | uploader.a_QiniuConfig c =>
      let r := qiniu.New c w in
      ((Some (uploader.of_qiniu (fst (fst r))), snd (fst r)), snd r)
  | uploader.a_AliyunConfig c =>
      let r := aliyun.New c w in
      ((Some (uploader.of_aliyun (fst (fst r))), snd (fst r)), snd r)
  | uploader.a_TencentConfig c =>
      let r := tencent.New c w in
      ((Some (uploader.of_tencent (fst (fst r))), snd (fst r)), snd r)
  | _ => ((None, None), w)
  end.

Definition NewUploader (t : uploader.UploadType) (cfg : uploader.any) (w : World)
  : (option uploader.Uploader * option error) * World :=
  match recognize t with
  | None => ((None, Some uploader.ErrUnsupportedType), w)
  | Some k =>
      match variant cfg with
      | Some k' => if BackendKind_eqb k k' then construct cfg w
                   else ((None, Some uploader.ErrInvalidConfig), w)
      | None => ((None, Some uploader.ErrInvalidConfig), w)
      end
  end.

End FactorySpec.

(** ** Sample worlds *)

Module Sample.

Definition clock (n : nat) : time.Time :=
  {| time.Year := 2025; time.Month := 7; time.Day := 1;
     time.UnixNano := Z.of_nat n + 1751328000000000000 |}.

Definition uuids (n : nat) : string := "3f2a9c1e-5b7d-4e21-9a60-c0ffee123456".

(** A world with the given files and objects in which nothing fails but
    what the file system itself refuses. *)
Definition world (f : FS.t) (o : Store.t) : World :=
  mkWorld clock 0 uuids 0 (fun _ => None) f o [].

(** The same with one call made to fail. *)
Definition failing (on : Call -> bool) (e : cause) (f : FS.t) (o : Store.t) : World :=
  mkWorld clock 0 uuids 0 (fun c => if on c then Some e else None) f o [].

Definition localT : local.LocalUploader :=
  local.New {| config.LocalConfig.BasePath := "t" |}.

Definition qiniuT : qiniu.qiniuUploader :=
  {| qiniu.mac := qbox.NewMac "ak" "sk";
     qiniu.cfg := {| storage.Region_ := None; storage.Zone := None;
                     storage.UseHTTPS := true; storage.UseCdnDomains := false |};
     qiniu.bucket := "b"; qiniu.domain := "cdn.example.com" |}.

Definition qiniuCfg : config.QiniuConfig.t :=
  {| config.QiniuConfig.AccessKey := "ak";
     config.QiniuConfig.SecretKey := "sk";
     config.QiniuConfig.Bucket := "b";
     config.QiniuConfig.Domain := "cdn.example.com";
     config.QiniuConfig.Region := "" |}.

Definition aliyunCfg : config.AliyunConfig.t :=
  {| config.AliyunConfig.Endpoint := "oss-cn-hangzhou.aliyuncs.com";
     config.AliyunConfig.AccessKeyID := "id";
     config.AliyunConfig.AccessKeySecret := "secret";
     config.AliyunConfig.BucketName := "b";
     config.AliyunConfig.Domain := "" |}.

Definition aliyunT : aliyun.AliUploader :=
  let c := {| oss.Endpoint := "oss-cn-hangzhou.aliyuncs.com";
              oss.AccessKeyID := "id"; oss.AccessKeySecret := "secret" |} in
  {| aliyun.client := c;
     aliyun.bucket := {| oss.Client_ := c; oss.BucketName := "b" |};
     aliyun.config_ := aliyunCfg;
     aliyun.endpoint := "https://b.oss-cn-hangzhou.aliyuncs.com" |}.

Definition tencentCfg : config.TencentConfig.t :=
  {| config.TencentConfig.SecretID := "id";
     config.TencentConfig.SecretKey := "key";
     config.TencentConfig.BucketName := "b-1250000000";
     config.TencentConfig.Region := "ap-guangzhou";
     config.TencentConfig.Domain := "" |}.

Definition tencentT : tencent.TencentUploader :=
  {| tencent.client := {| cos.BucketURL := "https://b-1250000000.cos.ap-guangzhou.myqcloud.com";
                          cos.SecretID := "id"; cos.SecretKey := "key" |};
     tencent.config_ := tencentCfg |}.

Definition hello : list byte := [x68; x65; x6c; x6c; x6f].

End Sample.

(** ** Path elements and generated names, for the statements below *)

Module Elements.

Fixpoint has_sep (s : string) : bool :=
  match s with
  | EmptyString => false
  | String c r => filepath.IsPathSeparator c || has_sep r
  end.

Definition plain (e : string) : bool :=
  negb (has_sep e) && negb (String.eqb e "") && negb (String.eqb e ".")
  && negb (String.eqb e "..").

(** The stacks [filepath.Clean] can reach: plain elements above leading
    [..] elements, the latter only when the path is not rooted. *)
Definition canon (rooted : bool) (st : list string) : Prop :=
  exists N k, st = (N ++ repeat ".." k)%list /\
              Forall (fun e => plain e = true) N /\
              (rooted = true -> k = 0).

(** The stack [filepath.Clean] ends with. *)
Definition clean_stack (p : string) : list string :=
  fold_left (filepath.clean_step (filepath.is_rooted p)) (filepath.split p) [].

End Elements.

Module Naming.

Definition is_digit (c : ascii) : bool :=
  existsb (Ascii.eqb c) (list_ascii_of_string "0123456789").

Fixpoint all_digits (s : string) : bool :=
  match s with
  | EmptyString => true
  | String c r => is_digit c && all_digits r
  end.

(** The name [generateFilePath] and [generateObjectKey] compose. *)
Definition baseName (originalName : string) : string :=
  GoStrings.TrimSuffix (filepath.Base originalName) (filepath.Ext originalName).

Definition uniqueName (originalName : string) (nano : Z) : string :=
  baseName originalName ++ "_" ++ GoFmt.show_int nano ++ filepath.Ext originalName.

(** The last element of the cleaned key: the base name of a name made of
    separators only is the separator, which cleaning drops. *)
Definition storedName (originalName : string) (nano : Z) : string :=
  (if String.eqb (baseName originalName) "/" then "" else baseName originalName)
  ++ "_" ++ GoFmt.show_int nano ++ filepath.Ext originalName.

End Naming.

(** The three uploads of the Local adapter, for a name and a content. *)
Definition local_upload (u : local.LocalUploader) (filename : string)
           (content : list byte) (w : World) (r : Ret * World) : Prop :=
  r = local.UploadBinary u filename content w \/
  (exists base64Str,
      base64.DecodeString base64Str = inl content /\
      r = local.UploadBase64 u filename base64Str w) \/
  (exists size,
      r = local.UploadFile u (Some {| multipart.Filename := filename;
                                      multipart.Size := size;
                                      multipart.Body := content |}) w).

(** ** Comparing two runs *)

(** A world in which the environment makes no call fail: what fails is what
    the file system itself refuses. *)
Definition quiet (w : World) : Prop := forall c, fault w c = None.

(** The same locator, and either no error or errors of the same cause and
    kind. *)
Definition same_outcome (r1 r2 : Ret) : Prop :=
  fst r1 = fst r2 /\
  match snd r1, snd r2 with
  | None, None => True
  | Some e1, Some e2 => root e1 = root e2 /\ kind e1 = kind e2
  | _, _ => False
  end.

(** The same files and the same objects. *)
Definition same_stores (w1 w2 : World) : Prop :=
  fs w1 = fs w2 /\ objects w1 = objects w2.

(** The adapter whose [UploadFile] reads the stream and calls
    [UploadBinary]. *)
Definition reads_fully (a : uploader.Adapter) : bool :=
  match a with
  | uploader.QiniuAdapter _ => true
  | _ => false
  end.

Definition is_empty (content : list byte) : bool :=
  match content with
  | [] => true
  | _ :: _ => false
  end.

(** ** What becomes of a failed call *)

Module Propagation.

Definition is_close (ev : Event) : bool :=
  match fst ev with
  | File_Close _ => true
  | _ => false
  end.

Definition is_close_call (c : Call) : bool :=
  match c with
  | File_Close _ => true
  | _ => false
  end.

(** The failures the code does not look at: the zone lookup of
    [qiniu.New], the deferred closes, and in [local.Delete] a failure of
    [os.Stat] that is not a missing file. *)
Definition unchecked (ev : Event) : bool :=
  match ev with
  | (storage_GetZone _ _, _) => true
  | (File_Close _, _) => true
  | (os_Stat _, Some c) => negb (os_IsNotExist (Some c))
  | _ => false
  end.

(** A call that succeeded, or whose failure the code does not look at. *)
Definition settled (ev : Event) : bool :=
  unchecked ev || match snd ev with
                  | None => true
                  | Some _ => false
                  end.

(** A failure the code looks at. *)
Definition checked_failure (ev : Event) : bool :=
  match snd ev with
  | Some _ => negb (unchecked ev)
  | None => false
  end.

(** An error made by [fmt.Errorf] around the cause of a failed call, in one
    wrapping or more: the cause alone is not one. *)
Fixpoint wraps (E : error) (c : cause) : Prop :=
  match E with
  | fmt_Errorf _ e => e = foreign c \/ wraps e c
  | _ => False
  end.

(** The error an operation returns for a failed call: one that wraps its
    cause, or for a missing file the error naming its path. *)
Definition reports (E : error) (ev : Event) : Prop :=
  match ev with
  | (os_Stat p, Some ENOENT) => E = fmt_Errorf_s "file not exists: %s" p
  | (_, Some c) => wraps E c
  | (_, None) => False
  end.

(** The errors that arise in the package itself: a rejected input or
    configuration, an unsupported type, a string that does not decode. *)
Definition core (E : error) : Prop :=
  match E with
  | errors_New _ => True
  | fmt_Errorf _ CorruptInputError => True
  | _ => False
  end.

(** The calls of one operation, the latest first, against the error it
    returns.  Without an error, no call has failed but those the code does
    not look at.  With one, either it is an error of the package itself and
    again no looked-at call has failed, or the calls are: deferred closes, the
    failed call the error reports, and before it calls that are settled; so
    that after a failure it looks at the operation makes no call but the
    closes, and repeats none. *)
Definition explains (new : list Event) (err : option error) : Prop :=
  match err with
  | None => forallb settled new = true
  | Some E =>
      (core E /\ forallb settled new = true) \/
      (exists closes ev older,
          new = (closes ++ ev :: older)%list /\
          forallb is_close closes = true /\
          checked_failure ev = true /\
          reports E ev /\
          forallb settled older = true)
  end.

(** The operations of the package. *)
Inductive Operation : Type :=
| op_NewUploader (t : uploader.UploadType) (cfg : uploader.any)
| op_UploadFile (a : uploader.Adapter) (file : option multipart.FileHeader)
| op_UploadBinary (a : uploader.Adapter) (filename : string) (content : list byte)
| op_UploadBase64 (a : uploader.Adapter) (filename base64Str : string)
| op_Delete (a : uploader.Adapter) (locator : string).

(** The error an operation returns and the world it leaves. *)
Definition run (o : Operation) (w : World) : option error * World :=
  match o with
  | op_NewUploader t cfg =>
      let r := uploader.NewUploader t cfg w in (snd (fst r), snd r)
  | op_UploadFile a file =>
      let r := uploader.UploadFile a file w in (snd (fst r), snd r)
  | op_UploadBinary a filename content =>
      let r := uploader.UploadBinary a filename content w in (snd (fst r), snd r)
  | op_UploadBase64 a filename base64Str =>
      let r := uploader.UploadBase64 a filename base64Str w in (snd (fst r), snd r)
  | op_Delete a locator => uploader.Delete a locator w
  end.

Definition accounted (w : World) (r : option error * World) : Prop :=
  exists new, trace (snd r) = (new ++ trace w)%list /\ explains new (fst r).

End Propagation.

(** ** URLs and objects of the remote adapters *)

Module Urls.

(** The host a remote adapter puts in the URLs it returns. *)
Definition url_host (a : uploader.Adapter) : option string :=
  match a with
  | uploader.LocalAdapter _ => None
  | uploader.QiniuAdapter h => Some (qiniu.domain h)
  | uploader.AliyunAdapter u =>
      if GoStrings.HasPrefix (aliyun.endpoint u) "https://"
      then Some (GoStrings.drop 8 (aliyun.endpoint u))
      else None
  | uploader.TencentAdapter u =>
      Some (if negb (String.eqb (config.TencentConfig.Domain (tencent.config_ u)) "")
            then config.TencentConfig.Domain (tencent.config_ u)
            else config.TencentConfig.BucketName (tencent.config_ u) ++ ".cos."
                 ++ config.TencentConfig.Region (tencent.config_ u) ++ ".myqcloud.com")
  end.

(** The URL an adapter returns for a key: its [getFileURL]. *)
Definition file_url (a : uploader.Adapter) (key : string) : string :=
  match a with
  | uploader.LocalAdapter _ => key
  | uploader.QiniuAdapter h => qiniu.getFileURL h key
  | uploader.AliyunAdapter u => aliyun.getFileURL u key
  | uploader.TencentAdapter u => tencent.getFileURL u key
  end.

(** Where a remote adapter keeps its objects. *)
Definition bucket_of (a : uploader.Adapter) : option (Store.provider * string) :=
  match a with
  | uploader.LocalAdapter _ => None
  | uploader.QiniuAdapter h => Some (Store.qiniu_kodo, qiniu.bucket h)
  | uploader.AliyunAdapter u => Some (Store.aliyun_oss, oss.BucketName (aliyun.bucket u))
  | uploader.TencentAdapter u => Some (Store.tencent_cos, cos.BucketURL (tencent.client u))
  end.

Definition stored_object (a : uploader.Adapter) (w : World) (key : string)
  : option (list byte) :=
  match bucket_of a with
  | Some (p, b) => Store.get (objects w) p b key
  | None => None
  end.

(** The three uploads of an adapter, for a name and a content. *)
Definition any_upload (a : uploader.Adapter) (filename : string)
           (content : list byte) (w : World) (r : Ret * World) : Prop :=
  r = uploader.UploadBinary a filename content w \/
  (exists base64Str,
      base64.DecodeString base64Str = inl content /\
      r = uploader.UploadBase64 a filename base64Str w) \/
  (exists size,
      r = uploader.UploadFile a (Some {| multipart.Filename := filename;
                                         multipart.Size := size;
                                         multipart.Body := content |}) w).

(** What a successful upload leaves: the URL of a key under which the
    content is stored. *)
Definition left_by_upload (a : uploader.Adapter) (content : list byte) (w w1 : World)
           (url : string) : Prop :=
  exists key,
    url = file_url a key /\
    String.eqb key "" = false /\
    stored_object a w1 key = Some content /\
    fault w1 = fault w.

End Urls.

(** ** Auxiliary definitions *)

(** One step of [os.MkdirAll]: the directory is made unless it is there. *)
Definition mkdir_step (g : FS.t) (a : string) : FS.t :=
  if FS.is_dir g a then g else FS.set g a FS.Dir.

(** Whether a string holds the underscore that ends the first part of a
    key of the Qiniu adapter. *)
Fixpoint has_underscore (s : string) : bool :=
  match s with
  | EmptyString => false
  | String c r => Ascii.eqb c "_" || has_underscore r
  end.

(** The two errors of the factory itself. *)
Definition own_error (e : error) : Prop :=
  e = uploader.ErrInvalidConfig \/ e = uploader.ErrUnsupportedType.

(** * Properties *)

Import Elements Naming Propagation.

(** ** Path elements *)

Lemma split_not_nil (s : string) : filepath.split s <> [].
Proof.
  destruct s as [|c r]; simpl; [discriminate|].
  destruct (filepath.IsPathSeparator c); [discriminate|].
  destruct (filepath.split r); discriminate.
Qed.

Lemma split_no_sep (s : string) : has_sep s = false -> filepath.split s = [s].
Proof.
  induction s as [|c r IH]; simpl; [reflexivity|].
  intros H. apply orb_false_iff in H as [Hc Hr].
  rewrite Hc, (IH Hr). reflexivity.
Qed.

Lemma split_app (a b : string) :
  filepath.split (a ++ String "/" b) = (filepath.split a ++ filepath.split b)%list.
Proof.
  induction a as [|c r IH]; simpl; [reflexivity|].
  destruct (filepath.IsPathSeparator c); rewrite IH; [reflexivity|].
  pose proof (split_not_nil r) as Hn.
  destruct (filepath.split r); [contradiction|reflexivity].
Qed.

Lemma unsplit_cons2 (x y : string) (l : list string) :
  filepath.unsplit (x :: y :: l) = x ++ String "/" (filepath.unsplit (y :: l)).
Proof. reflexivity. Qed.

Lemma unsplit_split (s : string) : filepath.unsplit (filepath.split s) = s.
Proof.
  induction s as [|c r IH]; simpl; [reflexivity|].
  pose proof (split_not_nil r) as Hn.
  destruct (filepath.IsPathSeparator c) eqn:Hc.
  - apply Ascii.eqb_eq in Hc. subst c.
    destruct (filepath.split r) as [|h t]; [contradiction|].
    rewrite unsplit_cons2, IH. reflexivity.
  - destruct (filepath.split r) as [|h t]; [contradiction|].
    destruct t as [|y t].
    + unfold filepath.unsplit in *. simpl in *. congruence.
    + rewrite unsplit_cons2 in *. simpl. rewrite IH. reflexivity.
Qed.

Lemma split_unsplit (l : list string) :
  l <> [] -> Forall (fun e => has_sep e = false) l ->
  filepath.split (filepath.unsplit l) = l.
Proof.
  induction l as [|x l IH]; [contradiction|].
  intros _ Hall. inversion Hall as [|? ? Hx Hl]; subst.
  destruct l as [|y l].
  - unfold filepath.unsplit. simpl. apply split_no_sep. exact Hx.
  - rewrite unsplit_cons2, split_app, (split_no_sep _ Hx), IH; [reflexivity|discriminate|exact Hl].
Qed.

Lemma split_all_no_sep (s : string) : Forall (fun e => has_sep e = false) (filepath.split s).
Proof.
  induction s as [|c r IH]; simpl; [repeat constructor|].
  destruct (filepath.IsPathSeparator c) eqn:Hc.
  - constructor; [reflexivity|exact IH].
  - destruct (filepath.split r) as [|h t]; [repeat constructor; simpl; rewrite Hc; reflexivity|].
    inversion IH; subst. constructor; [simpl; rewrite Hc; assumption|assumption].
Qed.

Lemma plain_inv (e : string) :
  plain e = true ->
  has_sep e = false /\ String.eqb e "" = false /\ String.eqb e "." = false
  /\ String.eqb e ".." = false.
Proof.
  unfold plain. intros H.
  repeat (apply andb_true_iff in H as [H ?]).
  repeat split; apply negb_true_iff; assumption.
Qed.

Lemma clean_step_plain (r : bool) (st : list string) (e : string) :
  plain e = true -> filepath.clean_step r st e = e :: st.
Proof.
  intros H. apply plain_inv in H as (_ & H1 & H2 & H3).
  unfold filepath.clean_step. rewrite H1, H2, H3. reflexivity.
Qed.

Lemma fold_plain (r : bool) (N st : list string) :
  Forall (fun e => plain e = true) N ->
  fold_left (filepath.clean_step r) N st = (rev N ++ st)%list.
Proof.
  revert st. induction N as [|e N IH]; intros st H; simpl; [reflexivity|].
  inversion H; subst. rewrite clean_step_plain by assumption.
  rewrite IH by assumption. rewrite <- app_assoc. reflexivity.
Qed.

Lemma clean_step_canon (r : bool) (st : list string) (e : string) :
  canon r st -> has_sep e = false -> canon r (filepath.clean_step r st e).
Proof.
  intros (N & k & -> & HN & Hk) He. unfold filepath.clean_step.
  destruct (String.eqb e "") eqn:E1; [exists N, k; auto|].
  destruct (String.eqb e ".") eqn:E2; [exists N, k; auto|].
  destruct (String.eqb e "..") eqn:E3.
  - apply String.eqb_eq in E3. subst e.
    destruct N as [|x N].
    + simpl. destruct k as [|k].
      * simpl. destruct r.
        -- exists [], 0. auto.
        -- exists [], 1. repeat split; [constructor|discriminate].
      * simpl. exists [], (S (S k)). repeat split; [constructor|].
        intros Hr. specialize (Hk Hr). discriminate.
    + simpl. inversion HN as [|? ? Hx HN']; subst.
      apply plain_inv in Hx as (_ & _ & _ & Hx). rewrite Hx.
      exists N, k. auto.
  - exists (e :: N), k. repeat split; [|assumption].
    constructor; [|assumption].
    unfold plain. rewrite He, E1, E2, E3. reflexivity.
Qed.

Lemma fold_canon (r : bool) (L st : list string) :
  canon r st -> Forall (fun e => has_sep e = false) L ->
  canon r (fold_left (filepath.clean_step r) L st).
Proof.
  revert st. induction L as [|e L IH]; intros st Hc HL; simpl; [assumption|].
  inversion HL; subst. apply IH; [apply clean_step_canon|]; assumption.
Qed.

Lemma canon_nil (r : bool) : canon r [].
Proof. exists [], 0. repeat split; constructor. Qed.

Lemma fold_dots (k j : nat) :
  fold_left (filepath.clean_step false) (repeat ".." k) (repeat ".." j)
  = repeat ".." (k + j).
Proof.
  revert j. induction k as [|k IH]; intros j; [reflexivity|].
  replace (S k + j) with (k + S j) by lia. rewrite <- IH. simpl.
  destruct j; reflexivity.
Qed.

Lemma rev_repeat_dots (k : nat) : rev (repeat ".." k) = repeat ".." k.
Proof.
  induction k as [|k IH]; [reflexivity|].
  simpl. rewrite IH. symmetry. apply (repeat_cons k "..").
Qed.

Lemma canon_no_sep (r : bool) (st : list string) :
  canon r st -> Forall (fun e => has_sep e = false) st.
Proof.
  intros (N & k & -> & HN & _). apply Forall_app. split.
  - eapply Forall_impl; [|exact HN]. intros e He. apply plain_inv in He. tauto.
  - apply Forall_forall. intros x Hx. apply repeat_spec in Hx. subst x. reflexivity.
Qed.

Lemma split_sep_cons (s : string) :
  filepath.split (String "/" s) = EmptyString :: filepath.split s.
Proof. reflexivity. Qed.

Lemma render_fold (r : bool) (st : list string) :
  canon r st ->
  fold_left (filepath.clean_step r) (filepath.split (filepath.render r st)) [] = st.
Proof.
  intros Hc. pose proof (canon_no_sep _ _ Hc) as Hns.
  destruct Hc as (N & k & -> & HN & Hk).
  assert (Hrev : Forall (fun e => plain e = true) (rev N)) by (apply Forall_rev; exact HN).
  destruct r.
  - rewrite (Hk eq_refl) in *. simpl repeat in *. rewrite app_nil_r in *.
    unfold filepath.render. unfold filepath.Separator. rewrite split_sep_cons.
    destruct N as [|x N'] eqn:EN.
    + reflexivity.
    + rewrite <- EN in *. rewrite split_unsplit.
      * cbn [fold_left]. change (filepath.clean_step true [] "") with (@nil string).
        rewrite fold_plain by assumption. rewrite rev_involutive, app_nil_r. reflexivity.
      * rewrite EN. simpl. intros H. apply app_eq_nil in H as [_ H]. discriminate.
      * apply Forall_rev. exact Hns.
  - destruct (N ++ repeat ".." k)%list as [|x l] eqn:E.
    + reflexivity.
    + unfold filepath.render. rewrite <- E. rewrite split_unsplit.
      * rewrite rev_app_distr, rev_repeat_dots, fold_left_app.
        pose proof (fold_dots k 0) as Hd. rewrite Nat.add_0_r in Hd.
        change (repeat ".." 0) with (@nil string) in Hd. rewrite Hd.
        rewrite fold_plain by assumption. rewrite rev_involutive. reflexivity.
      * rewrite E. simpl. intros H. apply app_eq_nil in H as [_ H]. discriminate.
      * apply Forall_rev. rewrite E. exact Hns.
Qed.

Lemma canon_elems (r : bool) (st : list string) :
  canon r st ->
  Forall (fun e => has_sep e = false /\ e <> "" /\ e <> ".") st.
Proof.
  intros (N & k & -> & HN & _). apply Forall_app. split.
  - eapply Forall_impl; [|exact HN]. intros e He.
    apply plain_inv in He as (H0 & H1 & H2 & _).
    repeat split; [assumption| |]; intros ->; discriminate.
  - apply Forall_forall. intros x Hx. apply repeat_spec in Hx. subst x.
    repeat split; discriminate.
Qed.

Lemma is_rooted_app (a b : string) : a <> "" -> filepath.is_rooted (a ++ b) = filepath.is_rooted a.
Proof. destruct a; [contradiction|reflexivity]. Qed.

Lemma is_rooted_no_sep (x : string) : has_sep x = false -> filepath.is_rooted x = false.
Proof.
  destruct x as [|c x]; [reflexivity|]. simpl. intros H.
  apply orb_false_iff in H. tauto.
Qed.

Lemma unsplit_head (x : string) (l : list string) :
  exists rest, filepath.unsplit (x :: l) = x ++ rest /\ (l = [] -> rest = "").
Proof.
  destruct l as [|y l].
  - exists "". unfold filepath.unsplit. simpl. split; [|reflexivity].
    induction x; simpl; congruence.
  - eexists. rewrite unsplit_cons2. split; [reflexivity|discriminate].
Qed.

Lemma unsplit_not_empty (x : string) (l : list string) :
  x <> "" -> filepath.unsplit (x :: l) <> "".
Proof.
  intros Hx. destruct (unsplit_head x l) as (rest & -> & _).
  destruct x; [contradiction|discriminate].
Qed.

Lemma unsplit_rooted (x : string) (l : list string) :
  x <> "" -> filepath.is_rooted (filepath.unsplit (x :: l)) = filepath.is_rooted x.
Proof.
  intros Hx. destruct (unsplit_head x l) as (rest & -> & _).
  apply is_rooted_app. exact Hx.
Qed.

Lemma render_rooted (r : bool) (st : list string) :
  canon r st -> filepath.is_rooted (filepath.render r st) = r.
Proof.
  intros Hc. apply canon_elems in Hc. destruct r; [reflexivity|].
  destruct st as [|x l] eqn:E; [reflexivity|].
  unfold filepath.render. rewrite <- E in *.
  apply Forall_rev in Hc.
  destruct (rev st) as [|y l'] eqn:Er.
  - reflexivity.
  - inversion Hc as [|? ? (Hy1 & Hy2 & _) _]; subst.
    rewrite unsplit_rooted by assumption. apply is_rooted_no_sep. assumption.
Qed.

Lemma render_not_empty (r : bool) (st : list string) :
  canon r st -> filepath.render r st <> "".
Proof.
  intros Hc. apply canon_elems in Hc. destruct r; [discriminate|].
  destruct st as [|x l] eqn:E; [discriminate|].
  unfold filepath.render. rewrite <- E in *.
  apply Forall_rev in Hc.
  destruct (rev st) as [|y l'] eqn:Er.
  - apply (f_equal (@rev string)) in Er. rewrite rev_involutive in Er.
    subst st. discriminate.
  - inversion Hc as [|? ? (Hy1 & Hy2 & _) _]; subst.
    apply unsplit_not_empty. assumption.
Qed.



Lemma clean_stack_canon (p : string) : canon (filepath.is_rooted p) (clean_stack p).
Proof. apply fold_canon; [apply canon_nil | apply split_all_no_sep]. Qed.

Lemma Clean_unfold (p : string) :
  p <> "" -> filepath.Clean p = filepath.render (filepath.is_rooted p) (clean_stack p).
Proof.
  intros Hp. unfold filepath.Clean.
  destruct (String.eqb_spec p ""); [contradiction|reflexivity].
Qed.

Lemma Clean_not_empty (p : string) : filepath.Clean p <> "".
Proof.
  destruct (String.eqb_spec p "") as [->|Hp]; [discriminate|].
  rewrite Clean_unfold by assumption. apply render_not_empty, clean_stack_canon.
Qed.

Lemma app_not_empty (a b : string) : a <> "" -> a ++ b <> "".
Proof. destruct a; [contradiction|discriminate]. Qed.

(** The stack of [p/c] continues that of [p]. *)
Lemma clean_stack_app (p c : string) :
  p <> "" ->
  clean_stack (p ++ String "/" c)
  = fold_left (filepath.clean_step (filepath.is_rooted p)) (filepath.split c) (clean_stack p).
Proof.
  intros Hp. unfold clean_stack.
  rewrite is_rooted_app, split_app, fold_left_app by assumption. reflexivity.
Qed.

Lemma clean_stack_render (r : bool) (st : list string) :
  canon r st -> clean_stack (filepath.render r st) = st.
Proof.
  intros Hc. unfold clean_stack. rewrite render_rooted by assumption.
  apply render_fold. assumption.
Qed.

Lemma Clean_idempotent (p : string) : filepath.Clean (filepath.Clean p) = filepath.Clean p.
Proof.
  destruct (String.eqb_spec p "") as [->|Hp]; [reflexivity|].
  rewrite (Clean_unfold p) by assumption.
  pose proof (clean_stack_canon p) as Hc.
  rewrite Clean_unfold by (apply render_not_empty; assumption).
  rewrite render_rooted, clean_stack_render by assumption. reflexivity.
Qed.

Lemma Clean_join (p c : string) :
  p <> "" ->
  filepath.Clean (filepath.Clean p ++ String "/" c) = filepath.Clean (p ++ String "/" c).
Proof.
  intros Hp. pose proof (clean_stack_canon p) as Hc.
  rewrite (Clean_unfold (p ++ String "/" c)) by (apply app_not_empty; assumption).
  rewrite (Clean_unfold (_ ++ _)) by (apply app_not_empty, Clean_not_empty).
  rewrite !is_rooted_app by (assumption || apply Clean_not_empty).
  rewrite !clean_stack_app by (assumption || apply Clean_not_empty).
  rewrite (Clean_unfold p) by assumption.
  rewrite render_rooted, clean_stack_render by assumption. reflexivity.
Qed.

Lemma fold_no_dotdot (r : bool) (L st : list string) :
  Forall (fun e => has_sep e = false /\ e <> "..") L ->
  fold_left (filepath.clean_step r) L st = (rev (filter plain L) ++ st)%list.
Proof.
  revert st. induction L as [|e L IH]; intros st H; [reflexivity|].
  inversion H as [|? ? (He1 & He2) HL]; subst. cbn [fold_left filter].
  rewrite IH by assumption.
  unfold filepath.clean_step, plain. rewrite He1.
  destruct (String.eqb e "") eqn:E1; [reflexivity|].
  destruct (String.eqb e ".") eqn:E2; [reflexivity|].
  destruct (String.eqb_spec e ".."); [contradiction|].
  simpl. rewrite <- app_assoc. reflexivity.
Qed.

Lemma drop_common_app (X M : list string) :
  filepath.drop_common X (X ++ M) = ([], M).
Proof.
  induction X as [|x X IH]; simpl; [destruct M; reflexivity|].
  rewrite String.eqb_refl. exact IH.
Qed.

Lemma render_not_dot (r : bool) (st : list string) :
  canon r st -> st <> [] -> String.eqb (filepath.render r st) "." = false.
Proof.
  intros Hc Hne. destruct r; [reflexivity|].
  apply String.eqb_neq. intros Heq.
  pose proof (clean_stack_render _ _ Hc) as Hs. rewrite Heq in Hs.
  apply Hne. rewrite <- Hs. reflexivity.
Qed.

Lemma string_sep_eqb (x : string) : x <> "" -> String.eqb (String "/" x) "/" = false.
Proof. intros Hx. destruct x; [contradiction|reflexivity]. Qed.

Lemma rev_not_nil {A} (l : list A) : l <> [] -> rev l <> [].
Proof.
  intros H E. apply H. apply (f_equal (@rev A)) in E.
  rewrite rev_involutive in E. exact E.
Qed.

Lemma unsplit_rev_not_empty (r : bool) (st : list string) :
  canon r st -> st <> [] -> filepath.unsplit (rev st) <> "".
Proof.
  intros Hc Hne. apply canon_elems in Hc. apply Forall_rev in Hc.
  apply rev_not_nil in Hne. destruct (rev st) as [|y l]; [contradiction|].
  inversion Hc as [|? ? (_ & Hy & _) _]; subst.
  apply unsplit_not_empty. assumption.
Qed.

Lemma rel_elems_render (r : bool) (st : list string) :
  canon r st ->
  filepath.rel_elems (if String.eqb (filepath.render r st) "." then ""
                      else filepath.render r st)
  = ((if r then [""] else []) ++ rev st)%list.
Proof.
  intros Hc.
  assert (Hall : Forall (fun e => has_sep e = false) (rev st))
    by (apply Forall_rev, (canon_no_sep r); assumption).
  destruct st as [|x l] eqn:E.
  - destruct r; reflexivity.
  - rewrite <- E in *. assert (Hne : st <> []) by (rewrite E; discriminate).
    rewrite render_not_dot by assumption.
    pose proof (unsplit_rev_not_empty r st Hc Hne) as Hu.
    unfold filepath.rel_elems.
    destruct (String.eqb_spec (filepath.render r st) "") as [He|_];
      [exfalso; revert He; apply render_not_empty; assumption|].
    destruct r.
    + unfold filepath.render, filepath.Separator.
      rewrite string_sep_eqb by assumption.
      rewrite split_sep_cons, split_unsplit; [reflexivity|apply rev_not_nil|]; assumption.
    + pose proof (render_rooted false st Hc) as Hr.
      destruct (String.eqb_spec (filepath.render false st) "/") as [He|_];
        [rewrite He in Hr; discriminate|].
      unfold filepath.render. rewrite E, <- E.
      rewrite split_unsplit; [reflexivity|apply rev_not_nil|]; assumption.
Qed.

(** A relative path [q] without [..] elements, joined under [p], is found
    back by [filepath.Rel]. *)
Lemma Rel_Join (p q : string) :
  p <> "" ->
  Forall (fun e => e <> "..") (filepath.split q) ->
  filter plain (filepath.split q) <> [] ->
  filepath.Rel p (filepath.Clean (p ++ String "/" q))
  = Some (filepath.unsplit (filter plain (filepath.split q))).
Proof.
  intros Hp Hdd Hne.
  assert (Hq : Forall (fun e => has_sep e = false /\ e <> "..") (filepath.split q)).
  { pose proof (split_all_no_sep q) as Hs. rewrite Forall_forall in *.
    intros e He. split; auto. }
  set (M := filter plain (filepath.split q)) in *.
  set (r := filepath.is_rooted p).
  pose proof (clean_stack_canon p) as HcB. fold r in HcB.
  assert (HT : clean_stack (p ++ String "/" q) = (rev M ++ clean_stack p)%list).
  { rewrite clean_stack_app by assumption. apply fold_no_dotdot. assumption. }
  assert (HcT : canon r (rev M ++ clean_stack p)%list).
  { rewrite <- HT. unfold r. rewrite <- (is_rooted_app p (String "/" q)) by assumption.
    apply clean_stack_canon. }
  assert (HneT : (rev M ++ clean_stack p)%list <> []).
  { intros E. apply app_eq_nil in E as [E _]. apply Hne.
    apply (f_equal (@rev string)) in E. rewrite rev_involutive in E. exact E. }
  unfold filepath.Rel. rewrite Clean_idempotent.
  rewrite (Clean_unfold (p ++ String "/" q)) by (apply app_not_empty; assumption).
  rewrite (Clean_unfold p) by assumption.
  rewrite is_rooted_app by assumption. fold r. rewrite HT.
  destruct (String.eqb_spec (filepath.render r (rev M ++ clean_stack p))
                            (filepath.render r (clean_stack p))) as [Heq|_].
  { exfalso. apply (f_equal clean_stack) in Heq.
    rewrite !clean_stack_render in Heq by assumption.
    apply (f_equal (@List.length string)) in Heq. rewrite length_app in Heq.
    assert (List.length (rev M) <> 0).
    { intros E. apply length_zero_iff_nil in E. apply Hne.
      apply (f_equal (@rev string)) in E. rewrite rev_involutive in E. exact E. }
    lia. }
  assert (Hroot : filepath.is_rooted
                    (if String.eqb (filepath.render r (clean_stack p)) "." then ""
                     else filepath.render r (clean_stack p)) = r).
  { destruct (String.eqb_spec (filepath.render r (clean_stack p)) ".") as [E|_].
    - pose proof (render_rooted _ _ HcB) as Hr. rewrite E in Hr. rewrite <- Hr. reflexivity.
    - apply render_rooted. assumption. }
  rewrite Hroot, (render_rooted _ _ HcT), Bool.eqb_reflx. cbn [negb].
  rewrite (rel_elems_render _ _ HcB).
  pose proof (rel_elems_render _ _ HcT) as HeT.
  rewrite (render_not_dot _ _ HcT HneT) in HeT. rewrite HeT.
  rewrite rev_app_distr, rev_involutive, app_assoc, drop_common_app. reflexivity.
Qed.

Lemma has_sep_app (a b : string) : has_sep (a ++ b) = has_sep a || has_sep b.
Proof.
  induction a as [|c a IH]; simpl; [reflexivity|].
  rewrite IH, orb_assoc. reflexivity.
Qed.

Lemma is_digit_not_sep (c : ascii) : is_digit c = true -> filepath.IsPathSeparator c = false.
Proof.
  destruct c as [[] [] [] [] [] [] [] []]; intros H; try reflexivity; discriminate H.
Qed.

Lemma all_digits_no_sep (s : string) : all_digits s = true -> has_sep s = false.
Proof.
  induction s as [|c s IH]; simpl; [reflexivity|].
  intros H. apply andb_true_iff in H as [Hc Hs].
  rewrite (is_digit_not_sep c Hc), (IH Hs). reflexivity.
Qed.

Lemma all_digits_app (a b : string) : all_digits (a ++ b) = all_digits a && all_digits b.
Proof.
  induction a as [|c a IH]; simpl; [reflexivity|].
  rewrite IH, andb_assoc. reflexivity.
Qed.

Lemma uint_all_digits (d : Decimal.uint) : all_digits (NilEmpty.string_of_uint d) = true.
Proof. induction d; simpl; auto. Qed.

Lemma show_nat_digits (n : nat) :
  all_digits (GoFmt.show_nat n) = true /\ GoFmt.show_nat n <> "".
Proof.
  unfold GoFmt.show_nat, NilZero.string_of_uint.
  destruct (Nat.to_uint n) eqn:E; (split; [try reflexivity; apply (uint_all_digits (_ u)) | discriminate]).
Qed.

Lemma zeros_digits (k : nat) : all_digits (GoFmt.zeros k) = true.
Proof. induction k; simpl; auto. Qed.

Lemma pad_digits (w n : nat) :
  all_digits (GoFmt.pad w n) = true /\ GoFmt.pad w n <> "".
Proof.
  unfold GoFmt.pad. destruct (show_nat_digits n) as [Hd Hn]. split.
  - rewrite all_digits_app, zeros_digits, Hd. reflexivity.
  - destruct (GoFmt.zeros _); [exact Hn|discriminate].
Qed.

Lemma digits_plain (s : string) : all_digits s = true -> s <> "" -> plain s = true.
Proof.
  intros Hd Hn. unfold plain. rewrite (all_digits_no_sep s Hd).
  destruct (String.eqb_spec s ""); [contradiction|].
  destruct (String.eqb_spec s ".") as [->|_]; [discriminate|].
  destruct (String.eqb_spec s "..") as [->|_]; [discriminate|].
  reflexivity.
Qed.

Lemma pad_plain (w n : nat) : plain (GoFmt.pad w n) = true.
Proof. destruct (pad_digits w n). apply digits_plain; assumption. Qed.

Lemma plain_no_sep (e : string) : plain e = true -> has_sep e = false.
Proof. intros H. apply plain_inv in H. tauto. Qed.

Lemma sep_underscore (x y : string) : x ++ "_" ++ y = x ++ String "_" y.
Proof. reflexivity. Qed.

Lemma sep_app (x : string) : "/" ++ x = String "/" x.
Proof. reflexivity. Qed.

Lemma split_date (t : time.Time) :
  filepath.split (time.Format_2006_01_02 t)
  = [GoFmt.pad 4 (time.Year t); GoFmt.pad 2 (time.Month t); GoFmt.pad 2 (time.Day t)].
Proof.
  unfold time.Format_2006_01_02.
  rewrite !sep_app.
  rewrite !split_app, !split_no_sep by (apply plain_no_sep, pad_plain). reflexivity.
Qed.

Lemma date_not_empty (t : time.Time) : time.Format_2006_01_02 t <> "".
Proof.
  unfold time.Format_2006_01_02. apply app_not_empty.
  apply (pad_digits 4 (time.Year t)).
Qed.

Lemma date_not_rooted (t : time.Time) : filepath.is_rooted (time.Format_2006_01_02 t) = false.
Proof.
  unfold time.Format_2006_01_02.
  rewrite is_rooted_app by apply (pad_digits 4 (time.Year t)).
  apply is_rooted_no_sep, plain_no_sep, pad_plain.
Qed.

Lemma ext_scan_no_sep (r : list ascii) (acc : string) :
  has_sep acc = false -> has_sep (filepath.ext_scan r acc) = false.
Proof.
  revert acc. induction r as [|c r IH]; intros acc Ha; simpl; [reflexivity|].
  destruct (filepath.IsPathSeparator c) eqn:Hc; [reflexivity|].
  destruct (Ascii.eqb c "."); [simpl; rewrite Hc; exact Ha|].
  apply IH. simpl. rewrite Hc. exact Ha.
Qed.

Lemma Ext_no_sep (path : string) : has_sep (filepath.Ext path) = false.
Proof. apply ext_scan_no_sep. reflexivity. Qed.

Lemma last_elem_no_sep (r : list ascii) (acc : string) :
  has_sep acc = false -> has_sep (filepath.last_elem r acc) = false.
Proof.
  revert acc. induction r as [|c r IH]; intros acc Ha; simpl; [exact Ha|].
  destruct (filepath.IsPathSeparator c) eqn:Hc; [exact Ha|].
  apply IH. simpl. rewrite Hc. exact Ha.
Qed.

Lemma Base_shape (path : string) :
  filepath.Base path = "/" \/ has_sep (filepath.Base path) = false.
Proof.
  unfold filepath.Base. destruct (String.eqb path ""); [right; reflexivity|].
  destruct (String.eqb _ ""); [left; reflexivity|].
  right. apply last_elem_no_sep. reflexivity.
Qed.

Lemma take_no_sep (n : nat) (s : string) : has_sep s = false -> has_sep (GoStrings.take n s) = false.
Proof.
  revert s. induction n as [|n IH]; intros [|c s] H; simpl; try reflexivity.
  simpl in H. apply orb_false_iff in H as [Hc Hs]. rewrite Hc, (IH s Hs). reflexivity.
Qed.

Lemma TrimSuffix_no_sep (s x : string) : has_sep s = false -> has_sep (GoStrings.TrimSuffix s x) = false.
Proof.
  intros H. unfold GoStrings.TrimSuffix.
  destruct (GoStrings.HasSuffix s x); [apply take_no_sep|]; assumption.
Qed.

Lemma TrimSuffix_sep (x : string) : has_sep x = false -> GoStrings.TrimSuffix "/" x = "/".
Proof.
  intros H. destruct x as [|c x']; [reflexivity|].
  unfold GoStrings.TrimSuffix.
  assert (Hs : GoStrings.HasSuffix "/" (String c x') = false).
  { cbn [GoStrings.HasSuffix].
    destruct (String.eqb_spec "/" (String c x')) as [E|_]; [|reflexivity].
    injection E as <- <-. discriminate H. }
  rewrite Hs. reflexivity.
Qed.

Lemma baseName_shape (name : string) :
  baseName name = "/" \/ has_sep (baseName name) = false.
Proof.
  unfold baseName. destruct (Base_shape name) as [-> | H].
  - left. apply TrimSuffix_sep, Ext_no_sep.
  - right. apply TrimSuffix_no_sep. exact H.
Qed.

Lemma show_int_no_sep (z : Z) : has_sep (GoFmt.show_int z) = false.
Proof.
  unfold GoFmt.show_int, NilZero.string_of_int, NilZero.string_of_uint.
  destruct (Z.to_int z) as [d|d]; destruct d; try reflexivity;
    simpl; apply all_digits_no_sep, (uint_all_digits _).
Qed.

Lemma underscore_plain (a b : string) :
  has_sep a = false -> has_sep b = false -> plain (a ++ String "_" b) = true.
Proof.
  intros Ha Hb. unfold plain.
  rewrite has_sep_app, Ha. simpl. rewrite Hb. simpl.
  destruct a as [|c [|c' [|c'' a]]]; simpl;
    repeat match goal with
           | |- context [Ascii.eqb ?x ?y] => destruct (Ascii.eqb x y)
           | |- context [String.eqb ?x ?y] => destruct (String.eqb_spec x y); try discriminate
           end; try reflexivity.
Qed.

Lemma append_assoc (a b c : string) : (a ++ b) ++ c = a ++ b ++ c.
Proof. induction a as [|x a IH]; simpl; [reflexivity|]. rewrite IH. reflexivity. Qed.

(** The elements of a relative path without [..] survive cleaning, but for
    the empty ones and the dots. *)
Lemma Clean_relative (q : string) :
  filepath.is_rooted q = false ->
  Forall (fun e => e <> "..") (filepath.split q) ->
  filter plain (filepath.split q) <> [] ->
  filepath.Clean q = filepath.unsplit (filter plain (filepath.split q)).
Proof.
  intros Hr Hdd Hne.
  assert (Hq : q <> "").
  { intros ->. apply Hne. reflexivity. }
  rewrite Clean_unfold by assumption. unfold clean_stack. rewrite Hr.
  rewrite fold_no_dotdot.
  - rewrite app_nil_r. unfold filepath.render.
    destruct (rev (filter plain (filepath.split q))) eqn:E.
    + exfalso. apply Hne. apply (f_equal (@rev string)) in E.
      rewrite rev_involutive in E. exact E.
    + rewrite <- E, rev_involutive. reflexivity.
  - pose proof (split_all_no_sep q) as Hs. rewrite Forall_forall in *.
    intros e He. split; auto.
Qed.

Lemma Clean_under (p q q' : string) :
  p <> "" ->
  Forall (fun e => e <> "..") (filepath.split q) ->
  Forall (fun e => e <> "..") (filepath.split q') ->
  filter plain (filepath.split q) = filter plain (filepath.split q') ->
  filepath.Clean (p ++ String "/" q) = filepath.Clean (p ++ String "/" q').
Proof.
  intros Hp Hq Hq' Heq.
  rewrite !Clean_unfold by (apply app_not_empty; assumption).
  rewrite !is_rooted_app, !clean_stack_app by assumption.
  rewrite !fold_no_dotdot, Heq; [reflexivity| |].
  - pose proof (split_all_no_sep q') as Hs. rewrite Forall_forall in *.
    intros e He. split; auto.
  - pose proof (split_all_no_sep q) as Hs. rewrite Forall_forall in *.
    intros e He. split; auto.
Qed.

Lemma plain_not_dotdot (e : string) : plain e = true -> e <> "..".
Proof. intros H ->. discriminate H. Qed.

Lemma storedName_plain (name : string) (nano : Z) : plain (storedName name nano) = true.
Proof.
  unfold storedName. rewrite sep_underscore.
  apply underscore_plain.
  - destruct (String.eqb_spec (baseName name) "/"); [reflexivity|].
    destruct (baseName_shape name); [contradiction|assumption].
  - rewrite has_sep_app, show_int_no_sep, Ext_no_sep. reflexivity.
Qed.

Lemma uniqueName_elems (name : string) (nano : Z) :
  Forall (fun e => e <> "..") (filepath.split (uniqueName name nano)) /\
  filter plain (filepath.split (uniqueName name nano)) = [storedName name nano].
Proof.
  pose proof (storedName_plain name nano) as Hp. revert Hp.
  unfold uniqueName, storedName.
  destruct (String.eqb_spec (baseName name) "/") as [E|E]; intros Hp.
  - rewrite E. change ("/" ++ ?x) with (String "/" x). rewrite split_sep_cons.
    change ("" ++ ?x) with x in Hp. change ("" ++ ?x) with x.
    rewrite split_no_sep by (apply plain_no_sep; exact Hp).
    cbn [filter]. rewrite Hp. change (plain "") with false. cbn iota.
    split; [|reflexivity].
    repeat constructor; [discriminate|apply plain_not_dotdot; exact Hp].
  - rewrite split_no_sep by (apply plain_no_sep; exact Hp).
    cbn [filter]. rewrite Hp. split; [|reflexivity].
    repeat constructor. apply plain_not_dotdot. exact Hp.
Qed.

Lemma dated_elems (t : time.Time) (q : string) (last : string) :
  Forall (fun e => e <> "..") (filepath.split q) ->
  filter plain (filepath.split q) = [last] ->
  filepath.is_rooted (time.Format_2006_01_02 t ++ String "/" q) = false /\
  Forall (fun e => e <> "..") (filepath.split (time.Format_2006_01_02 t ++ String "/" q)) /\
  filter plain (filepath.split (time.Format_2006_01_02 t ++ String "/" q))
  = [GoFmt.pad 4 (time.Year t); GoFmt.pad 2 (time.Month t); GoFmt.pad 2 (time.Day t); last] /\
  filepath.unsplit [GoFmt.pad 4 (time.Year t); GoFmt.pad 2 (time.Month t);
                    GoFmt.pad 2 (time.Day t); last]
  = time.Format_2006_01_02 t ++ String "/" last.
Proof.
  intros Hdd Hf. repeat split.
  - rewrite is_rooted_app by apply date_not_empty. apply date_not_rooted.
  - rewrite split_app, split_date. apply Forall_app. split; [|exact Hdd].
    repeat constructor; apply plain_not_dotdot, pad_plain.
  - rewrite split_app, split_date, filter_app, Hf. cbn [filter].
    rewrite !pad_plain. reflexivity.
  - unfold time.Format_2006_01_02, filepath.unsplit. cbn [String.concat].
    rewrite !sep_app, !append_assoc. cbn [append]. rewrite !append_assoc. reflexivity.
Qed.

Lemma plain_elems (e : string) :
  plain e = true ->
  Forall (fun x => x <> "..") (filepath.split e) /\ filter plain (filepath.split e) = [e].
Proof.
  intros H. rewrite split_no_sep by (apply plain_no_sep; exact H).
  cbn [filter]. rewrite H. split; [|reflexivity].
  repeat constructor. apply plain_not_dotdot. exact H.
Qed.

Lemma Join2 (a b : string) :
  a <> "" -> filepath.Join [a; b] = filepath.Clean (a ++ String "/" b).
Proof.
  intros Ha. unfold filepath.Join.
  destruct (String.eqb_spec a ""); [contradiction|reflexivity].
Qed.

(** The object key of the Aliyun and Tencent adapters. *)
Lemma dated_key (t : time.Time) (name : string) (nano : Z) :
  filepath.Join [time.Format_2006_01_02 t; uniqueName name nano]
  = time.Format_2006_01_02 t ++ String "/" (storedName name nano).
Proof.
  rewrite Join2 by apply date_not_empty.
  destruct (uniqueName_elems name nano) as [Hdd Hf].
  destruct (dated_elems t _ _ Hdd Hf) as (Hr & Hd & Hfl & Hu).
  rewrite Clean_relative, Hfl by (assumption || (rewrite Hfl; discriminate)).
  exact Hu.
Qed.

(** The path of the Local adapter and its locator. *)
Lemma dated_path (bp : string) (t : time.Time) (name : string) (nano : Z) :
  bp <> "" ->
  filepath.Join [filepath.Join [bp; time.Format_2006_01_02 t]; uniqueName name nano]
  = filepath.Clean (bp ++ String "/"
                       (time.Format_2006_01_02 t ++ String "/" (storedName name nano))).
Proof.
  intros Hbp. rewrite (Join2 bp) by assumption.
  rewrite Join2 by apply Clean_not_empty.
  rewrite Clean_join by (apply app_not_empty; assumption).
  change (String "/" ?x) with ("/" ++ x). rewrite !append_assoc. rewrite !sep_app.
  destruct (uniqueName_elems name nano) as [Hdd Hf].
  destruct (dated_elems t _ _ Hdd Hf) as (_ & Hd & Hfl & _).
  destruct (plain_elems _ (storedName_plain name nano)) as [Hdd' Hf'].
  destruct (dated_elems t _ _ Hdd' Hf') as (_ & Hd' & Hfl' & _).
  apply Clean_under; try assumption. rewrite Hfl, Hfl'. reflexivity.
Qed.

Lemma dated_locator (bp : string) (t : time.Time) (name : string) (nano : Z) :
  bp <> "" ->
  filepath.Rel bp (filepath.Clean
                     (bp ++ String "/"
                         (time.Format_2006_01_02 t ++ String "/" (storedName name nano))))
  = Some (time.Format_2006_01_02 t ++ String "/" (storedName name nano)).
Proof.
  intros Hbp.
  destruct (plain_elems _ (storedName_plain name nano)) as [Hdd Hf].
  destruct (dated_elems t _ _ Hdd Hf) as (_ & Hd & Hfl & Hu).
  rewrite Rel_Join; try assumption.
  - rewrite Hfl, Hu. reflexivity.
  - rewrite Hfl. discriminate.
Qed.


(** ** Rejections that leave the world untouched *)

Lemma UploadFile_nil_rejected (a : uploader.Adapter) (w : World) :
  exists msg, uploader.UploadFile a None w = (fail (errors_New msg), w).
Proof. destruct a; simpl; eexists; reflexivity. Qed.

Lemma UploadBinary_empty_rejected (a : uploader.Adapter) (filename : string) (w : World) :
  exists msg, uploader.UploadBinary a filename [] w = (fail (errors_New msg), w).
Proof.
  destruct a; simpl; try (eexists; reflexivity).
  unfold qiniu.UploadBinary. destruct (String.eqb filename ""); eexists; reflexivity.
Qed.

Lemma UploadBase64_empty_rejected (a : uploader.Adapter) (filename : string) (w : World) :
  exists msg, uploader.UploadBase64 a filename "" w = (fail (errors_New msg), w).
Proof.
  destruct a; simpl; try (eexists; reflexivity).
  unfold qiniu.UploadBase64. destruct (String.eqb filename ""); eexists; reflexivity.
Qed.

Lemma remote_Delete_empty_rejected (a : uploader.Adapter) (w : World) :
  (forall u, a <> uploader.LocalAdapter u) ->
  exists msg, uploader.Delete a "" w = (Some (errors_New msg), w).
Proof.
  intros Hremote. destruct a; simpl; try (eexists; reflexivity).
  exfalso. apply (Hremote u). reflexivity.
Qed.

Lemma kind_errors_New (msg : string) : kind (errors_New msg) = InvalidInput.
Proof. reflexivity. Qed.

(** ** The primitive steps *)

Lemma call_trace (c : Call) (w : World) :
  trace (snd (call c w)) = (c, fst (call c w)) :: trace w.
Proof.
  unfold call. simpl. destruct (outcome c w); [reflexivity|].
  destruct c; reflexivity.
Qed.

Lemma call_fault (c : Call) (w : World) : fault (snd (call c w)) = fault w.
Proof.
  unfold call. simpl. destruct (outcome c w); [reflexivity|].
  destruct c; reflexivity.
Qed.

Lemma call_clock (c : Call) (w : World) :
  clock (snd (call c w)) = clock w /\ ticks (snd (call c w)) = ticks w.
Proof.
  unfold call. simpl. destruct (outcome c w); [split; reflexivity|].
  destruct c; split; reflexivity.
Qed.

(** ** The uploads, case by case *)

Lemma lookup_set (f : FS.t) (p : string) (n : FS.node) : FS.lookup (FS.set f p n) p = Some n.
Proof. unfold FS.lookup, FS.set. simpl. rewrite String.eqb_refl. reflexivity. Qed.

Lemma call_ok (c : Call) (w : World) :
  fst (call c w) = None -> snd (call c w) = log (c, None) (effect c w).
Proof. unfold call. simpl. intros ->. reflexivity. Qed.

Lemma New_basePath (cfg : config.LocalConfig.t) :
  local.basePath (local.New cfg)
  = (if String.eqb (config.LocalConfig.BasePath cfg) "" then "storage/uploads"
     else config.LocalConfig.BasePath cfg) /\
  local.basePath (local.New cfg) <> "".
Proof.
  unfold local.New. simpl. split; [reflexivity|].
  destruct (String.eqb_spec (config.LocalConfig.BasePath cfg) ""); [discriminate|assumption].
Qed.


(** What [local.UploadBinary] does with a content that is not empty. *)
Lemma local_UploadBinary_cases (u : local.LocalUploader) (filename : string)
      (b : byte) (rest : list byte) (w : World) :
  local.basePath u <> "" ->
  let date := time.Format_2006_01_02 (clock w (ticks w)) in
  let name := storedName filename (time.UnixNano (clock w (S (ticks w)))) in
  let path := filepath.Clean (local.basePath u ++ String "/" (date ++ String "/" name)) in
  let r := local.UploadBinary u filename (b :: rest) w in
  (exists f c, fst r = fail (fmt_Errorf f (foreign c)) \/
               fst r = fail (fmt_Errorf "failed to generate file path: %w" (fmt_Errorf f (foreign c)))) \/
  (fst r = ok (date ++ String "/" name) /\
   FS.lookup (fs (snd r)) path = Some (FS.File (b :: rest))).
Proof.
  intros Hbp date name path r. subst date name path r.
  unfold local.UploadBinary, local.generateFilePath, time_Now.
  cbn [List.length Nat.eqb].
  match goal with |- context [call ?c ?w0] =>
    pose proof (call_clock c w0) as [Hck Htk];
    destruct (call c w0) as [err1 w2] end.
  cbn [snd clock ticks] in Hck, Htk.
  destruct err1 as [e1|].
  { left. exists "failed to create storage directory: %w", e1. right. reflexivity. }
  cbn [ok fail fst snd].
  rewrite Hck, Htk.
  change (GoStrings.TrimSuffix (filepath.Base filename) (filepath.Ext filename)
          ++ "_" ++ GoFmt.show_int ?n ++ filepath.Ext filename)
    with (uniqueName filename n).
  rewrite dated_path by assumption.
  match goal with |- context [call ?c ?w0] =>
    pose proof (call_ok c w0) as Hok; destruct (call c w0) as [err2 w3] end.
  destruct err2 as [e2|].
  { left. exists "failed to write file: %w", e2. left. reflexivity. }
  right. cbn [fst snd] in *. rewrite (Hok eq_refl).
  unfold local.locator. rewrite dated_locator by assumption.
  split; [reflexivity|]. cbn [effect log with_fs fs]. apply lookup_set.
Qed.

Lemma get_put (s : Store.t) (p : Store.provider) (bucket key : string) (d : list byte) :
  Store.get (Store.put s p bucket key d) p bucket key = Some d.
Proof.
  unfold Store.get, Store.put. simpl.
  rewrite !String.eqb_refl. destruct p; reflexivity.
Qed.

Lemma aliyun_key (u : aliyun.AliUploader) (name : string) (w : World) :
  fst (aliyun.generateObjectKey u name w)
  = time.Format_2006_01_02 (clock w (ticks w))
    ++ String "/" (storedName name (time.UnixNano (clock w (S (ticks w))))) /\
  fault (snd (aliyun.generateObjectKey u name w)) = fault w /\
  objects (snd (aliyun.generateObjectKey u name w)) = objects w /\
  fs (snd (aliyun.generateObjectKey u name w)) = fs w /\
  trace (snd (aliyun.generateObjectKey u name w)) = trace w.
Proof.
  unfold aliyun.generateObjectKey, time_Now. cbn [fst snd clock ticks fault objects fs trace].
  repeat split.
  change (GoStrings.TrimSuffix (filepath.Base name) (filepath.Ext name)
          ++ "_" ++ GoFmt.show_int ?n ++ filepath.Ext name)
    with (uniqueName name n).
  apply dated_key.
Qed.

Lemma tencent_key (u : tencent.TencentUploader) (name : string) (w : World) :
  fst (tencent.generateObjectKey u name w)
  = time.Format_2006_01_02 (clock w (ticks w))
    ++ String "/" (storedName name (time.UnixNano (clock w (S (ticks w))))) /\
  fault (snd (tencent.generateObjectKey u name w)) = fault w /\
  objects (snd (tencent.generateObjectKey u name w)) = objects w /\
  fs (snd (tencent.generateObjectKey u name w)) = fs w /\
  trace (snd (tencent.generateObjectKey u name w)) = trace w.
Proof.
  unfold tencent.generateObjectKey, time_Now. cbn [fst snd clock ticks fault objects fs trace].
  repeat split.
  change (GoStrings.TrimSuffix (filepath.Base name) (filepath.Ext name)
          ++ "_" ++ GoFmt.show_int ?n ++ filepath.Ext name)
    with (uniqueName name n).
  apply dated_key.
Qed.

Lemma qiniu_key (h : qiniu.qiniuUploader) (name : string) (w : World) :
  fst (qiniu.generateUniqueKey h name w)
  = GoFmt.show_int (time.UnixNano (clock w (ticks w))) ++ "_"
    ++ GoStrings.take 8 (uuids w (drawn w)) ++ filepath.Ext name.
Proof. reflexivity. Qed.

(** What the Aliyun and Tencent [UploadBinary] do with a content that is
    not empty. *)
Lemma aliyun_UploadBinary_cases (u : aliyun.AliUploader) (filename : string)
      (b : byte) (rest : list byte) (w : World) :
  let key := time.Format_2006_01_02 (clock w (ticks w))
             ++ String "/" (storedName filename (time.UnixNano (clock w (S (ticks w))))) in
  let r := aliyun.UploadBinary u filename (b :: rest) w in
  (exists f c, fst r = fail (fmt_Errorf f (foreign c))) \/
  (fst r = ok (aliyun.endpoint u ++ "/" ++ key) /\
   Store.get (objects (snd r)) Store.aliyun_oss (oss.BucketName (aliyun.bucket u)) key
   = Some (b :: rest)).
Proof.
  intros key r. subst key r. unfold aliyun.UploadBinary. cbn [List.length Nat.eqb].
  destruct (aliyun_key u filename w) as (Hk & _).
  destruct (aliyun.generateObjectKey u filename w) as [k w1]. cbn [fst] in Hk. subst k.
  match goal with |- context [call ?c ?w0] =>
    pose proof (call_ok c w0) as Hok; destruct (call c w0) as [err w2] end.
  destruct err as [e|].
  { left. eexists _, e. reflexivity. }
  right. cbn [fst snd] in *. rewrite (Hok eq_refl).
  split; [reflexivity|]. cbn [effect log with_objects objects]. apply get_put.
Qed.

Lemma tencent_UploadBinary_cases (u : tencent.TencentUploader) (filename : string)
      (b : byte) (rest : list byte) (w : World) :
  let key := time.Format_2006_01_02 (clock w (ticks w))
             ++ String "/" (storedName filename (time.UnixNano (clock w (S (ticks w))))) in
  let r := tencent.UploadBinary u filename (b :: rest) w in
  (exists f c, fst r = fail (fmt_Errorf f (foreign c))) \/
  (fst r = ok (tencent.getFileURL u key) /\
   Store.get (objects (snd r)) Store.tencent_cos (cos.BucketURL (tencent.client u)) key
   = Some (b :: rest)).
Proof.
  intros key r. subst key r. unfold tencent.UploadBinary. cbn [List.length Nat.eqb].
  destruct (tencent_key u filename w) as (Hk & _).
  destruct (tencent.generateObjectKey u filename w) as [k w1]. cbn [fst] in Hk. subst k.
  match goal with |- context [call ?c ?w0] =>
    pose proof (call_ok c w0) as Hok; destruct (call c w0) as [err w2] end.
  destruct err as [e|].
  { left. eexists _, e. reflexivity. }
  right. cbn [fst snd] in *. rewrite (Hok eq_refl).
  split; [reflexivity|]. cbn [effect log with_objects objects]. apply get_put.
Qed.

(** [local.Delete] has no guard: the empty locator resolves to the base
    directory itself, which is looked up first. *)
Lemma local_Delete_empty_stats_base (u : local.LocalUploader) (w : World) :
  exists r post,
    trace (snd (local.Delete u "" w))
    = (post ++ (os_Stat (filepath.Join [local.basePath u; ""]), r) :: trace w)%list.
Proof.
  unfold local.Delete.
  pose proof (call_trace (os_Stat (filepath.Join [local.basePath u; ""])) w) as Hs.
  destruct (call (os_Stat (filepath.Join [local.basePath u; ""])) w) as [r w'].
  simpl in Hs. exists r.
  destruct (os_IsNotExist r).
  - exists []. exact Hs.
  - pose proof (call_trace (os_Remove (filepath.Join [local.basePath u; ""])) w') as Hr.
    destruct (call (os_Remove (filepath.Join [local.basePath u; ""])) w') as [r2 w2].
    simpl in Hr. exists [(os_Remove (filepath.Join [local.basePath u; ""]), r2)].
    destruct r2; simpl; rewrite Hr, Hs; reflexivity.
Qed.

(** C1.  [local.Delete] with the empty locator on an adapter whose base
    directory [t] exists and is empty: the call looks the base directory up,
    removes it and reports success, where the three remote adapters answer
    the empty locator with an error before any call. *)
Theorem local_Delete_empty_locator_removes_base_directory :
  let w := Sample.world [("t", FS.Dir)] [] in
  let r := local.Delete Sample.localT "" w in
  fst r = None /\
  FS.exists_ (fs w) "t" = true /\
  FS.exists_ (fs (snd r)) "t" = false /\
  trace (snd r) = [(os_Remove "t", None); (os_Stat "t", None)].
Proof. vm_compute. repeat split. Qed.

(** C7.  Every adapter rejects a nil file header, an empty content and an
    empty base64 string with an [InvalidInput] error and leaves the world as
    it was; so do the three remote adapters for an empty locator; but
    [local.Delete] starts with [os.Stat] on the base directory whatever the
    locator. *)
Theorem input_guards_and_the_missing_one :
  (forall a w, exists e,
      uploader.UploadFile a None w = (fail e, w) /\ kind e = InvalidInput) /\
  (forall a filename w, exists e,
      uploader.UploadBinary a filename [] w = (fail e, w) /\ kind e = InvalidInput) /\
  (forall a filename w, exists e,
      uploader.UploadBase64 a filename "" w = (fail e, w) /\ kind e = InvalidInput) /\
  (forall u w, exists e,
      qiniu.Delete u "" w = (Some e, w) /\ kind e = InvalidInput) /\
  (forall u w, exists e,
      aliyun.Delete u "" w = (Some e, w) /\ kind e = InvalidInput) /\
  (forall u w, exists e,
      tencent.Delete u "" w = (Some e, w) /\ kind e = InvalidInput) /\
  (forall u w, exists r post,
      trace (snd (local.Delete u "" w))
      = (post ++ (os_Stat (filepath.Join [local.basePath u; ""]), r) :: trace w)%list).
Proof.
  repeat split.
  - intros a w. destruct (UploadFile_nil_rejected a w) as [msg H].
    exists (errors_New msg). split; [exact H | reflexivity].
  - intros a f w. destruct (UploadBinary_empty_rejected a f w) as [msg H].
    exists (errors_New msg). split; [exact H | reflexivity].
  - intros a f w. destruct (UploadBase64_empty_rejected a f w) as [msg H].
    exists (errors_New msg). split; [exact H | reflexivity].
  - intros u w. eexists. split; reflexivity.
  - intros u w. eexists. split; reflexivity.
  - intros u w. eexists. split; reflexivity.
  - intros u w. apply local_Delete_empty_stats_base.
Qed.

(** C6.  The factory agrees with its specification: an unrecognized kind
    gives [ErrUnsupportedType]; a recognized kind with a value that is not
    its configuration variant gives [ErrInvalidConfig]; otherwise the result
    is that of the constructor of the backend. *)
Theorem NewUploader_meets_its_specification
        (t : uploader.UploadType) (cfg : uploader.any) (w : World) :
  uploader.NewUploader t cfg w = FactorySpec.NewUploader t cfg w.
Proof.
  unfold uploader.NewUploader, FactorySpec.NewUploader, FactorySpec.recognize,
    uploader.Local, uploader.Qiniu, uploader.Aliyun, uploader.Tencent.
  destruct (String.eqb t "local").
  { destruct cfg; reflexivity. }
  destruct (String.eqb t "qiniu").
  { destruct cfg; try reflexivity. simpl.
    destruct (qiniu.New c w) as [[p e] w']. reflexivity. }
  destruct (String.eqb t "aliyun").
  { destruct cfg; try reflexivity. simpl.
    destruct (aliyun.New c w) as [[p e] w']. reflexivity. }
  destruct (String.eqb t "tencent").
  { destruct cfg; try reflexivity. simpl.
    destruct (tencent.New c w) as [[p e] w']. reflexivity. }
  reflexivity.
Qed.

(** C9.  The factory never fails on a Local configuration and does not
    touch the world: no field is validated and the file system is not
    consulted.  A base path that is a regular file is accepted, and the
    first upload or delete is where it fails: the upload when the storage
    directory is made, the delete when [os.Remove] is refused after an
    [os.Stat] whose failure is not that of a missing file. *)
Theorem NewUploader_Local_never_fails :
  (forall cfg w,
      uploader.NewUploader uploader.Local (uploader.a_LocalConfig cfg) w
      = ((Some (uploader.of_local (local.New cfg)), None), w)) /\
  (let cfg := {| config.LocalConfig.BasePath := "t" |} in
   let w := Sample.world [("t", FS.File Sample.hello)] [] in
   fst (uploader.NewUploader uploader.Local (uploader.a_LocalConfig cfg) w)
   = (Some (uploader.of_local (local.New cfg)), None) /\
   fst (local.UploadBinary (local.New cfg) "a.txt" Sample.hello w)
   = fail (fmt_Errorf "failed to generate file path: %w"
             (fmt_Errorf "failed to create storage directory: %w" (foreign ENOTDIR))) /\
   fst (local.Delete (local.New cfg) "a.txt" w)
   = Some (fmt_Errorf "failed to delete file: %v" (foreign ENOTDIR)) /\
   trace (snd (local.Delete (local.New cfg) "a.txt" w))
   = [(os_Remove "t/a.txt", Some ENOTDIR); (os_Stat "t/a.txt", Some ENOTDIR)]).
Proof.
  split.
  - intros cfg w. reflexivity.
  - vm_compute. repeat split.
Qed.

Lemma call_world (c : Call) (w : World) :
  snd (call c w)
  = log (c, fst (call c w)) (match fst (call c w) with
                             | None => effect c w
                             | Some _ => w
                             end).
Proof. reflexivity. Qed.

Ltac ok_call H :=
  match type of H with
  | context [call ?c ?w0] =>
      lazymatch w0 with
      | context [call] => fail
      | _ => idtac
      end;
      let E := fresh "E" in
      pose proof (call_world c w0) as E;
      destruct (call c w0) as [[?e|] ?w];
      cbn [fst snd fail ok] in H, E; subst;
      cbn [clock ticks uuids drawn fault fs objects trace log effect with_fs] in H;
      try discriminate H
  end.

(** What a successful [local.UploadFile] leaves. *)
Lemma local_UploadFile_ok (u : local.LocalUploader) (fh : multipart.FileHeader)
      (w w' : World) (loc : string) :
  local.basePath u <> "" ->
  local.UploadFile u (Some fh) w = (ok loc, w') ->
  let date := time.Format_2006_01_02 (clock w (ticks w)) in
  let name := storedName (multipart.Filename fh) (time.UnixNano (clock w (S (ticks w)))) in
  let path := filepath.Clean (local.basePath u ++ String "/" (date ++ String "/" name)) in
  loc = date ++ String "/" name /\
  FS.lookup (fs w') path = Some (FS.File (multipart.Body fh)).
Proof.
  intros Hbp H date name path. subst date name path.
  unfold local.UploadFile, local.UploadFile_opened, local.generateFilePath, time_Now in H.
  ok_call H.
  cbn [clock ticks uuids drawn fault fs objects trace] in H.
  ok_call H.
  change (GoStrings.TrimSuffix (filepath.Base ?n) (filepath.Ext ?n)
          ++ "_" ++ GoFmt.show_int ?z ++ filepath.Ext ?n)
    with (uniqueName n z) in H.
  rewrite dated_path in H by assumption.
  ok_call H.
  ok_call H.
  unfold local.locator in H. rewrite dated_locator in H by assumption.
  ok_call H; ok_call H; injection H as <- <-;
    (split; [reflexivity|]);
    cbn [clock ticks uuids drawn fault fs objects trace log effect with_fs];
    apply lookup_set.
Qed.

(** C8.  A successful upload of the Local adapter, by any of the three
    operations, stores the content at
    [<basePath>/<YYYY>/<MM>/<DD>/<base>_<unixNano><ext>] (cleaned, as
    [filepath.Join] returns it), where [basePath] is the configured one or
    [storage/uploads]; the locator is that path relative to [basePath], which
    [filepath.Rel] always finds, so that the fallback to the full path is
    never taken. *)
Theorem local_upload_layout (cfg : config.LocalConfig.t) (filename : string)
        (content : list byte) (w w' : World) (loc : string) :
  local_upload (local.New cfg) filename content w (ok loc, w') ->
  let basePath := if String.eqb (config.LocalConfig.BasePath cfg) ""
                  then "storage/uploads" else config.LocalConfig.BasePath cfg in
  let date := time.Format_2006_01_02 (clock w (ticks w)) in
  let name := storedName filename (time.UnixNano (clock w (S (ticks w)))) in
  let stored := filepath.Clean (basePath ++ "/" ++ date ++ "/" ++ name) in
  FS.lookup (fs w') stored = Some (FS.File content) /\
  filepath.Rel basePath stored = Some loc /\
  loc = date ++ "/" ++ name.
Proof.
  intros H basePath date name stored.
  destruct (New_basePath cfg) as [Hb Hne].
  assert (Hk : loc = date ++ String "/" name /\
               FS.lookup (fs w')
                 (filepath.Clean (local.basePath (local.New cfg)
                                  ++ String "/" (date ++ String "/" name)))
               = Some (FS.File content)).
  { assert (Hbin : forall data, local.UploadBinary (local.New cfg) filename data w = (ok loc, w') ->
                     loc = date ++ String "/" name /\
                     FS.lookup (fs w')
                       (filepath.Clean (local.basePath (local.New cfg)
                                        ++ String "/" (date ++ String "/" name)))
                     = Some (FS.File data)).
    { intros data Hd. destruct data as [|b rest]; [discriminate Hd|].
      pose proof (local_UploadBinary_cases (local.New cfg) filename b rest w Hne) as Hc.
      cbv zeta in Hc. rewrite Hd in Hc. cbn [fst snd] in Hc.
      destruct Hc as [(f & c & [Hf | Hf]) | (Hl & Hs)]; try discriminate Hf.
      injection Hl as ->. split; [reflexivity | exact Hs]. }
    destruct H as [H | [(s & Hs & H) | (size & H)]].
    - apply Hbin. symmetry. exact H.
    - apply Hbin. rewrite H. unfold local.UploadBase64 in *.
      destruct (String.eqb s ""); [discriminate H|].
      rewrite Hs. reflexivity.
    - symmetry in H. apply (local_UploadFile_ok _ _ _ _ _ Hne H). }
  destruct Hk as [-> Hs].
  subst stored date name basePath. rewrite !sep_app. rewrite Hb in Hs, Hne.
  split; [exact Hs|]. split; [|reflexivity].
  apply dated_locator. exact Hne.
Qed.

Lemma local_upload_layout_witness :
  let cfg := {| config.LocalConfig.BasePath := "./t" |} in
  let w := Sample.world [] [] in
  let r := local.UploadBinary (local.New cfg) "a.txt" Sample.hello w in
  local_upload (local.New cfg) "a.txt" Sample.hello w
               (ok "2025/07/01/a_1751328000000000001.txt", snd r) /\
  FS.lookup (fs (snd r)) "t/2025/07/01/a_1751328000000000001.txt"
  = Some (FS.File Sample.hello) /\
  filepath.Rel "./t" "t/2025/07/01/a_1751328000000000001.txt"
  = Some "2025/07/01/a_1751328000000000001.txt".
Proof.
  intros cfg w r.
  assert (H : local_upload (local.New cfg) "a.txt" Sample.hello w
                           (ok "2025/07/01/a_1751328000000000001.txt", snd r)).
  { left. apply injective_projections; [vm_compute; reflexivity | reflexivity]. }
  split; [exact H|].
  destruct (local_upload_layout cfg "a.txt" Sample.hello w (snd r) _ H) as (H1 & H2 & _).
  split; [exact H1 | exact H2].
Defined.

(** C2, as the code has it.  The Aliyun and Tencent adapters generate
    [<YYYY>/<MM>/<DD>/<base>_<unixNano><ext>], the date and the timestamp
    being two successive readings of the clock and [<base>] the last element
    of the name without its extension (nothing for a name made of separators
    only); the Qiniu adapter generates [<unixNano>_<8 characters of a
    UUID><ext>], with neither date path nor base name. *)
Theorem remote_object_keys (name : string) (w : World) :
  (forall u, fst (aliyun.generateObjectKey u name w)
             = time.Format_2006_01_02 (clock w (ticks w)) ++ "/"
               ++ storedName name (time.UnixNano (clock w (S (ticks w))))) /\
  (forall u, fst (tencent.generateObjectKey u name w)
             = time.Format_2006_01_02 (clock w (ticks w)) ++ "/"
               ++ storedName name (time.UnixNano (clock w (S (ticks w))))) /\
  (forall h, fst (qiniu.generateUniqueKey h name w)
             = GoFmt.show_int (time.UnixNano (clock w (ticks w))) ++ "_"
               ++ GoStrings.take 8 (uuids w (drawn w)) ++ filepath.Ext name) /\
  (forall nano, storedName name nano
                = if String.eqb (baseName name) "/"
                  then "_" ++ GoFmt.show_int nano ++ filepath.Ext name
                  else uniqueName name nano).
Proof.
  repeat split.
  - intros u. apply aliyun_key.
  - intros u. apply tencent_key.
  - intros nano. unfold storedName, uniqueName.
    destruct (String.eqb (baseName name) "/"); reflexivity.
Qed.

(** The key the Qiniu adapter generates for [a.txt] holds no separator: it
    is under no date path. *)
Lemma qiniu_key_is_not_dated :
  let key := fst (qiniu.generateUniqueKey Sample.qiniuT "a.txt" (Sample.world [] [])) in
  key = "1751328000000000000_3f2a9c1e.txt" /\
  ~ (exists t nano, key = time.Format_2006_01_02 t ++ "/" ++ uniqueName "a.txt" nano).
Proof.
  split; [vm_compute; reflexivity|].
  intros (t & nano & H). apply (f_equal has_sep) in H.
  rewrite has_sep_app in H. rewrite sep_app in H. cbn [has_sep] in H.
  change (filepath.IsPathSeparator "/") with true in H.
  rewrite orb_true_r in H. vm_compute in H. discriminate H.
Qed.

Lemma append_nil_r (s : string) : s ++ "" = s.
Proof. induction s as [|c s IH]; simpl; [reflexivity|]. rewrite IH. reflexivity. Qed.

Lemma storedName_empty (nano : Z) : storedName "" nano = "._" ++ GoFmt.show_int nano.
Proof.
  unfold storedName. change (baseName "") with ".". change (filepath.Ext "") with "".
  cbn [String.eqb Ascii.eqb Bool.eqb]. rewrite append_nil_r. reflexivity.
Qed.

(** The empty file name under the Local adapter with base directory [t]:
    the upload succeeds and the file is named [._<unixNano>]; nothing is
    stored under [_<unixNano>]. *)
Lemma empty_filename_is_stored_with_a_dot :
  let r := local.UploadBinary Sample.localT "" Sample.hello (Sample.world [] []) in
  fst r = ok "2025/07/01/._1751328000000000001" /\
  FS.lookup (fs (snd r)) "t/2025/07/01/._1751328000000000001" = Some (FS.File Sample.hello) /\
  FS.lookup (fs (snd r)) "t/2025/07/01/_1751328000000000001" = None.
Proof. vm_compute. repeat split. Qed.

(** ** Base64 *)

Lemma sextet_bound (val shift : N) : (base64.sextet val shift < 64)%N.
Proof. unfold base64.sextet. apply N.mod_lt. discriminate. Qed.

Lemma below_64 (P : N -> Prop) :
  (forall k, (k < 64)%nat -> P (N.of_nat k)) -> forall n, (n < 64)%N -> P n.
Proof.
  intros H n Hn. rewrite <- (N2Nat.id n). apply H. lia.
Qed.

Lemma decode_encode_char (n : N) :
  (n < 64)%N ->
  base64.decode_char (base64.encode_char n) = Some n /\
  Ascii.eqb (base64.encode_char n) base64.padChar = false /\
  base64.is_newline (base64.encode_char n) = false.
Proof.
  revert n. apply below_64. intros k Hk.
  do 64 (destruct k as [|k]; [vm_compute; repeat split|]). lia.
Qed.

Lemma byte_of_to_N (b : byte) : base64.byte_of_N (Byte.to_N b) = b.
Proof. unfold base64.byte_of_N. rewrite Byte.of_to_N. reflexivity. Qed.

Lemma group_bound (a b c : byte) : (base64.group a b c < 16777216)%N.
Proof.
  unfold base64.group.
  pose proof (Byte.to_N_bounded a). pose proof (Byte.to_N_bounded b).
  pose proof (Byte.to_N_bounded c). lia.
Qed.

Lemma quantum_sextets (val : N) :
  (val < 16777216)%N ->
  base64.quantum (base64.sextet val 18) (base64.sextet val 12)
                 (base64.sextet val 6) (base64.sextet val 0) = val.
Proof.
  intros H. unfold base64.quantum, base64.sextet.
  change (2 ^ 18)%N with 262144%N. change (2 ^ 12)%N with 4096%N.
  change (2 ^ 6)%N with 64%N. change (2 ^ 0)%N with 1%N.
  zify; Z.to_euclidean_division_equations; lia.
Qed.

Lemma octets_group (a b c : byte) :
  base64.octet (base64.group a b c) 16 = a /\
  base64.octet (base64.group a b c) 8 = b /\
  base64.octet (base64.group a b c) 0 = c.
Proof.
  unfold base64.octet.
  change (2 ^ 16)%N with 65536%N. change (2 ^ 8)%N with 256%N. change (2 ^ 0)%N with 1%N.
  pose proof (Byte.to_N_bounded a) as Ha. pose proof (Byte.to_N_bounded b) as Hb.
  pose proof (Byte.to_N_bounded c) as Hc.
  assert (H16 : ((base64.group a b c / 65536) mod 256 = Byte.to_N a)%N).
  { unfold base64.group. zify; Z.to_euclidean_division_equations; lia. }
  assert (H8 : ((base64.group a b c / 256) mod 256 = Byte.to_N b)%N).
  { unfold base64.group. zify; Z.to_euclidean_division_equations; lia. }
  assert (H0 : ((base64.group a b c / 1) mod 256 = Byte.to_N c)%N).
  { unfold base64.group. zify; Z.to_euclidean_division_equations; lia. }
  rewrite H16, H8, H0, !byte_of_to_N. repeat split.
Qed.

Lemma sextets_of_one (a : byte) :
  base64.sextet (base64.group a x00 x00) 6 = 0%N /\
  base64.sextet (base64.group a x00 x00) 0 = 0%N.
Proof.
  unfold base64.sextet, base64.group. change (Byte.to_N x00) with 0%N.
  change (2 ^ 6)%N with 64%N. change (2 ^ 0)%N with 1%N.
  pose proof (Byte.to_N_bounded a) as Ha.
  split; zify; Z.to_euclidean_division_equations; lia.
Qed.

Lemma sextets_of_two (a b : byte) :
  base64.sextet (base64.group a b x00) 0 = 0%N.
Proof.
  unfold base64.sextet, base64.group. change (Byte.to_N x00) with 0%N.
  change (2 ^ 0)%N with 1%N.
  pose proof (Byte.to_N_bounded a) as Ha. pose proof (Byte.to_N_bounded b) as Hb.
  zify; Z.to_euclidean_division_equations; lia.
Qed.

Lemma list_ind3 {A : Type} (P : list A -> Prop) :
  P [] -> (forall a, P [a]) -> (forall a b, P [a; b]) ->
  (forall a b c l, P l -> P (a :: b :: c :: l)) ->
  forall l, P l.
Proof.
  intros H0 H1 H2 H3 l.
  assert (H : P l /\ (forall a, P (a :: l)) /\ (forall a b, P (a :: b :: l))).
  { induction l as [|x l (IH0 & IH1 & IH2)].
    - repeat split; auto.
    - repeat split; auto. }
  apply H.
Qed.

(** The four characters of a full group decode to the group. *)
Lemma decode_group (val : N) :
  (val < 16777216)%N ->
  base64.decode_char (base64.encode_char (base64.sextet val 18)) = Some (base64.sextet val 18) /\
  base64.decode_char (base64.encode_char (base64.sextet val 12)) = Some (base64.sextet val 12) /\
  base64.decode_char (base64.encode_char (base64.sextet val 6)) = Some (base64.sextet val 6) /\
  base64.decode_char (base64.encode_char (base64.sextet val 0)) = Some (base64.sextet val 0).
Proof.
  intros _. repeat split; apply decode_encode_char, sextet_bound.
Qed.

Lemma encode_char_not_pad (val shift : N) :
  Ascii.eqb (base64.encode_char (base64.sextet val shift)) base64.padChar = false.
Proof. apply decode_encode_char, sextet_bound. Qed.

Lemma encode_char_not_newline (val shift : N) :
  base64.is_newline (base64.encode_char (base64.sextet val shift)) = false.
Proof. apply decode_encode_char, sextet_bound. Qed.

Lemma encoding_has_no_newline (src : list byte) :
  filter (fun c => negb (base64.is_newline c))
         (list_ascii_of_string (base64.EncodeToString src))
  = list_ascii_of_string (base64.EncodeToString src).
Proof.
  induction src as [| a | a b | a b c l IH] using list_ind3;
    cbn [base64.EncodeToString list_ascii_of_string filter];
    rewrite ?encode_char_not_newline; cbn [negb];
    change (base64.is_newline base64.padChar) with false; cbn [negb];
    rewrite ?IH; reflexivity.
Qed.

Lemma decode_quanta_encoding (src : list byte) :
  base64.decode_quanta (list_ascii_of_string (base64.EncodeToString src)) = Some src.
Proof.
  induction src as [| a | a b | a b c l IH] using list_ind3.
  - reflexivity.
  - cbn [base64.EncodeToString list_ascii_of_string base64.decode_quanta].
    rewrite Ascii.eqb_refl.
    destruct (decode_group (base64.group a x00 x00) (group_bound _ _ _)) as (H1 & H2 & _ & _).
    rewrite H1, H2.
    pose proof (quantum_sextets _ (group_bound a x00 x00)) as Hq.
    destruct (sextets_of_one a) as [E6 E0]. rewrite E6, E0 in Hq. rewrite Hq.
    destruct (octets_group a x00 x00) as (-> & _). reflexivity.
  - cbn [base64.EncodeToString list_ascii_of_string base64.decode_quanta].
    rewrite Ascii.eqb_refl, encode_char_not_pad.
    destruct (decode_group (base64.group a b x00) (group_bound _ _ _)) as (H1 & H2 & H3 & _).
    rewrite H1, H2, H3.
    pose proof (quantum_sextets _ (group_bound a b x00)) as Hq.
    rewrite (sextets_of_two a b) in Hq. cbv zeta. rewrite Hq.
    destruct (octets_group a b x00) as (-> & -> & _). reflexivity.
  - cbn [base64.EncodeToString list_ascii_of_string base64.decode_quanta].
    rewrite encode_char_not_pad.
    destruct (decode_group (base64.group a b c) (group_bound _ _ _)) as (H1 & H2 & H3 & H4).
    rewrite H1, H2, H3, H4. cbv zeta.
    rewrite (quantum_sextets _ (group_bound a b c)), IH.
    destruct (octets_group a b c) as (-> & -> & ->). reflexivity.
Qed.

(** Decoding undoes encoding. *)
Lemma DecodeString_EncodeToString (src : list byte) :
  base64.DecodeString (base64.EncodeToString src) = inl src.
Proof.
  unfold base64.DecodeString.
  rewrite encoding_has_no_newline, decode_quanta_encoding. reflexivity.
Qed.

Lemma EncodeToString_not_empty (b : byte) (rest : list byte) :
  String.eqb (base64.EncodeToString (b :: rest)) "" = false.
Proof. destruct rest as [|c [|d rest]]; reflexivity. Qed.

(** For a content that is not empty, uploading its encoding is uploading
    the content, on every adapter. *)
Lemma UploadBase64_of_encoding (a : uploader.Adapter) (name : string)
      (b : byte) (rest : list byte) (w : World) :
  uploader.UploadBase64 a name (base64.EncodeToString (b :: rest)) w
  = uploader.UploadBinary a name (b :: rest) w.
Proof.
  destruct a; cbn [uploader.UploadBase64 uploader.UploadBinary];
    unfold local.UploadBase64, aliyun.UploadBase64, tencent.UploadBase64,
      qiniu.UploadBase64, qiniu.UploadBinary;
    rewrite EncodeToString_not_empty, DecodeString_EncodeToString; reflexivity.
Qed.

(** The encoding of the empty content is the empty string: both operations
    reject it and leave the world as it was. *)
Lemma UploadBase64_of_empty_encoding (a : uploader.Adapter) (name : string) (w : World) :
  exists e1 e2,
    uploader.UploadBase64 a name (base64.EncodeToString []) w = (fail e1, w) /\
    uploader.UploadBinary a name [] w = (fail e2, w) /\
    kind e1 = InvalidInput /\ kind e2 = InvalidInput.
Proof.
  destruct (UploadBase64_empty_rejected a name w) as [m1 H1].
  destruct (UploadBinary_empty_rejected a name w) as [m2 H2].
  exists (errors_New m1), (errors_New m2). repeat split; assumption.
Qed.

(** C4.  On every adapter the encoding of a content is uploaded as the
    content is; the Local, Aliyun and Tencent adapters hand whatever the
    string decodes to over to [UploadBinary]; the Qiniu adapter uploads it
    itself and does not look at its length: a line feed, which decodes to no
    byte at all, is stored as an empty object where [UploadBinary] rejects
    the empty content. *)
Theorem qiniu_UploadBase64_stores_an_empty_object :
  (forall a name b rest w,
      uploader.UploadBase64 a name (base64.EncodeToString (b :: rest)) w
      = uploader.UploadBinary a name (b :: rest) w) /\
  (forall u name w,
      local.UploadBase64 u name (String "010" "") w = local.UploadBinary u name [] w) /\
  (forall u name w,
      aliyun.UploadBase64 u name (String "010" "") w = aliyun.UploadBinary u name [] w) /\
  (forall u name w,
      tencent.UploadBase64 u name (String "010" "") w = tencent.UploadBinary u name [] w) /\
  (let w := Sample.world [] [] in
   let r := qiniu.UploadBase64 Sample.qiniuT "a.txt" (String "010" "") w in
   base64.DecodeString (String "010" "") = inl [] /\
   fst r = ok "https://cdn.example.com/1751328000000000000_3f2a9c1e.txt" /\
   Store.get (objects (snd r)) Store.qiniu_kodo "b" "1751328000000000000_3f2a9c1e.txt"
   = Some [] /\
   fst (qiniu.UploadBinary Sample.qiniuT "a.txt" [] w) = fail (errors_New "文件内容不能为空") /\
   objects (snd (qiniu.UploadBinary Sample.qiniuT "a.txt" [] w)) = []).
Proof.
  split; [exact UploadBase64_of_encoding|].
  split; [reflexivity|]. split; [reflexivity|]. split; [reflexivity|].
  vm_compute. repeat split.
Qed.

(** ** [UploadFile] and [UploadBinary] *)

Lemma call_quiet (c : Call) (w : World) :
  quiet w ->
  call c w = (natural c w,
              log (c, natural c w) (match natural c w with
                                    | None => effect c w
                                    | Some _ => w
                                    end)).
Proof. intros H. unfold call, outcome. rewrite (H c). reflexivity. Qed.

Lemma set_set (f : FS.t) (p : string) (a b : FS.node) :
  FS.set (FS.set f p a) p b = FS.set f p b.
Proof.
  unfold FS.set, FS.remove. simpl. rewrite String.eqb_refl. simpl.
  f_equal. induction f as [|e f IH]; simpl; [reflexivity|].
  destruct (negb (String.eqb (fst e) p)) eqn:E; simpl; rewrite ?E, IH; reflexivity.
Qed.

Ltac quiet_call H :=
  match goal with
  | |- context [call ?c ?w0] =>
      rewrite (call_quiet c w0) by (intro; cbn; apply H);
      cbn [natural clock ticks uuids drawn fault fs objects trace log effect
           with_fs with_objects fst snd fail ok]
  end.

Ltac same_by_eval :=
  unfold same_outcome, same_stores;
  cbn [fst snd fail ok root kind clock ticks uuids drawn fault fs objects trace log
       effect with_fs with_objects];
  repeat split; try reflexivity.

Lemma local_UploadFile_streams (u : local.LocalUploader) (fh : multipart.FileHeader)
      (w : World) :
  quiet w -> multipart.Body fh <> [] ->
  same_outcome (fst (local.UploadFile u (Some fh) w))
               (fst (local.UploadBinary u (multipart.Filename fh) (multipart.Body fh) w)) /\
  same_stores (snd (local.UploadFile u (Some fh) w))
              (snd (local.UploadBinary u (multipart.Filename fh) (multipart.Body fh) w)).
Proof.
  intros Hq Hne. destruct fh as [name size body]. cbn [multipart.Filename multipart.Body] in *.
  destruct body as [|b rest]; [contradiction|].
  unfold local.UploadFile, local.UploadFile_opened, local.UploadBinary, local.generateFilePath.
  cbn [multipart.Filename multipart.Body List.length Nat.eqb].
  quiet_call Hq. unfold time_Now.
  cbn [clock ticks uuids drawn fault fs objects trace].
  do 2 quiet_call Hq.
  destruct (FS.mkdir_all_blocked (fs w) _) eqn:Hm.
  { cbn [fst snd fail ok]. repeat quiet_call Hq. same_by_eval. }
  cbn [clock ticks uuids drawn fault fs objects trace fst snd ok fail].
  do 2 quiet_call Hq.
  destruct (FS.create_blocked _ _) eqn:Hc.
  { cbn [fst snd fail ok]. repeat quiet_call Hq. same_by_eval. }
  repeat quiet_call Hq. same_by_eval.
  - unfold local.locator. destruct (filepath.Rel _ _); reflexivity.
  - apply set_set.
Qed.

Lemma qiniu_UploadFile_delegates (h : qiniu.qiniuUploader) (fh : multipart.FileHeader)
      (w : World) :
  quiet w ->
  same_outcome (fst (qiniu.UploadFile h (Some fh) w))
               (fst (qiniu.UploadBinary h (multipart.Filename fh) (multipart.Body fh) w)) /\
  same_stores (snd (qiniu.UploadFile h (Some fh) w))
              (snd (qiniu.UploadBinary h (multipart.Filename fh) (multipart.Body fh) w)).
Proof.
  intros Hq. destruct fh as [name size body]. cbn [multipart.Filename multipart.Body].
  unfold qiniu.UploadFile, qiniu.UploadBinary, qiniu.generateUniqueKey, qiniu.put.
  cbn [multipart.Filename multipart.Body].
  do 2 quiet_call Hq.
  destruct (String.eqb name "").
  { repeat quiet_call Hq. same_by_eval. }
  destruct body as [|b rest]; cbn [List.length Nat.eqb].
  { repeat quiet_call Hq. same_by_eval. }
  unfold time_Now, uuid_New. cbn [clock ticks uuids drawn fault fs objects trace].
  repeat quiet_call Hq. same_by_eval.
Qed.

Lemma aliyun_UploadFile_streams (u : aliyun.AliUploader) (fh : multipart.FileHeader)
      (w : World) :
  quiet w -> multipart.Body fh <> [] ->
  same_outcome (fst (aliyun.UploadFile u (Some fh) w))
               (fst (aliyun.UploadBinary u (multipart.Filename fh) (multipart.Body fh) w)) /\
  same_stores (snd (aliyun.UploadFile u (Some fh) w))
              (snd (aliyun.UploadBinary u (multipart.Filename fh) (multipart.Body fh) w)).
Proof.
  intros Hq Hne. destruct fh as [name size body]. cbn [multipart.Filename multipart.Body] in *.
  destruct body as [|b rest]; [contradiction|].
  unfold aliyun.UploadFile, aliyun.UploadBinary, aliyun.generateObjectKey.
  cbn [multipart.Filename multipart.Body List.length Nat.eqb].
  quiet_call Hq. unfold time_Now. cbn [clock ticks uuids drawn fault fs objects trace].
  repeat quiet_call Hq. same_by_eval.
Qed.

Lemma tencent_UploadFile_streams (u : tencent.TencentUploader) (fh : multipart.FileHeader)
      (w : World) :
  quiet w -> multipart.Body fh <> [] ->
  same_outcome (fst (tencent.UploadFile u (Some fh) w))
               (fst (tencent.UploadBinary u (multipart.Filename fh) (multipart.Body fh) w)) /\
  same_stores (snd (tencent.UploadFile u (Some fh) w))
              (snd (tencent.UploadBinary u (multipart.Filename fh) (multipart.Body fh) w)).
Proof.
  intros Hq Hne. destruct fh as [name size body]. cbn [multipart.Filename multipart.Body] in *.
  destruct body as [|b rest]; [contradiction|].
  unfold tencent.UploadFile, tencent.UploadBinary, tencent.generateObjectKey.
  cbn [multipart.Filename multipart.Body List.length Nat.eqb].
  quiet_call Hq. unfold time_Now. cbn [clock ticks uuids drawn fault fs objects trace].
  repeat quiet_call Hq. same_by_eval.
Qed.

Ltac any_call :=
  match goal with
  | |- context [call ?c ?w0] => destruct (call c w0) as [[?e|] ?w]
  end; cbn [fst snd fail ok].

(** The streaming adapters never answer a file header with [InvalidInput]. *)
Lemma streaming_UploadFile_errors (a : uploader.Adapter) (fh : multipart.FileHeader)
      (w : World) (e : error) :
  (forall h, a <> uploader.QiniuAdapter h) ->
  snd (fst (uploader.UploadFile a (Some fh) w)) = Some e -> kind e = BackendError.
Proof.
  intros Hs. destruct a as [u|h|u|u]; [| exfalso; apply (Hs h); reflexivity | |];
    cbn [uploader.UploadFile].
  - unfold local.UploadFile, local.UploadFile_opened, local.generateFilePath, time_Now.
    any_call; [intros [= <-]; reflexivity|].
    any_call; [intros [= <-]; reflexivity|].
    any_call; [intros [= <-]; reflexivity|].
    any_call; [intros [= <-]; reflexivity|].
    unfold local.locator. destruct (filepath.Rel _ _); discriminate.
  - unfold aliyun.UploadFile.
    any_call; [intros [= <-]; reflexivity|].
    destruct (aliyun.generateObjectKey _ _ _) as [k w1].
    any_call; [intros [= <-]; reflexivity|]. discriminate.
  - unfold tencent.UploadFile.
    any_call; [intros [= <-]; reflexivity|].
    destruct (tencent.generateObjectKey _ _ _) as [k w1].
    any_call; [intros [= <-]; reflexivity|]. discriminate.
Qed.

(** An empty multipart file under the Local adapter: [UploadFile] creates
    an empty file and succeeds, where [UploadBinary] with the same name and
    no byte is rejected. *)
Lemma local_UploadFile_accepts_empty_content :
  let fh := {| multipart.Filename := "e.txt"; multipart.Size := 0; multipart.Body := [] |} in
  let w := Sample.world [] [] in
  fst (local.UploadFile Sample.localT (Some fh) w) = ok "2025/07/01/e_1751328000000000001.txt" /\
  FS.lookup (fs (snd (local.UploadFile Sample.localT (Some fh) w)))
            "t/2025/07/01/e_1751328000000000001.txt" = Some (FS.File []) /\
  fst (local.UploadBinary Sample.localT "e.txt" [] w) = fail (errors_New "content cannot be empty") /\
  fs (snd (local.UploadBinary Sample.localT "e.txt" [] w)) = [].
Proof. vm_compute. repeat split. Qed.

(** ** Failed calls *)

Ltac step :=
  match goal with
  | |- context [call ?c ?w0] =>
      lazymatch w0 with
      | context [call] => fail
      | _ => idtac
      end;
      let H := fresh "Ht" in
      pose proof (call_trace c w0) as H;
      destruct (call c w0) as [[?e|] ?w];
      cbn [fst snd fail ok clock ticks uuids drawn fault fs objects trace] in *
  end.

Ltac prefix_of l :=
  lazymatch l with
  | ?x :: ?r => let p := prefix_of r in constr:(x :: p)
  | _ => constr:(@nil Event)
  end.

Lemma DecodeString_error (s : string) (e : error) :
  base64.DecodeString s = inr e -> e = CorruptInputError.
Proof.
  unfold base64.DecodeString. destruct (base64.decode_quanta _); [discriminate|].
  intros H. injection H as <-. reflexivity.
Qed.

Ltac solve_reports :=
  cbn [reports wraps];
  first [ reflexivity | left; reflexivity | right; left; reflexivity ].

Ltac solve_failure :=
  split; [reflexivity|];
  split; [reflexivity|];
  split; [reflexivity|];
  split; [solve_reports | reflexivity].

Ltac solve_explains :=
  cbn [explains fst snd];
  lazymatch goal with
  | |- forallb settled _ = true => reflexivity
  | |- _ \/ _ =>
      first [ left; split; [exact I | reflexivity]
            | right; exists []; do 2 eexists; solve_failure
            | right; eexists [_]; do 2 eexists; solve_failure
            | right; eexists [_; _]; do 2 eexists; solve_failure ]
  end.

Ltac close_case :=
  unfold accounted; cbn [fst snd fail ok clock ticks uuids drawn fault fs objects trace];
  repeat match goal with
         | H : trace ?x = _ |- context [trace ?x] => rewrite H
         end;
  match goal with
  | |- exists new, ?l = (new ++ ?base)%list /\ _ =>
      let p := prefix_of l in exists p
  end;
  split; [reflexivity | solve_explains].

Lemma accounted_UploadBinary (a : uploader.Adapter) (filename : string)
      (content : list byte) (w : World) :
  accounted w (run (op_UploadBinary a filename content) w).
Proof.
  destruct a as [u|h|u|u]; cbn [run uploader.UploadBinary].
  - unfold local.UploadBinary, local.generateFilePath, time_Now.
    destruct (Nat.eqb (List.length content) 0).
    { close_case. }
    cbn [clock ticks uuids drawn fault fs objects trace].
    step; [close_case|]. step; [close_case|].
    unfold local.locator. destruct (filepath.Rel _ _); close_case.
  - unfold qiniu.UploadBinary, qiniu.generateUniqueKey, qiniu.put, time_Now, uuid_New.
    destruct (String.eqb filename ""); [close_case|].
    destruct (Nat.eqb (List.length content) 0); [close_case|].
    cbn [clock ticks uuids drawn fault fs objects trace].
    step; close_case.
  - unfold aliyun.UploadBinary, aliyun.generateObjectKey, time_Now.
    destruct (Nat.eqb (List.length content) 0); [close_case|].
    cbn [clock ticks uuids drawn fault fs objects trace].
    step; close_case.
  - unfold tencent.UploadBinary, tencent.generateObjectKey, time_Now.
    destruct (Nat.eqb (List.length content) 0); [close_case|].
    cbn [clock ticks uuids drawn fault fs objects trace].
    step; close_case.
Qed.

Lemma accounted_UploadBase64 (a : uploader.Adapter) (filename base64Str : string)
      (w : World) :
  accounted w (run (op_UploadBase64 a filename base64Str) w).
Proof.
  destruct a as [u|h|u|u]; cbn [run uploader.UploadBase64].
  - unfold local.UploadBase64.
    destruct (String.eqb base64Str ""); [close_case|].
    destruct (base64.DecodeString base64Str) as [data|e] eqn:E;
      [|apply DecodeString_error in E; subst e; close_case].
    apply (accounted_UploadBinary (uploader.LocalAdapter u)).
  - unfold qiniu.UploadBase64, qiniu.generateUniqueKey, qiniu.put, time_Now, uuid_New.
    destruct (String.eqb filename ""); [close_case|].
    destruct (String.eqb base64Str ""); [close_case|].
    cbn [clock ticks uuids drawn fault fs objects trace].
    destruct (base64.DecodeString base64Str) as [data|e] eqn:E;
      [|apply DecodeString_error in E; subst e; close_case].
    step; close_case.
  - unfold aliyun.UploadBase64.
    destruct (String.eqb base64Str ""); [close_case|].
    destruct (base64.DecodeString base64Str) as [data|e] eqn:E;
      [|apply DecodeString_error in E; subst e; close_case].
    apply (accounted_UploadBinary (uploader.AliyunAdapter u)).
  - unfold tencent.UploadBase64.
    destruct (String.eqb base64Str ""); [close_case|].
    destruct (base64.DecodeString base64Str) as [data|e] eqn:E;
      [|apply DecodeString_error in E; subst e; close_case].
    apply (accounted_UploadBinary (uploader.TencentAdapter u)).
Qed.

Lemma accounted_UploadFile (a : uploader.Adapter) (file : option multipart.FileHeader)
      (w : World) :
  accounted w (run (op_UploadFile a file) w).
Proof.
  destruct file as [fh|];
    [|destruct a;
      cbn [run uploader.UploadFile local.UploadFile qiniu.UploadFile aliyun.UploadFile
           tencent.UploadFile];
      close_case].
  destruct a as [u|h|u|u]; cbn [run uploader.UploadFile].
  - unfold local.UploadFile, local.UploadFile_opened, local.generateFilePath, time_Now.
    step; [close_case|].
    cbn [clock ticks uuids drawn fault fs objects trace].
    step; [step; close_case|].
    step; [step; close_case|].
    step; step; step; unfold local.locator; try destruct (filepath.Rel _ _); close_case.
  - unfold qiniu.UploadFile, qiniu.UploadBinary, qiniu.generateUniqueKey, qiniu.put,
      time_Now, uuid_New.
    step; [close_case|].
    step; [step; close_case|].
    destruct (String.eqb (multipart.Filename fh) ""); [step; close_case|].
    destruct (Nat.eqb (List.length (multipart.Body fh)) 0); [step; close_case|].
    cbn [clock ticks uuids drawn fault fs objects trace].
    step; step; close_case.
  - unfold aliyun.UploadFile, aliyun.generateObjectKey, time_Now.
    step; [close_case|].
    cbn [clock ticks uuids drawn fault fs objects trace].
    step; step; close_case.
  - unfold tencent.UploadFile, tencent.generateObjectKey, time_Now.
    step; [close_case|].
    cbn [clock ticks uuids drawn fault fs objects trace].
    step; step; close_case.
Qed.

Lemma accounted_Delete (a : uploader.Adapter) (locator : string) (w : World) :
  accounted w (run (op_Delete a locator) w).
Proof.
  destruct a as [u|h|u|u]; cbn [run uploader.Delete].
  - unfold local.Delete.
    step.
    + destruct e; cbn [os_IsNotExist]; [close_case | step; close_case ..].
    + cbn [os_IsNotExist]. step; close_case.
  - unfold qiniu.Delete.
    destruct (String.eqb locator ""); [close_case|]. step; close_case.
  - unfold aliyun.Delete.
    destruct (String.eqb locator ""); [close_case|]. step; close_case.
  - unfold tencent.Delete.
    destruct (String.eqb locator ""); [close_case|]. step; close_case.
Qed.

Lemma accounted_NewUploader (t : uploader.UploadType) (cfg : uploader.any) (w : World) :
  accounted w (run (op_NewUploader t cfg) w).
Proof.
  cbn [run]. unfold uploader.NewUploader.
  destruct (String.eqb t uploader.Local); [destruct cfg; close_case|].
  destruct (String.eqb t uploader.Qiniu).
  { destruct cfg; try close_case. unfold qiniu.New.
    destruct (_ || _); [close_case|]. step; close_case. }
  destruct (String.eqb t uploader.Aliyun).
  { destruct cfg; try close_case. unfold aliyun.New.
    destruct (_ || _); [close_case|]. step; [close_case|]. step; close_case. }
  destruct (String.eqb t uploader.Tencent).
  { destruct cfg; try close_case. unfold tencent.New.
    destruct (_ || _); [close_case|]. step; [close_case|]. step; close_case. }
  close_case.
Qed.

(** * Further properties *)

Import Urls.

(** ** The helper of the tests and the URLs of the adapters *)

Lemma cut_host (host key : string) :
  has_sep host = false ->
  GoStrings.cut (host ++ String "/" key) "/" = Some (host, key).
Proof.
  induction host as [|c host IH]; intros H; [reflexivity|].
  cbn [has_sep] in H. apply orb_false_iff in H as [Hc Hh].
  cbn [append GoStrings.cut].
  unfold filepath.IsPathSeparator, filepath.Separator in Hc. rewrite Hc, (IH Hh). reflexivity.
Qed.

Lemma cut_none (s : string) : has_sep s = false -> GoStrings.cut s "/" = None.
Proof.
  induction s as [|c s IH]; intros H; [reflexivity|].
  cbn [has_sep] in H. apply orb_false_iff in H as [Hc Hh].
  cbn [GoStrings.cut].
  unfold filepath.IsPathSeparator, filepath.Separator in Hc. rewrite Hc, (IH Hh). reflexivity.
Qed.

Lemma extractKey_https (host key : string) :
  has_sep host = false ->
  uploader_test.extractKey ("https://" ++ host ++ "/" ++ key) = key.
Proof.
  intros H. unfold uploader_test.extractKey, GoStrings.TrimPrefix.
  assert (H1 : GoStrings.HasPrefix ("https://" ++ host ++ "/" ++ key) "http://" = false)
    by reflexivity.
  rewrite H1.
  assert (H2 : GoStrings.HasPrefix ("https://" ++ host ++ "/" ++ key) "https://" = true)
    by reflexivity.
  rewrite H2.
  change (GoStrings.drop (String.length "https://") ("https://" ++ host ++ "/" ++ key))
    with (host ++ String "/" key).
  unfold GoStrings.SplitN_2. rewrite cut_host by assumption. reflexivity.
Qed.

Lemma has_prefix_drop (s p : string) :
  GoStrings.HasPrefix s p = true -> s = p ++ GoStrings.drop (String.length p) s.
Proof.
  revert s. induction p as [|c p IH]; intros s H; [destruct s; reflexivity|].
  destruct s as [|d s]; [discriminate H|].
  cbn [GoStrings.HasPrefix] in H. apply andb_true_iff in H as [Hc Hp].
  apply Ascii.eqb_eq in Hc. subst d. cbn. f_equal. apply IH. exact Hp.
Qed.

Lemma file_url_https (a : uploader.Adapter) (host key : string) :
  url_host a = Some host -> file_url a key = "https://" ++ host ++ "/" ++ key.
Proof.
  destruct a as [u|h|u|u]; cbn [url_host file_url]; intros H.
  - discriminate H.
  - injection H as <-. reflexivity.
  - unfold aliyun.getFileURL.
    destruct (GoStrings.HasPrefix (aliyun.endpoint u) "https://") eqn:E; [|discriminate H].
    injection H as <-. rewrite (has_prefix_drop _ _ E) at 1.
    cbn [String.length]. rewrite append_assoc. reflexivity.
  - injection H as <-. unfold tencent.getFileURL.
    destruct (negb _); [reflexivity|].
    rewrite !append_assoc. cbn [append]. rewrite !append_assoc. reflexivity.
Qed.

(** X1.  The helper of the tests finds the key back in the URL of every
    remote adapter whose host holds no separator. *)
Theorem extractKey_file_url (a : uploader.Adapter) (host key : string) :
  url_host a = Some host -> has_sep host = false ->
  uploader_test.extractKey (file_url a key) = key.
Proof.
  intros Ha Hh. rewrite (file_url_https a host key Ha). apply extractKey_https. exact Hh.
Qed.

Lemma extractKey_file_url_witness :
  url_host (uploader.AliyunAdapter Sample.aliyunT) = Some "b.oss-cn-hangzhou.aliyuncs.com" /\
  has_sep "b.oss-cn-hangzhou.aliyuncs.com" = false /\
  uploader_test.extractKey
    (file_url (uploader.AliyunAdapter Sample.aliyunT) "2025/07/01/a_1.txt")
  = "2025/07/01/a_1.txt".
Proof.
  split; [reflexivity|]. split; [reflexivity|].
  apply (extractKey_file_url (uploader.AliyunAdapter Sample.aliyunT)
           "b.oss-cn-hangzhou.aliyuncs.com"); reflexivity.
Defined.

(** ** Objects of the remote adapters *)

Lemma provider_eqb_refl (p : Store.provider) : Store.provider_eqb p p = true.
Proof. destruct p; reflexivity. Qed.

Lemma same_key (p p' : Store.provider) (b k b' k' : string) (d : list byte) :
  Store.same p b k (p', b', k', d) = true -> b = b' /\ k = k'.
Proof.
  unfold Store.same. intros H.
  apply andb_true_iff in H as [H Hk]. apply andb_true_iff in H as [_ Hb].
  apply String.eqb_eq in Hk, Hb. split; assumption.
Qed.

Lemma get_delete (s : Store.t) (p : Store.provider) (b k : string) :
  Store.get (Store.delete s p b k) p b k = None.
Proof.
  unfold Store.get, Store.delete.
  induction s as [|o s IH]; [reflexivity|].
  cbn [filter]. destruct (Store.same p b k o) eqn:E; cbn [negb]; [exact IH|].
  cbn [find]. rewrite E. exact IH.
Qed.

Lemma get_delete_other (s : Store.t) (p : Store.provider) (b k k' : string) :
  k' <> k ->
  Store.get (Store.delete s p b k') p b k = Store.get s p b k.
Proof.
  intros Hk. unfold Store.get, Store.delete.
  induction s as [|o s IH]; [reflexivity|].
  cbn [filter find]. destruct (Store.same p b k' o) eqn:E; cbn [negb].
  - destruct (Store.same p b k o) eqn:E2; [|exact IH].
    exfalso. destruct o as [[[p0 b0] k0] d0].
    apply same_key in E as [_ E]. apply same_key in E2 as [_ E2]. congruence.
  - cbn [find]. destruct (Store.same p b k o); [reflexivity|exact IH].
Qed.

Lemma length_append (a b : string) :
  String.length (a ++ b) = String.length a + String.length b.
Proof. induction a as [|c a IH]; cbn; [reflexivity|]. rewrite IH. reflexivity. Qed.

Lemma url_is_not_key (host key : string) : "https://" ++ host ++ "/" ++ key <> key.
Proof.
  intros H. apply (f_equal String.length) in H.
  rewrite !length_append in H. cbn [String.length] in H. lia.
Qed.

Lemma underscore_not_empty (a b : string) : String.eqb (a ++ "_" ++ b) "" = false.
Proof. destruct a; reflexivity. Qed.

Lemma dated_not_empty (t : time.Time) (x : string) :
  String.eqb (time.Format_2006_01_02 t ++ String "/" x) "" = false.
Proof.
  apply String.eqb_neq. apply app_not_empty, date_not_empty.
Qed.

(** What a successful [UploadBinary] of a remote adapter leaves. *)
Lemma remote_UploadBinary_ok (a : uploader.Adapter) (name : string) (content : list byte)
      (w w1 : World) (url : string) :
  bucket_of a <> None ->
  uploader.UploadBinary a name content w = (ok url, w1) ->
  exists key,
    url = file_url a key /\
    String.eqb key "" = false /\
    stored_object a w1 key = Some content /\
    fault w1 = fault w.
Proof.
  intros Hr H. destruct a as [u|h|u|u]; cbn [uploader.UploadBinary] in H;
    [exfalso; apply Hr; reflexivity | | |].
  - unfold qiniu.UploadBinary, qiniu.generateUniqueKey, qiniu.put, time_Now, uuid_New in H.
    destruct (String.eqb name ""); [discriminate H|].
    destruct (Nat.eqb (List.length content) 0); [discriminate H|].
    cbn [clock ticks uuids drawn fault fs objects trace] in H.
    ok_call H. injection H as <- <-.
    eexists. split; [reflexivity|]. split; [apply underscore_not_empty|].
    split; [|reflexivity].
    unfold stored_object. cbn [bucket_of objects log effect with_objects qiniu.getUpToken
                               storage.UploadToken storage.policy storage.Scope].
    apply get_put.
  - unfold aliyun.UploadBinary in H.
    destruct (Nat.eqb (List.length content) 0); [discriminate H|].
    destruct (aliyun_key u name w) as (Hk & Hf & Ho & _).
    destruct (aliyun.generateObjectKey u name w) as [k w0]. cbn [fst snd] in *. subst k.
    ok_call H. injection H as <- <-.
    eexists. split; [reflexivity|]. split; [apply dated_not_empty|].
    split; [|exact Hf].
    unfold stored_object. cbn [bucket_of objects log effect with_objects]. apply get_put.
  - unfold tencent.UploadBinary in H.
    destruct (Nat.eqb (List.length content) 0); [discriminate H|].
    destruct (tencent_key u name w) as (Hk & Hf & Ho & _).
    destruct (tencent.generateObjectKey u name w) as [k w0]. cbn [fst snd] in *. subst k.
    ok_call H. injection H as <- <-.
    eexists. split; [reflexivity|]. split; [apply dated_not_empty|].
    split; [|exact Hf].
    unfold stored_object. cbn [bucket_of objects log effect with_objects]. apply get_put.
Qed.

Lemma remote_Delete_quiet (a : uploader.Adapter) (key : string) (w : World) :
  bucket_of a <> None -> quiet w -> String.eqb key "" = false ->
  fst (uploader.Delete a key w) = None /\
  stored_object a (snd (uploader.Delete a key w)) key = None.
Proof.
  intros Hr Hq Hk. destruct a as [u|h|u|u]; cbn [uploader.Delete];
    [exfalso; apply Hr; reflexivity | | |].
  - unfold qiniu.Delete. rewrite Hk. rewrite call_quiet by assumption.
    cbn [natural fst snd]. unfold stored_object.
    cbn [bucket_of objects log effect with_objects]. split; [reflexivity|apply get_delete].
  - unfold aliyun.Delete. rewrite Hk. rewrite call_quiet by assumption.
    cbn [natural fst snd]. unfold stored_object.
    cbn [bucket_of objects log effect with_objects]. split; [reflexivity|apply get_delete].
  - unfold tencent.Delete. rewrite Hk. rewrite call_quiet by assumption.
    cbn [natural fst snd]. unfold stored_object.
    cbn [bucket_of objects log effect with_objects]. split; [reflexivity|apply get_delete].
Qed.

Lemma remote_Delete_other (a : uploader.Adapter) (key other : string) (w : World) :
  other <> key ->
  stored_object a (snd (uploader.Delete a other w)) key = stored_object a w key.
Proof.
  intros Hne. destruct a as [u|h|u|u]; cbn [uploader.Delete]; [reflexivity| | |].
  - unfold qiniu.Delete. destruct (String.eqb other ""); [reflexivity|].
    rewrite (surjective_pairing (call _ w)), call_world.
    destruct (fst (call _ w)); cbn [snd]; unfold stored_object;
      cbn [bucket_of objects log effect with_objects]; [reflexivity|].
    apply get_delete_other. exact Hne.
  - unfold aliyun.Delete. destruct (String.eqb other ""); [reflexivity|].
    rewrite (surjective_pairing (call _ w)), call_world.
    destruct (fst (call _ w)); cbn [snd]; unfold stored_object;
      cbn [bucket_of objects log effect with_objects]; [reflexivity|].
    apply get_delete_other. exact Hne.
  - unfold tencent.Delete. destruct (String.eqb other ""); [reflexivity|].
    rewrite (surjective_pairing (call _ w)), call_world.
    destruct (fst (call _ w)); cbn [snd]; unfold stored_object;
      cbn [bucket_of objects log effect with_objects]; [reflexivity|].
    apply get_delete_other. exact Hne.
Qed.


Lemma qiniu_put_ok (h : qiniu.qiniuUploader) (key : string) (content : list byte)
      (w w1 : World) (url : string) :
  String.eqb key "" = false ->
  qiniu.put h key content w = (ok url, w1) ->
  left_by_upload (uploader.QiniuAdapter h) content w w1 url.
Proof.
  intros Hk H. unfold qiniu.put in H. ok_call H. injection H as <- <-.
  exists key. split; [reflexivity|]. split; [exact Hk|]. split; [|reflexivity].
  unfold stored_object. cbn [bucket_of objects log effect with_objects qiniu.getUpToken
                             storage.UploadToken storage.policy storage.Scope].
  apply get_put.
Qed.

Lemma left_by_upload_later (a : uploader.Adapter) (content : list byte)
      (w w0 w1 w2 : World) (url : string) :
  fault w0 = fault w -> objects w2 = objects w1 -> fault w2 = fault w1 ->
  left_by_upload a content w0 w1 url -> left_by_upload a content w w2 url.
Proof.
  intros Hf Ho Hf2 (key & H1 & H2 & H3 & H4). exists key.
  split; [exact H1|]. split; [exact H2|]. split.
  - unfold stored_object in *. rewrite Ho. exact H3.
  - congruence.
Qed.

(** What a successful upload of a remote adapter leaves. *)
Lemma remote_upload_ok (a : uploader.Adapter) (name : string) (content : list byte)
      (w w1 : World) (url : string) :
  bucket_of a <> None ->
  any_upload a name content w (ok url, w1) ->
  left_by_upload a content w w1 url.
Proof.
  intros Hr [H|[(s & Hs & H)|(size & H)]]; symmetry in H.
  - exact (remote_UploadBinary_ok a name content w w1 url Hr H).
  - destruct a as [u|h|u|u]; cbn [uploader.UploadBase64] in H;
      [exfalso; apply Hr; reflexivity | | |].
    + unfold qiniu.UploadBase64, qiniu.generateUniqueKey, time_Now, uuid_New in H.
      destruct (String.eqb name ""); [discriminate H|].
      destruct (String.eqb s ""); [discriminate H|].
      rewrite Hs in H.
      apply qiniu_put_ok in H; [|apply underscore_not_empty].
      revert H. apply left_by_upload_later; reflexivity.
    + unfold aliyun.UploadBase64 in H.
      destruct (String.eqb s ""); [discriminate H|]. rewrite Hs in H.
      exact (remote_UploadBinary_ok (uploader.AliyunAdapter u) name content w w1 url Hr H).
    + unfold tencent.UploadBase64 in H.
      destruct (String.eqb s ""); [discriminate H|]. rewrite Hs in H.
      exact (remote_UploadBinary_ok (uploader.TencentAdapter u) name content w w1 url Hr H).
  - destruct a as [u|h|u|u]; cbn [uploader.UploadFile multipart.Filename multipart.Body] in H;
      [exfalso; apply Hr; reflexivity | | |].
    + unfold qiniu.UploadFile in H. cbn [multipart.Filename multipart.Body] in H.
      ok_call H. ok_call H.
      destruct (qiniu.UploadBinary h name content _) as [r0 w0] eqn:Hb.
      pose proof (call_world (File_Close name) w0) as Hc.
      destruct (call (File_Close name) w0) as [rc wc]. cbn [fst snd] in H, Hc.
      injection H as -> <-.
      apply (remote_UploadBinary_ok (uploader.QiniuAdapter h)) in Hb; [|exact Hr].
      revert Hb. apply left_by_upload_later; subst wc;
        destruct rc; reflexivity.
    + unfold aliyun.UploadFile in H. cbn [multipart.Filename multipart.Body] in H.
      ok_call H.
      destruct (aliyun_key u name (log (FileHeader_Open name, None) w)) as (Hk & Hf & Ho & _).
      cbn [effect] in H.
      destruct (aliyun.generateObjectKey u name _) as [k w0]. cbn [fst snd] in *. subst k.
      ok_call H; ok_call H; injection H as <- <-.
      all: eexists; (split; [reflexivity|]); (split; [apply dated_not_empty|]);
        (split; [|cbn [fault log effect with_fs with_objects]; exact Hf]);
        unfold stored_object; cbn [bucket_of objects log effect with_objects];
        apply get_put.
    + unfold tencent.UploadFile in H. cbn [multipart.Filename multipart.Body] in H.
      ok_call H.
      destruct (tencent_key u name (log (FileHeader_Open name, None) w)) as (Hk & Hf & Ho & _).
      cbn [effect] in H.
      destruct (tencent.generateObjectKey u name _) as [k w0]. cbn [fst snd] in *. subst k.
      ok_call H; ok_call H; injection H as <- <-.
      all: eexists; (split; [reflexivity|]); (split; [apply dated_not_empty|]);
        (split; [|cbn [fault log effect with_fs with_objects]; exact Hf]);
        unfold stored_object; cbn [bucket_of objects log effect with_objects];
        apply get_put.
Qed.

(** X2.  The flow of the tests on a remote adapter: where no call is made
    to fail and the host of the URLs holds no separator, the key extracted
    from the URL of a successful upload, by any of the three operations,
    names the stored content, and [Delete] on that key succeeds and leaves no
    object under it. *)
Theorem remote_upload_extract_delete (a : uploader.Adapter) (host name url : string)
        (content : list byte) (w w1 : World) :
  quiet w -> url_host a = Some host -> has_sep host = false ->
  any_upload a name content w (ok url, w1) ->
  let key := uploader_test.extractKey url in
  stored_object a w1 key = Some content /\
  fst (uploader.Delete a key w1) = None /\
  stored_object a (snd (uploader.Delete a key w1)) key = None.
Proof.
  intros Hq Ha Hh Hu key.
  assert (Hr : bucket_of a <> None) by (destruct a; [discriminate Ha | discriminate ..]).
  destruct (remote_upload_ok a name content w w1 url Hr Hu) as (k & Hurl & Hk & Hs & Hf).
  assert (key = k) as ->.
  { subst key url. rewrite (file_url_https a host k Ha). apply extractKey_https. exact Hh. }
  split; [exact Hs|].
  apply remote_Delete_quiet; try assumption.
  intros c. rewrite Hf. apply Hq.
Qed.

Lemma remote_upload_extract_delete_witness :
  let a := uploader.TencentAdapter Sample.tencentT in
  let w := Sample.world [] [] in
  let fh := {| multipart.Filename := "a.txt"; multipart.Size := 5;
               multipart.Body := Sample.hello |} in
  let r := uploader.UploadFile a (Some fh) w in
  let key := "2025/07/01/a_1751328000000000001.txt" in
  quiet w /\
  r = (ok ("https://b-1250000000.cos.ap-guangzhou.myqcloud.com/" ++ key), snd r) /\
  stored_object a (snd r) key = Some Sample.hello /\
  fst (uploader.Delete a key (snd r)) = None /\
  stored_object a (snd (uploader.Delete a key (snd r))) key = None.
Proof.
  intros a w fh r key.
  assert (Hq : quiet w) by (intro c; reflexivity).
  assert (Hu : r = (ok ("https://b-1250000000.cos.ap-guangzhou.myqcloud.com/" ++ key), snd r)).
  { apply injective_projections; [vm_compute; reflexivity | reflexivity]. }
  assert (Ha : any_upload a "a.txt" Sample.hello w
                 (ok ("https://b-1250000000.cos.ap-guangzhou.myqcloud.com/" ++ key), snd r)).
  { right. right. exists 5%Z. rewrite <- Hu. reflexivity. }
  split; [exact Hq|]. split; [exact Hu|].
  exact (remote_upload_extract_delete a "b-1250000000.cos.ap-guangzhou.myqcloud.com"
           "a.txt" _ Sample.hello w (snd r) Hq eq_refl eq_refl Ha).
Defined.

(** X3.  [Delete] wants the key: handed the URL an upload returned, it
    leaves the uploaded object where it is, whatever the provider answers. *)
Theorem remote_delete_by_url_keeps_object (a : uploader.Adapter) (host name url : string)
        (content : list byte) (w w1 : World) :
  url_host a = Some host ->
  any_upload a name content w (ok url, w1) ->
  exists key,
    url = file_url a key /\
    stored_object a w1 key = Some content /\
    stored_object a (snd (uploader.Delete a url w1)) key = Some content.
Proof.
  intros Ha Hu.
  assert (Hr : bucket_of a <> None) by (destruct a; [discriminate Ha | discriminate ..]).
  destruct (remote_upload_ok a name content w w1 url Hr Hu) as (k & Hurl & Hk & Hs & Hf).
  exists k. split; [exact Hurl|]. split; [exact Hs|].
  rewrite remote_Delete_other; [exact Hs|].
  rewrite Hurl, (file_url_https a host k Ha). apply url_is_not_key.
Qed.

Lemma remote_delete_by_url_keeps_object_witness :
  let a := uploader.QiniuAdapter Sample.qiniuT in
  let w := Sample.world [] [] in
  let r := uploader.UploadBase64 a "a.txt" "aGVsbG8=" w in
  url_host a = Some "cdn.example.com" /\
  r = (ok "https://cdn.example.com/1751328000000000000_3f2a9c1e.txt", snd r) /\
  exists key,
    "https://cdn.example.com/1751328000000000000_3f2a9c1e.txt" = file_url a key /\
    stored_object a (snd r) key = Some Sample.hello /\
    stored_object a (snd (uploader.Delete a
                            "https://cdn.example.com/1751328000000000000_3f2a9c1e.txt"
                            (snd r))) key = Some Sample.hello.
Proof.
  intros a w r.
  assert (Hu : r = (ok "https://cdn.example.com/1751328000000000000_3f2a9c1e.txt", snd r)).
  { apply injective_projections; [vm_compute; reflexivity | reflexivity]. }
  assert (Ha : any_upload a "a.txt" Sample.hello w
                 (ok "https://cdn.example.com/1751328000000000000_3f2a9c1e.txt", snd r)).
  { right. left. exists "aGVsbG8=". split; [vm_compute; reflexivity|].
    rewrite <- Hu. reflexivity. }
  split; [reflexivity|]. split; [exact Hu|].
  exact (remote_delete_by_url_keeps_object a "cdn.example.com" "a.txt" _ Sample.hello
           w (snd r) eq_refl Ha).
Defined.

(** ** The file system *)

Lemma lookup_set_other (f : FS.t) (p q : string) (n : FS.node) :
  q <> p -> FS.lookup (FS.set f p n) q = FS.lookup f q.
Proof.
  intros Hne. unfold FS.lookup, FS.set. cbn [find fst].
  destruct (String.eqb_spec p q) as [->|_]; [contradiction|].
  unfold FS.remove. induction f as [|e f IH]; [reflexivity|].
  cbn [filter find]. destruct (String.eqb_spec (fst e) p) as [E|E]; cbn [negb find].
  - destruct (String.eqb_spec (fst e) q) as [E'|_]; [congruence|exact IH].
  - destruct (String.eqb (fst e) q); [reflexivity|exact IH].
Qed.

Lemma lookup_remove (f : FS.t) (p : string) : FS.lookup (FS.remove f p) p = None.
Proof.
  unfold FS.lookup, FS.remove. induction f as [|e f IH]; [reflexivity|].
  cbn [filter]. destruct (String.eqb (fst e) p) eqn:E; cbn [negb find]; [exact IH|].
  rewrite E. exact IH.
Qed.

Lemma lookup_remove_other (f : FS.t) (p q : string) :
  q <> p -> FS.lookup (FS.remove f p) q = FS.lookup f q.
Proof.
  intros Hne. unfold FS.lookup, FS.remove. induction f as [|e f IH]; [reflexivity|].
  cbn [filter find]. destruct (String.eqb_spec (fst e) p) as [E|E]; cbn [negb find].
  - destruct (String.eqb_spec (fst e) q) as [E'|_]; [congruence|exact IH].
  - destruct (String.eqb (fst e) q); [reflexivity|exact IH].
Qed.

Lemma is_dir_set_other (f : FS.t) (p q : string) (n : FS.node) :
  q <> p -> FS.is_dir (FS.set f p n) q = FS.is_dir f q.
Proof. intros H. unfold FS.is_dir. rewrite lookup_set_other by assumption. reflexivity. Qed.

Lemma is_dir_set_Dir (f : FS.t) (p : string) : FS.is_dir (FS.set f p FS.Dir) p = true.
Proof. unfold FS.is_dir. rewrite lookup_set. apply orb_true_r. Qed.



(** The entries after the directories of a list have been made. *)
Lemma mkdirs_lookup (l : list string) (f : FS.t) (q : string) :
  FS.lookup (fold_left mkdir_step l f) q
  = if existsb (String.eqb q) l && negb (FS.is_dir f q) then Some FS.Dir
    else FS.lookup f q.
Proof.
  revert f. induction l as [|a l IH]; intros f; [reflexivity|].
  cbn [fold_left existsb]. rewrite IH. unfold mkdir_step.
  destruct (String.eqb_spec q a) as [->|Hne].
  - cbn [orb]. destruct (FS.is_dir f a) eqn:E.
    + rewrite E. rewrite andb_false_r. reflexivity.
    + rewrite is_dir_set_Dir, andb_false_r, lookup_set. reflexivity.
  - cbn [orb]. destruct (FS.is_dir f a); [reflexivity|].
    rewrite is_dir_set_other, lookup_set_other by assumption. reflexivity.
Qed.

Lemma mkdir_all_lookup (f : FS.t) (p q : string) :
  FS.lookup (FS.mkdir_all f p) q
  = if existsb (String.eqb q) (FS.ancestors p) && negb (FS.is_dir f q) then Some FS.Dir
    else FS.lookup f q.
Proof. apply (mkdirs_lookup (FS.ancestors p) f q). Qed.

(** Making directories keeps the regular files, unless one is in the way. *)
Lemma mkdir_all_keeps_files (f : FS.t) (p q : string) (c : list byte) :
  FS.mkdir_all_blocked f p = false ->
  FS.lookup f q = Some (FS.File c) ->
  FS.lookup (FS.mkdir_all f p) q = Some (FS.File c).
Proof.
  intros Hb Hq. rewrite mkdir_all_lookup.
  destruct (existsb (String.eqb q) (FS.ancestors p)) eqn:E; [|exact Hq].
  exfalso. apply existsb_exists in E as (a & Ha & Heq).
  apply String.eqb_eq in Heq. subst a.
  unfold FS.mkdir_all_blocked in Hb.
  assert (Ht : existsb (fun a => match FS.lookup f a with
                                 | Some (FS.File _) => true
                                 | _ => false
                                 end) (FS.ancestors p) = true).
  { apply existsb_exists. exists q. split; [exact Ha|]. rewrite Hq. reflexivity. }
  rewrite Ht in Hb. discriminate Hb.
Qed.

Lemma prefixes_last (acc l : list string) :
  l <> [] -> In (acc ++ l)%list (FS.prefixes acc l).
Proof.
  revert acc. induction l as [|e l IH]; intros acc H; [contradiction|].
  cbn [FS.prefixes]. destruct l as [|e' l].
  - left. reflexivity.
  - right. replace (acc ++ e :: e' :: l)%list with ((acc ++ [e]) ++ e' :: l)%list
      by (rewrite <- app_assoc; reflexivity).
    apply IH. discriminate.
Qed.

Lemma prefixes_prefix (acc l pr : list string) :
  In pr (FS.prefixes acc l) -> exists rest, (acc ++ l = pr ++ rest)%list.
Proof.
  revert acc. induction l as [|e l IH]; intros acc H; [contradiction|].
  cbn [FS.prefixes] in H. destruct H as [<- | H].
  - exists l. rewrite <- app_assoc. reflexivity.
  - destruct (IH _ H) as [rest Hr]. exists rest. rewrite <- Hr, <- app_assoc. reflexivity.
Qed.

Lemma self_in_ancestors (p : string) : p <> "" -> In p (FS.ancestors p).
Proof.
  intros Hp. unfold FS.ancestors. apply filter_In. split.
  - apply in_map_iff. exists (filepath.split p). split; [apply unsplit_split|].
    apply (prefixes_last [] (filepath.split p)), split_not_nil.
  - destruct (String.eqb_spec p ""); [contradiction|reflexivity].
Qed.

Lemma unsplit_app (a b : list string) :
  a <> [] -> b <> [] ->
  filepath.unsplit (a ++ b) = filepath.unsplit a ++ String "/" (filepath.unsplit b).
Proof.
  intros Ha Hb. induction a as [|x a IH]; [contradiction|].
  destruct a as [|y a].
  - destruct b as [|z b]; [contradiction|]. cbn [app]. rewrite unsplit_cons2. reflexivity.
  - cbn [app] in *. rewrite !unsplit_cons2, IH by discriminate.
    rewrite append_assoc. reflexivity.
Qed.

Lemma unsplit_prefix_length (pr rest : list string) :
  String.length (filepath.unsplit pr) <= String.length (filepath.unsplit (pr ++ rest)).
Proof.
  destruct pr as [|x pr]; [cbn; lia|].
  destruct rest as [|y rest]; [rewrite app_nil_r; lia|].
  rewrite unsplit_app by discriminate. rewrite length_append. lia.
Qed.

Lemma ancestors_length (p a : string) :
  In a (FS.ancestors p) -> String.length a <= String.length p.
Proof.
  unfold FS.ancestors. intros H. apply filter_In in H as [H _].
  apply in_map_iff in H as (pr & <- & Hpr).
  destruct (prefixes_prefix [] _ _ Hpr) as [rest Hr]. cbn [app] in Hr.
  replace (String.length p) with (String.length (filepath.unsplit (pr ++ rest)))
    by (rewrite <- Hr, unsplit_split; reflexivity).
  apply unsplit_prefix_length.
Qed.

Lemma longer_not_ancestor (p e : string) :
  existsb (String.eqb (p ++ String "/" e)) (FS.ancestors p) = false.
Proof.
  destruct (existsb _ _) eqn:E; [|reflexivity].
  apply existsb_exists in E as (a & Ha & Heq). apply String.eqb_eq in Heq. subst a.
  apply ancestors_length in Ha. rewrite length_append in Ha. cbn [String.length] in Ha. lia.
Qed.

(** ** The parent of a path *)

Lemma list_ascii_app (a b : string) :
  list_ascii_of_string (a ++ b) = (list_ascii_of_string a ++ list_ascii_of_string b)%list.
Proof. induction a as [|c a IH]; cbn; [reflexivity|]. rewrite IH. reflexivity. Qed.

Lemma string_of_list_app (a b : list ascii) :
  string_of_list_ascii (a ++ b) = string_of_list_ascii a ++ string_of_list_ascii b.
Proof. induction a as [|c a IH]; cbn; [reflexivity|]. rewrite IH. reflexivity. Qed.

Lemma drop_last_elem_no_sep (e : list ascii) (rest : list ascii) :
  forallb (fun c => negb (filepath.IsPathSeparator c)) e = true ->
  FS.drop_last_elem (e ++ "/"%char :: rest) = "/"%char :: rest.
Proof.
  induction e as [|c e IH]; intros H; [reflexivity|].
  cbn [forallb] in H. apply andb_true_iff in H as [Hc He].
  cbn [app FS.drop_last_elem]. apply negb_true_iff in Hc. rewrite Hc. apply IH. exact He.
Qed.

Lemma no_sep_chars (e : string) :
  has_sep e = false ->
  forallb (fun c => negb (filepath.IsPathSeparator c)) (rev (list_ascii_of_string e)) = true.
Proof.
  intros H. apply forallb_forall. intros c Hc. apply in_rev in Hc.
  induction e as [|d e IH]; [contradiction|].
  cbn [has_sep] in H. apply orb_false_iff in H as [Hd He].
  destruct Hc as [<- | Hc]; [rewrite Hd; reflexivity | apply IH; assumption].
Qed.

Lemma Clean_trailing_sep (x : string) :
  x <> "" -> filepath.Clean (x ++ "/") = filepath.Clean x.
Proof.
  intros Hx. rewrite (Clean_unfold (x ++ "/")) by (apply app_not_empty; assumption).
  rewrite is_rooted_app, (clean_stack_app x "") by assumption.
  rewrite (Clean_unfold x) by assumption. reflexivity.
Qed.

Lemma parent_of_child (x e : string) :
  x <> "" -> has_sep e = false ->
  FS.parent (x ++ String "/" e) = filepath.Clean x.
Proof.
  intros Hx He. unfold FS.parent.
  rewrite list_ascii_app. cbn [list_ascii_of_string].
  rewrite rev_app_distr. cbn [rev]. rewrite <- app_assoc. cbn [app].
  rewrite drop_last_elem_no_sep by (apply no_sep_chars; exact He).
  cbn [rev]. rewrite rev_involutive, string_of_list_app, string_of_list_ascii_of_string.
  cbn [string_of_list_ascii]. apply Clean_trailing_sep. exact Hx.
Qed.


Lemma render_snoc (r : bool) (st : list string) (e : string) :
  st <> [] -> filepath.render r (e :: st) = filepath.render r st ++ String "/" e.
Proof.
  intros Hne. assert (Hr : rev st <> []) by (apply rev_not_nil; exact Hne).
  destruct r; unfold filepath.render; cbn [rev].
  - rewrite unsplit_app by (assumption || discriminate). reflexivity.
  - destruct st as [|x st]; [contradiction|].
    rewrite unsplit_app by (assumption || discriminate). reflexivity.
Qed.

(** The path of an upload is its name under the storage directory. *)
Lemma stored_under_directory (bp : string) (t : time.Time) (name : string) (nano : Z) :
  bp <> "" ->
  let sd := filepath.Join [bp; time.Format_2006_01_02 t] in
  filepath.Clean (bp ++ String "/"
                     (time.Format_2006_01_02 t ++ String "/" (storedName name nano)))
  = sd ++ String "/" (storedName name nano) /\
  sd <> "" /\ filepath.Clean sd = sd.
Proof.
  intros Hbp sd. subst sd. rewrite Join2 by assumption.
  split; [|split; [apply Clean_not_empty | apply Clean_idempotent]].
  pose proof (storedName_plain name nano) as Hp.
  assert (E : bp ++ String "/" (time.Format_2006_01_02 t ++ String "/" (storedName name nano))
              = (bp ++ String "/" (time.Format_2006_01_02 t))
                ++ String "/" (storedName name nano))
    by (rewrite append_assoc; reflexivity).
  rewrite E.
  assert (Hd : bp ++ String "/" (time.Format_2006_01_02 t) <> "")
    by (apply app_not_empty; assumption).
  rewrite (Clean_unfold _ (app_not_empty _ (String "/" (storedName name nano)) Hd)).
  rewrite is_rooted_app, clean_stack_app by assumption.
  rewrite (split_no_sep _ (plain_no_sep _ Hp)). cbn [fold_left].
  rewrite clean_step_plain by assumption.
  rewrite render_snoc.
  - rewrite <- Clean_unfold by assumption. reflexivity.
  - rewrite clean_stack_app by assumption.
    rewrite split_date. cbn [fold_left].
    rewrite !clean_step_plain by apply pad_plain. discriminate.
Qed.

Lemma child_not_always_dir (x e : string) :
  x <> "" -> plain e = true -> FS.always_dir (x ++ String "/" e) = false.
Proof.
  intros Hx He. unfold FS.always_dir.
  assert (Hl : 2 <= String.length (x ++ String "/" e)).
  { rewrite length_append. cbn [String.length]. destruct x; [contradiction|cbn; lia]. }
  destruct (String.eqb_spec (x ++ String "/" e) ".") as [E|_];
    [rewrite E in Hl; cbn in Hl; lia|].
  destruct (String.eqb_spec (x ++ String "/" e) "/") as [E|_];
    [rewrite E in Hl; cbn in Hl; lia|].
  cbn [orb]. rewrite split_app, (split_no_sep _ (plain_no_sep _ He)), forallb_app.
  cbn [forallb]. apply plain_inv in He as (_ & _ & _ & ->).
  rewrite andb_false_r. reflexivity.
Qed.

(** ** Uploads of the Local adapter *)

(** [local.UploadBinary] on a content that is not empty, step by step. *)
Lemma local_UploadBinary_steps (u : local.LocalUploader) (name : string)
      (b : byte) (rest : list byte) (w : World) :
  local.basePath u <> "" ->
  let date := time.Format_2006_01_02 (clock w (ticks w)) in
  let nm := storedName name (time.UnixNano (clock w (S (ticks w)))) in
  let sd := filepath.Join [local.basePath u; date] in
  let stored := sd ++ String "/" nm in
  let r := local.UploadBinary u name (b :: rest) w in
  fault (snd r) = fault w /\
  match outcome (os_MkdirAll sd 493) w with
  | Some e =>
      fst r = fail (fmt_Errorf "failed to generate file path: %w"
                      (fmt_Errorf "failed to create storage directory: %w" (foreign e))) /\
      fs (snd r) = fs w
  | None =>
      match outcome (os_WriteFile stored (b :: rest) 420)
                    (with_fs w (FS.mkdir_all (fs w) sd)) with
      | Some e =>
          fst r = fail (fmt_Errorf "failed to write file: %w" (foreign e)) /\
          fs (snd r) = FS.mkdir_all (fs w) sd
      | None =>
          fst r = ok (date ++ String "/" nm) /\
          fs (snd r) = FS.set (FS.mkdir_all (fs w) sd) stored (FS.File (b :: rest))
      end
  end.
Proof.
  intros Hbp date nm sd stored r. subst r.
  destruct (stored_under_directory (local.basePath u) (clock w (ticks w)) name
              (time.UnixNano (clock w (S (ticks w)))) Hbp) as (Hst & _ & _).
  fold date nm in Hst. cbv zeta in Hst. fold sd in Hst. fold stored in Hst.
  unfold local.UploadBinary, local.generateFilePath, time_Now, call.
  cbn [List.length Nat.eqb]. cbv zeta. fold date. fold sd.
  unfold outcome. cbn [fault fs natural with_fs].
  destruct (fault w (os_MkdirAll sd 493)) as [e|].
  { cbn [fst snd fail ok fault fs log]. repeat split. }
  destruct (FS.mkdir_all_blocked (fs w) sd).
  { cbn [fst snd fail ok fault fs log]. repeat split. }
  cbn [fst snd fail ok fault fs log effect with_fs clock ticks uuids drawn objects trace].
  change (GoStrings.TrimSuffix (filepath.Base name) (filepath.Ext name)
          ++ "_" ++ GoFmt.show_int ?n ++ filepath.Ext name)
    with (uniqueName name n).
  subst sd date. rewrite dated_path by assumption. fold nm. cbv zeta in Hst. rewrite Hst.
  unfold outcome. cbn [fault fs natural with_fs].
  destruct (fault w (os_WriteFile _ _ _)) as [e|].
  { cbn [fst snd fail ok fault fs log]. repeat split. }
  destruct (FS.create_blocked _ _).
  { cbn [fst snd fail ok fault fs log]. repeat split. }
  cbn [fst snd fail ok fault fs log effect with_fs clock ticks uuids drawn objects trace].
  unfold local.locator. rewrite <- Hst. unfold nm. rewrite dated_locator by assumption.
  repeat split.
Qed.


Lemma is_dir_mkdir_all_self (f : FS.t) (p : string) :
  p <> "" -> FS.is_dir (FS.mkdir_all f p) p = true.
Proof.
  intros Hp. unfold FS.is_dir at 1. rewrite mkdir_all_lookup.
  assert (E : existsb (String.eqb p) (FS.ancestors p) = true).
  { apply existsb_exists. exists p. split; [apply self_in_ancestors; exact Hp|].
    apply String.eqb_refl. }
  rewrite E. cbn [andb]. destruct (FS.is_dir f p) eqn:D; cbn [negb].
  - exact D.
  - apply orb_true_r.
Qed.

Lemma is_dir_mkdir_all_child (f : FS.t) (p e : string) :
  FS.is_dir (FS.mkdir_all f p) (p ++ String "/" e) = FS.is_dir f (p ++ String "/" e).
Proof.
  unfold FS.is_dir. rewrite mkdir_all_lookup, longer_not_ancestor. reflexivity.
Qed.

Lemma outcome_quiet (c : Call) (w : World) : quiet w -> outcome c w = natural c w.
Proof. intros H. unfold outcome. rewrite (H c). reflexivity. Qed.

Lemma quiet_with_fs (w : World) (f : FS.t) : quiet w -> quiet (with_fs w f).
Proof. intros H c. apply H. Qed.

(** The two calls of [local.UploadBinary] where no call is made to fail. *)
Lemma local_upload_outcomes (cfg : config.LocalConfig.t) (name : string)
      (content : list byte) (w : World) :
  quiet w ->
  let u := local.New cfg in
  let sd := filepath.Join [local.basePath u; time.Format_2006_01_02 (clock w (ticks w))] in
  let stored := sd ++ String "/" (storedName name (time.UnixNano (clock w (S (ticks w))))) in
  outcome (os_MkdirAll sd 493) w
  = (if FS.mkdir_all_blocked (fs w) sd then Some ENOTDIR else None) /\
  outcome (os_WriteFile stored content 420) (with_fs w (FS.mkdir_all (fs w) sd))
  = (if FS.is_dir (fs w) stored then Some EISDIR else None).
Proof.
  intros Hq u sd stored.
  destruct (New_basePath cfg) as [_ Hne].
  destruct (stored_under_directory (local.basePath u) (clock w (ticks w)) name
              (time.UnixNano (clock w (S (ticks w)))) Hne) as (_ & Hsd & Hcl).
  cbv zeta in Hsd, Hcl. fold sd in Hsd, Hcl.
  rewrite !outcome_quiet by (assumption || (apply quiet_with_fs; assumption)).
  cbn [natural with_fs fs]. split; [reflexivity|].
  unfold FS.create_blocked, stored.
  rewrite parent_of_child, Hcl, is_dir_mkdir_all_self, is_dir_mkdir_all_child
    by (assumption || apply plain_no_sep, storedName_plain).
  reflexivity.
Qed.

(** X4.  Where no call is made to fail and the generated path is a name the
    operating system takes (no NUL byte, no element over 255 bytes, at most
    4095 bytes), [local.UploadBinary] on a content that is not empty succeeds
    exactly when no element of the path of the storage directory is a regular
    file and the path of the new file is not a directory. *)
Theorem local_upload_succeeds_iff (cfg : config.LocalConfig.t) (name : string)
        (b : byte) (rest : list byte) (w : World) :
  quiet w ->
  let u := local.New cfg in
  let sd := filepath.Join [local.basePath u; time.Format_2006_01_02 (clock w (ticks w))] in
  let stored := sd ++ "/" ++ storedName name (time.UnixNano (clock w (S (ticks w)))) in
  FS.valid_path stored = true ->
  snd (fst (local.UploadBinary u name (b :: rest) w)) = None <->
  FS.mkdir_all_blocked (fs w) sd = false /\ FS.is_dir (fs w) stored = false.
Proof.
  intros Hq u sd stored _.
  destruct (New_basePath cfg) as [_ Hne].
  pose proof (local_UploadBinary_steps u name b rest w Hne) as Hs. cbv zeta in Hs.
  destruct (local_upload_outcomes cfg name (b :: rest) w Hq) as [H1 H2].
  cbv zeta in H1, H2. fold u sd in Hs, H1, H2. rewrite H1, H2 in Hs. clear H1 H2.
  destruct Hs as [_ Hs]. unfold stored. rewrite sep_app.
  destruct (FS.mkdir_all_blocked (fs w) sd).
  { destruct Hs as [-> _]. split; [discriminate|intros [H _]; discriminate H]. }
  destruct (FS.is_dir (fs w) _).
  - destruct Hs as [-> _]. split; [discriminate|intros [_ H]; discriminate H].
  - destruct Hs as [-> _]. split; [intros _; split; reflexivity | reflexivity].
Qed.

Lemma local_upload_succeeds_iff_witness :
  let cfg := {| config.LocalConfig.BasePath := "t" |} in
  let w := Sample.world [("notes.txt", FS.File Sample.hello)] [] in
  quiet w /\
  FS.valid_path "t/2025/07/01/a_1751328000000000001.txt" = true /\
  (snd (fst (local.UploadBinary (local.New cfg) "a.txt" Sample.hello w)) = None <->
   FS.mkdir_all_blocked (fs w) "t/2025/07/01" = false /\
   FS.is_dir (fs w) "t/2025/07/01/a_1751328000000000001.txt" = false).
Proof.
  intros cfg w.
  assert (Hq : quiet w) by (intro c; reflexivity).
  assert (Hv : FS.valid_path "t/2025/07/01/a_1751328000000000001.txt" = true)
    by reflexivity.
  split; [exact Hq|]. split; [exact Hv|].
  exact (local_upload_succeeds_iff cfg "a.txt" "h"%byte (tl Sample.hello) w Hq Hv).
Defined.

Lemma outcome_None (c : Call) (w : World) :
  outcome c w = None -> natural c w = None.
Proof. unfold outcome. destruct (fault w c); [discriminate|trivial]. Qed.

(** X5.  An upload of the Local adapter keeps every other regular file as
    it is, whatever fails: only the path of the new file can change content. *)
Theorem local_upload_keeps_other_files (cfg : config.LocalConfig.t) (name : string)
        (content : list byte) (w : World) (q : string) (c : list byte) :
  let u := local.New cfg in
  let sd := filepath.Join [local.basePath u; time.Format_2006_01_02 (clock w (ticks w))] in
  let stored := sd ++ "/" ++ storedName name (time.UnixNano (clock w (S (ticks w)))) in
  FS.lookup (fs w) q = Some (FS.File c) -> q <> stored ->
  FS.lookup (fs (snd (local.UploadBinary u name content w))) q = Some (FS.File c).
Proof.
  intros u sd stored Hq Hne.
  destruct content as [|b rest]; [exact Hq|].
  destruct (New_basePath cfg) as [_ Hb].
  pose proof (local_UploadBinary_steps u name b rest w Hb) as Hs. cbv zeta in Hs.
  fold sd in Hs. destruct Hs as [_ Hs].
  destruct (outcome (os_MkdirAll sd 493) w) eqn:E1.
  { destruct Hs as [_ ->]. exact Hq. }
  apply outcome_None in E1. cbn [natural] in E1.
  destruct (FS.mkdir_all_blocked (fs w) sd) eqn:Eb; [discriminate E1|].
  destruct (outcome (os_WriteFile _ _ _) _).
  - destruct Hs as [_ ->]. apply mkdir_all_keeps_files; assumption.
  - destruct Hs as [_ ->]. rewrite lookup_set_other.
    + apply mkdir_all_keeps_files; assumption.
    + unfold stored in Hne. rewrite sep_app in Hne. exact Hne.
Qed.

Lemma local_upload_keeps_other_files_witness :
  let cfg := {| config.LocalConfig.BasePath := "t" |} in
  let w := Sample.world [("t/2025/07/01/old.txt", FS.File Sample.hello)] [] in
  FS.lookup (fs w) "t/2025/07/01/old.txt" = Some (FS.File Sample.hello) /\
  "t/2025/07/01/old.txt" <> "t/2025/07/01/a_1751328000000000001.txt" /\
  FS.lookup (fs (snd (local.UploadBinary (local.New cfg) "a.txt" [x41] w)))
            "t/2025/07/01/old.txt" = Some (FS.File Sample.hello).
Proof.
  intros cfg w.
  assert (H1 : FS.lookup (fs w) "t/2025/07/01/old.txt" = Some (FS.File Sample.hello))
    by reflexivity.
  assert (H2 : "t/2025/07/01/old.txt" <> "t/2025/07/01/a_1751328000000000001.txt")
    by discriminate.
  split; [exact H1|]. split; [exact H2|].
  exact (local_upload_keeps_other_files cfg "a.txt" [x41] w _ _ H1 H2).
Defined.




(** ** [local.Delete] *)

(** [local.Delete], step by step. *)
Lemma local_Delete_steps (u : local.LocalUploader) (loc : string) (w : World) :
  let p := filepath.Join [local.basePath u; loc] in
  let r := local.Delete u loc w in
  fault (snd r) = fault w /\ objects (snd r) = objects w /\
  if os_IsNotExist (outcome (os_Stat p) w)
  then fst r = Some (fmt_Errorf_s "file not exists: %s" p) /\ fs (snd r) = fs w
  else match outcome (os_Remove p) w with
       | Some e => fst r = Some (fmt_Errorf "failed to delete file: %v" (foreign e)) /\
                   fs (snd r) = fs w
       | None => fst r = None /\ fs (snd r) = FS.remove (fs w) p
       end.
Proof.
  intros p r. subst r. unfold local.Delete. fold p.
  destruct (call (os_Stat p) w) as [err w0] eqn:Ec.
  unfold call in Ec. cbv zeta in Ec. injection Ec as <- <-.
  destruct (os_IsNotExist (outcome (os_Stat p) w)) eqn:E.
  { cbn [fst snd fault objects fs log].
    destruct (outcome (os_Stat p) w); cbn [fault objects fs effect]; repeat split. }
  destruct (call (os_Remove p) _) as [err1 w1] eqn:Ec.
  unfold call in Ec. cbv zeta in Ec. injection Ec as <- <-.
  assert (Ho : forall ev, outcome (os_Remove p) (log ev w) = outcome (os_Remove p) w)
    by reflexivity.
  destruct (outcome (os_Stat p) w); rewrite !Ho;
    destruct (outcome (os_Remove p) w) as [e|];
    cbn [fst snd fault objects fs log effect with_fs]; repeat split.
Qed.

Lemma not_always_dir (p : string) :
  FS.always_dir p = false -> String.eqb p "." = false /\ String.eqb p "/" = false.
Proof.
  unfold FS.always_dir. intros H.
  apply orb_false_iff in H as [H _]. apply orb_false_iff in H. exact H.
Qed.

Lemma exists_file (f : FS.t) (p : string) (c : list byte) :
  FS.lookup f p = Some (FS.File c) -> FS.exists_ f p = true.
Proof. intros H. unfold FS.exists_. rewrite H. apply orb_true_r. Qed.

(** [local.Delete] where no call is made to fail and the path holds a
    regular file. *)
Lemma local_Delete_file (u : local.LocalUploader) (loc : string) (c : list byte)
      (w : World) :
  quiet w ->
  let p := filepath.Join [local.basePath u; loc] in
  FS.always_dir p = false -> FS.lookup (fs w) p = Some (FS.File c) ->
  fst (local.Delete u loc w) = None /\
  fs (snd (local.Delete u loc w)) = FS.remove (fs w) p /\
  quiet (snd (local.Delete u loc w)).
Proof.
  intros Hq p Ha Hl.
  destruct (local_Delete_steps u loc w) as (Hf & _ & Hs). fold p in Hs.
  rewrite !outcome_quiet in Hs by assumption. cbn [natural] in Hs.
  unfold FS.stat_blocked in Hs.
  rewrite (exists_file _ _ _ Hl) in Hs. cbn [os_IsNotExist] in Hs.
  destruct (not_always_dir _ Ha) as [Hd Hr].
  unfold FS.remove_blocked in Hs. rewrite Hd, Hr, Ha, Hl in Hs.
  destruct Hs as [H1 H2]. repeat split; try assumption.
  intros k. rewrite Hf. apply Hq.
Qed.

(** [local.Delete] where no call is made to fail and the path holds
    nothing, below directories. *)
Lemma local_Delete_missing (u : local.LocalUploader) (loc : string) (w : World) :
  quiet w ->
  let p := filepath.Join [local.basePath u; loc] in
  FS.always_dir p = false -> FS.lookup (fs w) p = None ->
  FS.below_file (fs w) p = false ->
  fst (local.Delete u loc w) = Some (fmt_Errorf_s "file not exists: %s" p) /\
  fs (snd (local.Delete u loc w)) = fs w.
Proof.
  intros Hq p Ha Hl Hb.
  destruct (local_Delete_steps u loc w) as (Hf & _ & Hs). fold p in Hs.
  rewrite !outcome_quiet in Hs by assumption. cbn [natural] in Hs.
  unfold FS.stat_blocked, FS.missing, FS.exists_ in Hs.
  rewrite Ha, Hl, Hb in Hs. cbn [orb os_IsNotExist] in Hs.
  exact Hs.
Qed.

(** Nothing stands in the way of a directory that has been made, also
    after a file has been written into it and removed. *)
Lemma made_directory_not_blocked (f : FS.t) (sd e : string) (n : FS.node) :
  FS.mkdir_all_blocked f sd = false ->
  FS.mkdir_all_blocked
    (FS.remove (FS.set (FS.mkdir_all f sd) (sd ++ String "/" e) n) (sd ++ String "/" e)) sd
  = false.
Proof.
  intros Hb. unfold FS.mkdir_all_blocked in *.
  destruct (existsb _ (FS.ancestors sd)) eqn:E in |- *; [|reflexivity].
  exfalso. apply existsb_exists in E as (a & Ha & Hf).
  assert (Hne : a <> sd ++ String "/" e).
  { intros ->. pose proof (longer_not_ancestor sd e) as Hl.
    assert (Ht : existsb (String.eqb (sd ++ String "/" e)) (FS.ancestors sd) = true).
    { apply existsb_exists. eexists. split; [exact Ha | apply String.eqb_refl]. }
    rewrite Ht in Hl. discriminate Hl. }
  rewrite lookup_remove_other, lookup_set_other, mkdir_all_lookup in Hf by assumption.
  assert (Hin : existsb (String.eqb a) (FS.ancestors sd) = true).
  { apply existsb_exists. eexists. split; [exact Ha | apply String.eqb_refl]. }
  rewrite Hin in Hf. cbn [andb] in Hf.
  destruct (FS.is_dir f a); cbn [negb] in Hf; [|discriminate Hf].
  assert (Ht : existsb (fun a => match FS.lookup f a with
                                 | Some (FS.File _) => true
                                 | _ => false
                                 end) (FS.ancestors sd) = true).
  { apply existsb_exists. exists a. split; assumption. }
  rewrite Ht in Hb. discriminate Hb.
Qed.

Lemma is_dir_remove_other (f : FS.t) (p q : string) :
  q <> p -> FS.is_dir (FS.remove f p) q = FS.is_dir f q.
Proof. intros H. unfold FS.is_dir. rewrite lookup_remove_other by assumption. reflexivity. Qed.

Lemma child_not_parent (x e : string) : x <> x ++ String "/" e.
Proof.
  intros H. apply (f_equal String.length) in H. rewrite length_append in H.
  cbn [String.length] in H. lia.
Qed.

(** X7.  The round trip of the Local adapter: where no call is made to
    fail, the locator of a successful [UploadBinary], joined to the base
    path, names the stored content; [Delete] on the locator succeeds, removes
    the file and leaves its dated directory in place; a second [Delete]
    reports that the file does not exist. *)
Theorem local_upload_then_delete (cfg : config.LocalConfig.t) (name : string)
        (b : byte) (rest : list byte) (w : World) :
  quiet w ->
  let u := local.New cfg in
  let r := local.UploadBinary u name (b :: rest) w in
  snd (fst r) = None ->
  let loc := fst (fst r) in
  let p := filepath.Join [local.basePath u; loc] in
  let d := local.Delete u loc (snd r) in
  FS.lookup (fs (snd r)) p = Some (FS.File (b :: rest)) /\
  fst d = None /\
  FS.lookup (fs (snd d)) p = None /\
  FS.is_dir (fs (snd d))
            (filepath.Join [local.basePath u;
                            time.Format_2006_01_02 (clock w (ticks w))]) = true /\
  fst (local.Delete u loc (snd d)) = Some (fmt_Errorf_s "file not exists: %s" p).
Proof.
  intros Hq u r Hok loc p d.
  destruct (New_basePath cfg) as [_ Hne]. fold u in Hne.
  pose proof (local_UploadBinary_steps u name b rest w Hne) as Hs. cbv zeta in Hs.
  destruct (stored_under_directory (local.basePath u) (clock w (ticks w)) name
              (time.UnixNano (clock w (S (ticks w)))) Hne) as (Hst & Hsd & Hcl).
  cbv zeta in Hst, Hsd, Hcl.
  set (date := time.Format_2006_01_02 (clock w (ticks w))) in *.
  set (nm := storedName name (time.UnixNano (clock w (S (ticks w))))) in *.
  set (sd := filepath.Join [local.basePath u; date]) in *.
  fold r in Hs. destruct Hs as [Hf Hs].
  destruct (outcome (os_MkdirAll sd 493) w) eqn:Em.
  { destruct Hs as [Hs _]. rewrite Hs in Hok. discriminate Hok. }
  apply outcome_None in Em. cbn [natural] in Em.
  destruct (FS.mkdir_all_blocked (fs w) sd) eqn:Hnb; [discriminate Em|]. clear Em.
  destruct (outcome (os_WriteFile _ _ _) _).
  { destruct Hs as [Hs _]. rewrite Hs in Hok. discriminate Hok. }
  destruct Hs as [Hr Hfs].
  assert (Hp : p = sd ++ String "/" nm).
  { unfold p, loc. rewrite Hr. cbn [fst ok]. rewrite Join2 by assumption. exact Hst. }
  assert (Hq1 : quiet (snd r)) by (intros k; rewrite Hf; apply Hq).
  pose proof (local_Delete_file u loc (b :: rest) (snd r) Hq1) as HF.
  pose proof (fun q => local_Delete_missing u loc (snd d) q) as HM.
  cbv zeta in HF, HM. fold p in HF, HM. fold d in HF.
  clearbody p. subst p.
  assert (Ha : FS.always_dir (sd ++ String "/" nm) = false)
    by (apply child_not_always_dir; [exact Hsd | apply storedName_plain]).
  assert (Hl : FS.lookup (fs (snd r)) (sd ++ String "/" nm) = Some (FS.File (b :: rest)))
    by (rewrite Hfs; apply lookup_set).
  destruct (HF Ha Hl) as (Hd & Hdf & Hq2).
  assert (Hgone : FS.lookup (fs (snd d)) (sd ++ String "/" nm) = None)
    by (rewrite Hdf; apply lookup_remove).
  split; [exact Hl|]. split; [exact Hd|]. split; [exact Hgone|]. split.
  - rewrite Hdf, Hfs, is_dir_remove_other by apply child_not_parent.
    rewrite is_dir_set_other by apply child_not_parent.
    apply is_dir_mkdir_all_self. exact Hsd.
  - apply (HM Hq2 Ha Hgone). unfold FS.below_file.
    rewrite parent_of_child, Hcl by (assumption || apply plain_no_sep, storedName_plain).
    rewrite Hdf, Hfs. apply made_directory_not_blocked. exact Hnb.
Qed.

Lemma local_upload_then_delete_witness :
  let cfg := {| config.LocalConfig.BasePath := "t" |} in
  let w := Sample.world [] [] in
  let u := local.New cfg in
  let r := local.UploadBinary u "a.txt" Sample.hello w in
  let loc := "2025/07/01/a_1751328000000000001.txt" in
  let p := "t/2025/07/01/a_1751328000000000001.txt" in
  let d := local.Delete u loc (snd r) in
  quiet w /\ fst r = ok loc /\
  FS.lookup (fs (snd r)) p = Some (FS.File Sample.hello) /\
  fst d = None /\
  FS.lookup (fs (snd d)) p = None /\
  FS.is_dir (fs (snd d)) "t/2025/07/01" = true /\
  fst (local.Delete u loc (snd d)) = Some (fmt_Errorf_s "file not exists: %s" p).
Proof.
  intros cfg w u r loc p d.
  assert (Hq : quiet w) by (intro c; reflexivity).
  assert (Hr : fst r = ok loc) by (vm_compute; reflexivity).
  assert (Hok : snd (fst r) = None) by (rewrite Hr; reflexivity).
  split; [exact Hq|]. split; [exact Hr|].
  exact (local_upload_then_delete cfg "a.txt" "h"%byte (tl Sample.hello) w Hq Hok).
Defined.

(** X8.  [local.Delete] changes one path only: every other path holds after
    it what it held before, whatever fails, and no object store is touched. *)
Theorem local_Delete_touches_one_path (u : local.LocalUploader) (loc q : string)
        (w : World) :
  q <> filepath.Join [local.basePath u; loc] ->
  FS.lookup (fs (snd (local.Delete u loc w))) q = FS.lookup (fs w) q /\
  objects (snd (local.Delete u loc w)) = objects w.
Proof.
  intros Hq. destruct (local_Delete_steps u loc w) as (_ & Ho & Hs).
  split; [|exact Ho].
  destruct (os_IsNotExist _).
  - destruct Hs as [_ ->]. reflexivity.
  - destruct (outcome (os_Remove _) w).
    + destruct Hs as [_ ->]. reflexivity.
    + destruct Hs as [_ ->]. apply lookup_remove_other. exact Hq.
Qed.

Lemma local_Delete_touches_one_path_witness :
  let w := Sample.world [("t/a.txt", FS.File Sample.hello);
                         ("t/b.txt", FS.File [x41])] [] in
  "t/b.txt" <> filepath.Join [local.basePath Sample.localT; "a.txt"] /\
  FS.lookup (fs (snd (local.Delete Sample.localT "a.txt" w))) "t/b.txt"
  = Some (FS.File [x41]) /\
  FS.lookup (fs (snd (local.Delete Sample.localT "a.txt" w))) "t/a.txt" = None.
Proof.
  intros w.
  assert (H : "t/b.txt" <> filepath.Join [local.basePath Sample.localT; "a.txt"])
    by (vm_compute; discriminate).
  split; [exact H|]. split.
  - exact (proj1 (local_Delete_touches_one_path Sample.localT "a.txt" "t/b.txt" w H)).
  - vm_compute. reflexivity.
Defined.

Lemma Join_leading_sep (bp q : string) :
  bp <> "" -> filepath.Join [bp; String "/" q] = filepath.Join [bp; q].
Proof.
  intros Hb. rewrite !Join2 by assumption.
  rewrite !Clean_unfold by (apply app_not_empty; assumption).
  rewrite !is_rooted_app, !clean_stack_app by assumption.
  rewrite split_sep_cons. cbn [fold_left]. reflexivity.
Qed.

(** X9.  A locator that starts with a separator is not taken as an absolute
    path: [local.Delete] resolves it under the base path, as it does the
    locator without that separator. *)
Theorem local_Delete_absolute_locator (cfg : config.LocalConfig.t) (q : string)
        (w : World) :
  local.Delete (local.New cfg) (String "/" q) w = local.Delete (local.New cfg) q w.
Proof.
  destruct (New_basePath cfg) as [_ Hne].
  unfold local.Delete. rewrite Join_leading_sep by assumption. reflexivity.
Qed.









(** ** Decoding and keys *)

(** *** Undecodable input *)

Lemma decode_quanta_chars (n : nat) :
  forall (l : list ascii) (out : list byte),
    List.length l <= n ->
    base64.decode_quanta l = Some out ->
    Forall (fun c => base64.decode_char c <> None \/ c = base64.padChar) l.
Proof.
  induction n as [|n IH]; intros l out Hn H.
  { destruct l; [constructor | cbn in Hn; lia]. }
  destruct l as [|a [|b [|c [|d rest]]]]; try discriminate H; [constructor|].
  cbn [base64.decode_quanta] in H.
  destruct (Ascii.eqb_spec d base64.padChar) as [Ed|Ed].
  - destruct rest; [|discriminate H].
    destruct (Ascii.eqb_spec c base64.padChar) as [Ec|Ec].
    + destruct (base64.decode_char a) eqn:Da; [|discriminate H].
      destruct (base64.decode_char b) eqn:Db; [|discriminate H].
      repeat (apply Forall_cons; [first [left; congruence | right; assumption]|]);
      apply Forall_nil.
    + destruct (base64.decode_char a) eqn:Da; [|discriminate H].
      destruct (base64.decode_char b) eqn:Db; [|discriminate H].
      destruct (base64.decode_char c) eqn:Dc; [|discriminate H].
      repeat (apply Forall_cons; [first [left; congruence | right; assumption]|]);
      apply Forall_nil.
  - destruct (base64.decode_char a) eqn:Da; [|discriminate H].
    destruct (base64.decode_char b) eqn:Db; [|discriminate H].
    destruct (base64.decode_char c) eqn:Dc; [|discriminate H].
    destruct (base64.decode_char d) eqn:Dd; [|discriminate H].
    destruct (base64.decode_quanta rest) as [o|] eqn:Dr; [|discriminate H].
    assert (Hr : Forall (fun c => base64.decode_char c <> None \/ c = base64.padChar) rest).
    { apply (IH rest o); [cbn in Hn; lia | exact Dr]. }
    repeat (apply Forall_cons; [left; congruence|]). exact Hr.
Qed.

(** A character that is neither of the alphabet, nor the padding, nor a
    line break makes the decoding fail. *)
Lemma DecodeString_foreign_character (s : string) (c : ascii) :
  In c (list_ascii_of_string s) ->
  base64.decode_char c = None -> c <> base64.padChar -> base64.is_newline c = false ->
  base64.DecodeString s = inr CorruptInputError.
Proof.
  intros Hin Hd Hp Hn. unfold base64.DecodeString.
  destruct (base64.decode_quanta _) as [out|] eqn:E; [|reflexivity].
  exfalso.
  pose proof (decode_quanta_chars _ _ _ (Nat.le_refl _) E) as HF.
  rewrite Forall_forall in HF.
  destruct (HF c) as [H|H]; [|exact (H Hd)|exact (Hp H)].
  apply filter_In. split; [exact Hin|]. rewrite Hn. reflexivity.
Qed.

Lemma In_not_empty (s : string) (c : ascii) :
  In c (list_ascii_of_string s) -> String.eqb s "" = false.
Proof. destruct s; [intros []|reflexivity]. Qed.

(** X11.  [UploadBase64] on a string that holds a character outside the
    alphabet, the padding and the line breaks (the prefix of a data URL, for
    one) fails with a decoding error, makes no call and changes neither the
    files nor the objects.  The Qiniu adapter, which checks the name first,
    does so for a name that is not empty. *)
Theorem UploadBase64_rejects_foreign_characters (a : uploader.Adapter)
        (name s : string) (c : ascii) (w : World) :
  In c (list_ascii_of_string s) ->
  base64.decode_char c = None -> c <> base64.padChar -> base64.is_newline c = false ->
  (forall h, a = uploader.QiniuAdapter h -> name <> "") ->
  let r := uploader.UploadBase64 a name s w in
  (exists e, fst r = fail e /\ kind e = DecodeError) /\
  fs (snd r) = fs w /\ objects (snd r) = objects w /\ trace (snd r) = trace w.
Proof.
  intros Hin Hd Hp Hn Hname r. subst r.
  pose proof (DecodeString_foreign_character s c Hin Hd Hp Hn) as HD.
  pose proof (In_not_empty s c Hin) as Hs.
  destruct a as [u|h|u|u]; cbn [uploader.UploadBase64].
  - unfold local.UploadBase64. rewrite Hs, HD. cbn [fst snd].
    split; [eexists; split; reflexivity | repeat split].
  - unfold qiniu.UploadBase64, qiniu.generateUniqueKey, time_Now, uuid_New.
    destruct (String.eqb_spec name "") as [E|_]; [destruct (Hname h eq_refl E)|].
    rewrite Hs, HD. cbn [fst snd fs objects trace].
    split; [eexists; split; reflexivity | repeat split].
  - unfold aliyun.UploadBase64. rewrite Hs, HD. cbn [fst snd].
    split; [eexists; split; reflexivity | repeat split].
  - unfold tencent.UploadBase64. rewrite Hs, HD. cbn [fst snd].
    split; [eexists; split; reflexivity | repeat split].
Qed.

Lemma UploadBase64_rejects_foreign_characters_witness :
  let a := uploader.AliyunAdapter Sample.aliyunT in
  let s := "data:text/plain;base64,aGVsbG8=" in
  let w := Sample.world [] [] in
  let r := uploader.UploadBase64 a "a.txt" s w in
  In ":"%char (list_ascii_of_string s) /\
  base64.decode_char ":"%char = None /\
  (exists e, fst r = fail e /\ kind e = DecodeError) /\
  fs (snd r) = fs w /\ objects (snd r) = objects w /\ trace (snd r) = trace w.
Proof.
  intros a s w r.
  assert (Hin : In ":"%char (list_ascii_of_string s)).
  { do 4 right. left. reflexivity. }
  assert (Hd : base64.decode_char ":"%char = None) by reflexivity.
  split; [exact Hin|]. split; [exact Hd|].
  apply (UploadBase64_rejects_foreign_characters a "a.txt" s ":"%char w Hin Hd).
  - discriminate.
  - reflexivity.
  - intros h H. discriminate H.
Defined.

(** *** Keys of different instants *)

Lemma to_int_not_nil (z : Z) :
  Z.to_int z <> Decimal.Pos Decimal.Nil /\ Z.to_int z <> Decimal.Neg Decimal.Nil.
Proof.
  split; intros E; pose proof (DecimalZ.of_to z) as H; rewrite E in H;
    cbn in H; subst z; discriminate E.
Qed.

Lemma show_int_injective (z1 z2 : Z) : GoFmt.show_int z1 = GoFmt.show_int z2 -> z1 = z2.
Proof.
  unfold GoFmt.show_int. intros H.
  apply (f_equal NilZero.int_of_string) in H.
  destruct (to_int_not_nil z1) as [A1 B1]. destruct (to_int_not_nil z2) as [A2 B2].
  rewrite !NilZero.isi in H by assumption.
  injection H as H. apply (f_equal Z.of_int) in H. rewrite !DecimalZ.of_to in H. exact H.
Qed.

Lemma append_cancel_l (a x y : string) : a ++ x = a ++ y -> x = y.
Proof. induction a as [|c a IH]; cbn; intros H; [exact H | injection H as H; auto]. Qed.

Lemma append_cancel_r (e x y : string) : x ++ e = y ++ e -> x = y.
Proof.
  revert y. induction x as [|c x IH]; intros y H.
  - destruct y as [|d y]; [reflexivity|]. exfalso.
    apply (f_equal String.length) in H. rewrite !length_append in H.
    cbn [append String.length] in H. lia.
  - destruct y as [|d y].
    + exfalso. apply (f_equal String.length) in H. rewrite !length_append in H.
      cbn [append String.length] in H. lia.
    + cbn [append] in H. injection H as -> H. f_equal. apply IH. exact H.
Qed.

Lemma storedName_injective (name : string) (n1 n2 : Z) :
  storedName name n1 = storedName name n2 -> n1 = n2.
Proof.
  unfold storedName. intros H.
  apply append_cancel_l, append_cancel_l, append_cancel_r in H.
  apply show_int_injective. exact H.
Qed.



Lemma digits_no_underscore (s : string) : all_digits s = true -> has_underscore s = false.
Proof.
  induction s as [|c s IH]; [reflexivity|]. cbn [all_digits has_underscore].
  intros H. apply andb_true_iff in H as [Hc Hs]. rewrite (IH Hs), orb_false_r.
  destruct (Ascii.eqb_spec c "_") as [->|_]; [discriminate Hc | reflexivity].
Qed.

Lemma show_int_no_underscore (z : Z) : has_underscore (GoFmt.show_int z) = false.
Proof.
  unfold GoFmt.show_int, NilZero.string_of_int, NilZero.string_of_uint.
  destruct (Z.to_int z) as [d|d]; destruct d; try reflexivity;
    simpl; apply digits_no_underscore, (uint_all_digits _).
Qed.

Lemma first_underscore (x1 x2 y1 y2 : string) :
  has_underscore x1 = false -> has_underscore x2 = false ->
  x1 ++ String "_" y1 = x2 ++ String "_" y2 -> x1 = x2 /\ y1 = y2.
Proof.
  revert x2. induction x1 as [|c x1 IH]; intros x2 H1 H2 H.
  - destruct x2 as [|d x2].
    + cbn in H. injection H as H. split; [reflexivity | exact H].
    + cbn in H. injection H as Hc _. subst d. cbn in H2.
      discriminate H2.
  - destruct x2 as [|d x2].
    + cbn in H. injection H as Hc _. subst c. cbn in H1. discriminate H1.
    + cbn in H. injection H as -> H. cbn [has_underscore] in H1, H2.
      apply orb_false_iff in H1 as [_ H1]. apply orb_false_iff in H2 as [_ H2].
      destruct (IH x2 H1 H2 H) as [-> ->]. split; reflexivity.
Qed.

(** X12.  Keys of different instants differ: for one filename, the keys of
    the Aliyun and Tencent adapters differ as soon as the second readings of
    the clock do, and the keys of the Qiniu adapter as soon as the readings
    of the clock do. *)
Theorem keys_of_different_instants_differ (name : string) (w1 w2 : World) :
  (time.UnixNano (clock w1 (S (ticks w1))) <> time.UnixNano (clock w2 (S (ticks w2))) ->
   (forall u, fst (aliyun.generateObjectKey u name w1)
              <> fst (aliyun.generateObjectKey u name w2)) /\
   (forall u, fst (tencent.generateObjectKey u name w1)
              <> fst (tencent.generateObjectKey u name w2))) /\
  (time.UnixNano (clock w1 (ticks w1)) <> time.UnixNano (clock w2 (ticks w2)) ->
   forall h, fst (qiniu.generateUniqueKey h name w1)
             <> fst (qiniu.generateUniqueKey h name w2)).
Proof.
  assert (Hd : forall t1 t2 n1 n2,
             time.Format_2006_01_02 t1 ++ String "/" (storedName name n1)
             = time.Format_2006_01_02 t2 ++ String "/" (storedName name n2) -> n1 = n2).
  { intros t1 t2 n1 n2 H. apply (f_equal filepath.split) in H.
    rewrite !split_app, !split_date in H.
    rewrite !(split_no_sep _ (plain_no_sep _ (storedName_plain _ _))) in H.
    cbn [app] in H. injection H as _ _ _ H. apply storedName_injective in H. exact H. }
  split.
  - intros Hne. split; intros u H.
    + rewrite (proj1 (aliyun_key u name w1)), (proj1 (aliyun_key u name w2)) in H.
      apply Hne, (Hd _ _ _ _ H).
    + rewrite (proj1 (tencent_key u name w1)), (proj1 (tencent_key u name w2)) in H.
      apply Hne, (Hd _ _ _ _ H).
  - intros Hne h H. rewrite !qiniu_key in H. rewrite !sep_underscore in H.
    apply first_underscore in H; try apply show_int_no_underscore.
    apply Hne, show_int_injective, H.
Qed.

Lemma keys_of_different_instants_differ_witness :
  let w1 := Sample.world [] [] in
  let w2 := mkWorld Sample.clock 2 Sample.uuids 1 (fun _ => None) [] [] [] in
  time.UnixNano (clock w1 (S (ticks w1))) <> time.UnixNano (clock w2 (S (ticks w2))) /\
  time.UnixNano (clock w1 (ticks w1)) <> time.UnixNano (clock w2 (ticks w2)) /\
  fst (aliyun.generateObjectKey Sample.aliyunT "a.txt" w1)
  <> fst (aliyun.generateObjectKey Sample.aliyunT "a.txt" w2) /\
  fst (tencent.generateObjectKey Sample.tencentT "a.txt" w1)
  <> fst (tencent.generateObjectKey Sample.tencentT "a.txt" w2) /\
  fst (qiniu.generateUniqueKey Sample.qiniuT "a.txt" w1)
  <> fst (qiniu.generateUniqueKey Sample.qiniuT "a.txt" w2).
Proof.
  intros w1 w2.
  assert (H1 : time.UnixNano (clock w1 (S (ticks w1)))
               <> time.UnixNano (clock w2 (S (ticks w2)))) by (vm_compute; discriminate).
  assert (H2 : time.UnixNano (clock w1 (ticks w1))
               <> time.UnixNano (clock w2 (ticks w2))) by (vm_compute; discriminate).
  split; [exact H1|]. split; [exact H2|].
  destruct (keys_of_different_instants_differ "a.txt" w1 w2) as [A B].
  destruct (A H1) as [Aa At].
  split; [apply Aa|]. split; [apply At | apply (B H2)].
Defined.


(** *** The elements of a key *)

Lemma dated_split (t : time.Time) (name : string) (nano : Z) :
  filepath.split (time.Format_2006_01_02 t ++ String "/" (storedName name nano))
  = [GoFmt.pad 4 (time.Year t); GoFmt.pad 2 (time.Month t); GoFmt.pad 2 (time.Day t);
     storedName name nano].
Proof.
  rewrite split_app, split_date.
  rewrite (split_no_sep _ (plain_no_sep _ (storedName_plain _ _))). reflexivity.
Qed.

(** X13.  No filename reaches the directories of a key: whatever the
    filename, the key of the Aliyun and Tencent adapters and the locator of a
    successful upload of the Local adapter have four elements, the three of
    the date and one generated name, none of them empty, [.] or [..]. *)
Theorem filenames_add_no_directory (name : string) (w : World) :
  let t := clock w (ticks w) in
  let shape (key : string) :=
    exists last,
      filepath.split key
      = [GoFmt.pad 4 (time.Year t); GoFmt.pad 2 (time.Month t); GoFmt.pad 2 (time.Day t);
         last] /\
      Forall (fun e => plain e = true) (filepath.split key) in
  (forall u, shape (fst (aliyun.generateObjectKey u name w))) /\
  (forall u, shape (fst (tencent.generateObjectKey u name w))) /\
  (forall cfg b rest,
      let r := local.UploadBinary (local.New cfg) name (b :: rest) w in
      snd (fst r) = None -> shape (fst (fst r))).
Proof.
  intros t shape.
  assert (Hs : shape (time.Format_2006_01_02 t
                      ++ String "/" (storedName name (time.UnixNano (clock w (S (ticks w))))))).
  { eexists. rewrite dated_split. split; [reflexivity|].
    repeat (apply Forall_cons; [first [apply pad_plain | apply storedName_plain]|]).
    apply Forall_nil. }
  split; [|split].
  - intros u. rewrite (proj1 (aliyun_key u name w)). exact Hs.
  - intros u. rewrite (proj1 (tencent_key u name w)). exact Hs.
  - intros cfg b rest r Hok.
    destruct (New_basePath cfg) as [_ Hne].
    pose proof (local_UploadBinary_steps (local.New cfg) name b rest w Hne) as H.
    cbv zeta in H. fold r in H. destruct H as [_ H].
    destruct (outcome (os_MkdirAll _ _) w).
    { destruct H as [H _]. rewrite H in Hok. discriminate Hok. }
    destruct (outcome (os_WriteFile _ _ _) _).
    { destruct H as [H _]. rewrite H in Hok. discriminate Hok. }
    destruct H as [-> _]. exact Hs.
Qed.

(** *** What the factory returns when a constructor fails *)



Lemma errors_New_not_own (msg : string) :
  msg <> "invalid config for uploader" -> msg <> "unsupported uploader type" ->
  ~ own_error (errors_New msg).
Proof. intros H1 H2 [H|H]; injection H as H; contradiction. Qed.

Lemma fmt_Errorf_not_own (f : string) (e : error) : ~ own_error (fmt_Errorf f e).
Proof. intros [H|H]; discriminate H. Qed.

Lemma qiniu_New_one_of (c : config.QiniuConfig.t) (w : World) :
  (exists e, fst (qiniu.New c w) = (None, Some e) /\ ~ own_error e) \/
  (exists u, fst (qiniu.New c w) = (Some u, None)).
Proof.
  unfold qiniu.New. destruct (_ || _).
  { left. eexists. split; [reflexivity | apply errors_New_not_own; discriminate]. }
  destruct (call _ w) as [err w0]. right. eexists. reflexivity.
Qed.

Lemma aliyun_New_one_of (c : config.AliyunConfig.t) (w : World) :
  (exists e, fst (aliyun.New c w) = (None, Some e) /\ ~ own_error e) \/
  (exists u, fst (aliyun.New c w) = (Some u, None)).
Proof.
  unfold aliyun.New. destruct (_ || _).
  { left. eexists. split; [reflexivity | apply errors_New_not_own; discriminate]. }
  destruct (call _ w) as [[e|] w0];
    [left; eexists; split; [reflexivity | apply fmt_Errorf_not_own]|].
  destruct (call _ w0) as [[e|] w1];
    [left; eexists; split; [reflexivity | apply fmt_Errorf_not_own]|].
  right. eexists. reflexivity.
Qed.

Lemma tencent_New_one_of (c : config.TencentConfig.t) (w : World) :
  (exists e, fst (tencent.New c w) = (None, Some e) /\ ~ own_error e) \/
  (exists u, fst (tencent.New c w) = (Some u, None)).
Proof.
  unfold tencent.New. destruct (_ || _).
  { left. eexists. split; [reflexivity | apply errors_New_not_own; discriminate]. }
  destruct (call _ w) as [[e|] w0];
    [left; eexists; split; [reflexivity | apply fmt_Errorf_not_own]|].
  destruct (call _ w0) as [[e|] w1];
    [left; eexists; split; [reflexivity | apply fmt_Errorf_not_own]|].
  right. eexists. reflexivity.
Qed.

(** X14.  When the constructor of a remote adapter fails, [NewUploader]
    returns, beside the error, an interface value that is not nil: it holds
    the nil pointer of the constructor.  Only the two errors of the factory
    itself come with a nil interface value, and a result without error holds
    a pointer that is not nil. *)
Theorem NewUploader_failure_holds_a_nil_pointer
        (t : uploader.UploadType) (cfg : uploader.any) (w : World) :
  match fst (uploader.NewUploader t cfg w) with
  | (None, Some e) => own_error e
  | (None, None) => False
  | (Some u, Some e) =>
      ~ own_error e /\
      (u = uploader.of_qiniu None \/ u = uploader.of_aliyun None
       \/ u = uploader.of_tencent None)
  | (Some u, None) =>
      (exists p, u = uploader.of_local p) \/ (exists p, u = uploader.of_qiniu (Some p))
      \/ (exists p, u = uploader.of_aliyun (Some p))
      \/ (exists p, u = uploader.of_tencent (Some p))
  end.
Proof.
  unfold uploader.NewUploader.
  destruct (String.eqb t uploader.Local).
  { destruct cfg; cbn [fst]; try (left; reflexivity). left. eexists. reflexivity. }
  destruct (String.eqb t uploader.Qiniu).
  { destruct cfg; cbn [fst]; try (left; reflexivity).
    pose proof (qiniu_New_one_of c w) as H.
    destruct (qiniu.New c w) as [[p err] w0]. cbn [fst] in *.
    destruct H as [(e & H & He)|[u H]]; injection H as -> ->.
    - split; [exact He | left; reflexivity].
    - right. left. eexists. reflexivity. }
  destruct (String.eqb t uploader.Aliyun).
  { destruct cfg; cbn [fst]; try (left; reflexivity).
    pose proof (aliyun_New_one_of c w) as H.
    destruct (aliyun.New c w) as [[p err] w0]. cbn [fst] in *.
    destruct H as [(e & H & He)|[u H]]; injection H as -> ->.
    - split; [exact He | right; left; reflexivity].
    - right. right. left. eexists. reflexivity. }
  destruct (String.eqb t uploader.Tencent).
  { destruct cfg; cbn [fst]; try (left; reflexivity).
    pose proof (tencent_New_one_of c w) as H.
    destruct (tencent.New c w) as [[p err] w0]. cbn [fst] in *.
    destruct H as [(e & H & He)|[u H]]; injection H as -> ->.
    - split; [exact He | right; right; reflexivity].
    - right. right. right. eexists. reflexivity. }
  cbn [fst]. right. reflexivity.
Qed.

(** *** The URLs of a constructed Aliyun adapter *)

Lemma aliyun_New_endpoint (cfg : config.AliyunConfig.t) (w w' : World)
      (u : aliyun.AliUploader) :
  aliyun.New cfg w = ((Some u, None), w') ->
  aliyun.endpoint u
  = "https://" ++ (if String.eqb (config.AliyunConfig.Domain cfg) ""
                   then config.AliyunConfig.BucketName cfg ++ "."
                        ++ config.AliyunConfig.Endpoint cfg
                   else config.AliyunConfig.Domain cfg) /\
  oss.BucketName (aliyun.bucket u) = config.AliyunConfig.BucketName cfg.
Proof.
  unfold aliyun.New. destruct (_ || _); [discriminate|].
  destruct (call _ w) as [[e|] w0]; [discriminate|].
  destruct (call _ w0) as [[e|] w1]; [discriminate|].
  intros H. injection H as <- _. cbn [aliyun.endpoint aliyun.bucket oss.BucketName].
  split; [|reflexivity]. destruct (String.eqb _ ""); reflexivity.
Qed.

(** X15.  The URLs of an adapter that [aliyun.New] returned give their key
    back to the helper of the tests, as long as the configured domain (or,
    without one, the bucket name and the endpoint) holds no separator. *)
Theorem aliyun_New_urls_give_the_key_back (cfg : config.AliyunConfig.t) (w w' : World)
        (u : aliyun.AliUploader) (key : string) :
  aliyun.New cfg w = ((Some u, None), w') ->
  has_sep (if String.eqb (config.AliyunConfig.Domain cfg) ""
           then config.AliyunConfig.BucketName cfg ++ "." ++ config.AliyunConfig.Endpoint cfg
           else config.AliyunConfig.Domain cfg) = false ->
  uploader_test.extractKey (aliyun.getFileURL u key) = key.
Proof.
  intros HN Hh. destruct (aliyun_New_endpoint cfg w w' u HN) as [He _].
  unfold aliyun.getFileURL. rewrite He, append_assoc.
  apply extractKey_https. exact Hh.
Qed.

Lemma aliyun_New_urls_give_the_key_back_witness :
  let cfg := {| config.AliyunConfig.Endpoint := "oss-cn-hangzhou.aliyuncs.com";
                config.AliyunConfig.AccessKeyID := "id";
                config.AliyunConfig.AccessKeySecret := "secret";
                config.AliyunConfig.BucketName := "media-assets";
                config.AliyunConfig.Domain := "" |} in
  let c := {| oss.Endpoint := "oss-cn-hangzhou.aliyuncs.com";
              oss.AccessKeyID := "id"; oss.AccessKeySecret := "secret" |} in
  let u := {| aliyun.client := c;
              aliyun.bucket := {| oss.Client_ := c; oss.BucketName := "media-assets" |};
              aliyun.config_ := cfg;
              aliyun.endpoint := "https://media-assets.oss-cn-hangzhou.aliyuncs.com" |} in
  let w := Sample.world [] [] in
  aliyun.New cfg w = ((Some u, None), snd (aliyun.New cfg w)) /\
  aliyun.getFileURL u "2025/07/01/a_1751328000000000001.txt"
  = "https://media-assets.oss-cn-hangzhou.aliyuncs.com/2025/07/01/a_1751328000000000001.txt" /\
  uploader_test.extractKey (aliyun.getFileURL u "2025/07/01/a_1751328000000000001.txt")
  = "2025/07/01/a_1751328000000000001.txt".
Proof.
  intros cfg c u w.
  assert (H : aliyun.New cfg w = ((Some u, None), snd (aliyun.New cfg w))).
  { apply injective_projections; [vm_compute; reflexivity | reflexivity]. }
  split; [exact H|]. split; [reflexivity|].
  apply (aliyun_New_urls_give_the_key_back cfg w _ u _ H).
  reflexivity.
Defined.

(** *** A copy that fails *)

(** X16.  [local.UploadFile] does not clean up after a failed copy: when it
    reports that the file could not be saved, the destination it created is
    still there. *)
Theorem local_UploadFile_failed_copy_leaves_the_file (cfg : config.LocalConfig.t)
        (fh : multipart.FileHeader) (w : World) (e : error) :
  let u := local.New cfg in
  let r := local.UploadFile u (Some fh) w in
  fst r = fail (fmt_Errorf "failed to save file: %w" e) ->
  let stored := filepath.Join [local.basePath u; time.Format_2006_01_02 (clock w (ticks w))]
                ++ "/" ++ storedName (multipart.Filename fh)
                                     (time.UnixNano (clock w (S (ticks w)))) in
  exists c, FS.lookup (fs (snd r)) stored = Some (FS.File c).
Proof.
  intros u r Hr stored. subst r.
  destruct (New_basePath cfg) as [_ Hbp]. fold u in Hbp.
  destruct (stored_under_directory (local.basePath u) (clock w (ticks w))
              (multipart.Filename fh)
              (time.UnixNano (clock w (S (ticks w)))) Hbp) as (Hst & _ & _).
  cbv zeta in Hst. unfold stored. rewrite sep_app, <- Hst. clear stored Hst.
  destruct (local.UploadFile u (Some fh) w) as [res w'] eqn:H. cbn [fst snd] in *.
  subst res.
  unfold local.UploadFile, local.UploadFile_opened, local.generateFilePath, time_Now in H.
  ok_call H.
  cbn [clock ticks uuids drawn fault fs objects trace] in H.
  ok_call H.
  change (GoStrings.TrimSuffix (filepath.Base ?n) (filepath.Ext ?n)
          ++ "_" ++ GoFmt.show_int ?z ++ filepath.Ext ?n)
    with (uniqueName n z) in H.
  rewrite dated_path in H by assumption.
  ok_call H.
  ok_call H.
  - ok_call H; ok_call H; injection H as _ <-;
      cbn [clock ticks uuids drawn fault fs objects trace log effect with_fs];
      eexists; apply lookup_set.
  - unfold local.locator in H. rewrite dated_locator in H by assumption.
    ok_call H; ok_call H; discriminate H.
Qed.

Lemma local_UploadFile_failed_copy_leaves_the_file_witness :
  let cfg := {| config.LocalConfig.BasePath := "t" |} in
  let fh := {| multipart.Filename := "a.txt"; multipart.Size := 5;
               multipart.Body := Sample.hello |} in
  let w := Sample.failing (fun c => match c with io_Copy _ _ => true | _ => false end)
                          (Errno 28) [] [] in
  let r := local.UploadFile (local.New cfg) (Some fh) w in
  fst r = fail (fmt_Errorf "failed to save file: %w" (foreign (Errno 28))) /\
  exists c, FS.lookup (fs (snd r)) "t/2025/07/01/a_1751328000000000001.txt"
            = Some (FS.File c).
Proof.
  intros cfg fh w r.
  assert (H : fst r = fail (fmt_Errorf "failed to save file: %w" (foreign (Errno 28))))
    by (vm_compute; reflexivity).
  split; [exact H|].
  exact (local_UploadFile_failed_copy_leaves_the_file cfg fh w _ H).
Defined.


(** X17.  [local.Delete] does not look at what the path holds: where no
    call is made to fail, a locator that names a directory removes it when it
    is empty, and is answered by the error of [os.Remove], with nothing
    removed, when it is not. *)
Theorem local_Delete_on_a_directory (u : local.LocalUploader) (loc : string) (w : World) :
  quiet w ->
  let p := filepath.Join [local.basePath u; loc] in
  FS.always_dir p = false -> FS.lookup (fs w) p = Some FS.Dir ->
  let r := local.Delete u loc w in
  if FS.has_children (fs w) p
  then fst r = Some (fmt_Errorf "failed to delete file: %v" (foreign ENOTEMPTY)) /\
       fs (snd r) = fs w
  else fst r = None /\ FS.lookup (fs (snd r)) p = None.
Proof.
  intros Hq p Ha Hl r. subst r.
  destruct (local_Delete_steps u loc w) as (_ & _ & Hs). fold p in Hs.
  rewrite !outcome_quiet in Hs by assumption. cbn [natural] in Hs.
  destruct (not_always_dir _ Ha) as [Hd Hr].
  unfold FS.stat_blocked, FS.exists_, FS.remove_blocked in Hs.
  rewrite Hd, Hr, Ha, Hl in Hs. cbn [orb os_IsNotExist] in Hs.
  destruct (FS.has_children (fs w) p); [exact Hs|].
  destruct Hs as [H1 H2]. split; [exact H1|]. rewrite H2. apply lookup_remove.
Qed.

Lemma local_Delete_on_a_directory_witness :
  let w := Sample.world [("t/2025/07", FS.Dir); ("t/2025", FS.Dir); ("t", FS.Dir)] [] in
  quiet w /\
  (fst (local.Delete Sample.localT "2025" w)
   = Some (fmt_Errorf "failed to delete file: %v" (foreign ENOTEMPTY)) /\
   fs (snd (local.Delete Sample.localT "2025" w)) = fs w) /\
  (fst (local.Delete Sample.localT "2025/07" w) = None /\
   FS.lookup (fs (snd (local.Delete Sample.localT "2025/07" w))) "t/2025/07" = None).
Proof.
  intros w.
  assert (Hq : quiet w) by (intro c; reflexivity).
  split; [exact Hq|]. split.
  - exact (local_Delete_on_a_directory Sample.localT "2025" w Hq eq_refl eq_refl).
  - exact (local_Delete_on_a_directory Sample.localT "2025/07" w Hq eq_refl eq_refl).
Defined.

(** * The operations call by call *)

(** ** Failures the code returns and failures it does not *)

(** A string that does not decode is answered with an error of the package,
    and no call is made. *)
Lemma UploadBase64_decode_failure (a : uploader.Adapter) (name s : string)
      (e : error) (w : World) :
  base64.DecodeString s = inr e ->
  exists E, snd (fst (uploader.UploadBase64 a name s w)) = Some E /\ core E /\
            trace (snd (uploader.UploadBase64 a name s w)) = trace w.
Proof.
  intros H. pose proof (DecodeString_error s e H) as ->.
  assert (Hs : String.eqb s "" = false).
  { destruct (String.eqb_spec s "") as [->|_]; [discriminate H|reflexivity]. }
  destruct a as [u|h|u|u]; cbn [uploader.UploadBase64].
  - unfold local.UploadBase64. rewrite Hs, H. eexists. repeat split.
  - unfold qiniu.UploadBase64, qiniu.generateUniqueKey, time_Now, uuid_New.
    destruct (String.eqb name ""); [eexists; repeat split|].
    rewrite Hs, H. eexists. repeat split.
  - unfold aliyun.UploadBase64. rewrite Hs, H. eexists. repeat split.
  - unfold tencent.UploadBase64. rewrite Hs, H. eexists. repeat split.
Qed.

(** [qiniu.New] on a configuration that is complete: the zone is looked up,
    and whatever the lookup answers the constructor returns no error. *)
Lemma qiniu_New_complete (c : config.QiniuConfig.t) (w : World) :
  config.QiniuConfig.AccessKey c <> "" -> config.QiniuConfig.SecretKey c <> "" ->
  config.QiniuConfig.Bucket c <> "" ->
  let z := storage_GetZone (config.QiniuConfig.AccessKey c) (config.QiniuConfig.Bucket c) in
  trace (snd (qiniu.New c w)) = (z, outcome z w) :: trace w /\
  snd (fst (qiniu.New c w)) = None /\
  exists h, fst (fst (qiniu.New c w)) = Some h /\
            (outcome z w <> None -> storage.Region_ (qiniu.cfg h) = None).
Proof.
  intros Ha Hs Hb z. unfold qiniu.New.
  apply String.eqb_neq in Ha, Hs, Hb. rewrite Ha, Hs, Hb. cbn [orb].
  fold z. unfold call. cbv zeta. cbn [fst snd trace log].
  destruct (outcome z w); cbn [effect trace].
  - split; [reflexivity|]. split; [reflexivity|]. eexists. split; [reflexivity|].
    intros _. reflexivity.
  - split; [reflexivity|]. split; [reflexivity|]. eexists. split; [reflexivity|].
    intros H. contradiction.
Qed.

(** [local.Delete] after an [os.Stat] that failed otherwise than on a
    missing file: it goes on to [os.Remove], whose answer is the result. *)
Lemma local_Delete_after_Stat_failure (u : local.LocalUploader) (loc : string)
      (w : World) (c : cause) :
  let p := filepath.Join [local.basePath u; loc] in
  outcome (os_Stat p) w = Some c -> c <> ENOENT ->
  let r := local.Delete u loc w in
  trace (snd r) = (os_Remove p, outcome (os_Remove p) w) :: (os_Stat p, Some c) :: trace w /\
  fst r = match outcome (os_Remove p) w with
          | Some e => Some (fmt_Errorf "failed to delete file: %v" (foreign e))
          | None => None
          end.
Proof.
  intros p Hs Hc r. subst r. unfold local.Delete. fold p.
  destruct (call (os_Stat p) w) as [err w0] eqn:Ec.
  unfold call in Ec. cbv zeta in Ec. rewrite Hs in Ec. injection Ec as <- <-.
  assert (Hn : os_IsNotExist (Some c) = false) by (destruct c; try reflexivity; contradiction).
  rewrite Hn.
  destruct (call (os_Remove p) _) as [err1 w1] eqn:Ec.
  unfold call in Ec. cbv zeta in Ec. injection Ec as <- <-.
  assert (Ho : forall ev, outcome (os_Remove p) (log ev w) = outcome (os_Remove p) w)
    by reflexivity.
  rewrite !Ho.
  destruct (outcome (os_Remove p) w) as [e|]; cbn [fst snd trace log effect with_fs];
    split; reflexivity.
Qed.

Ltac env_cbn :=
  cbn [fst snd fail ok clock ticks uuids drawn fault fs objects trace log effect natural
       with_fs with_objects with_fault multipart.Filename multipart.Body].

(** Two runs side by side, under environments [f] and [fault w] that agree
    by [H] on every call that is not a close. *)
Ltac side_by_side w f H :=
  unfold call, outcome; env_cbn;
  repeat first
    [ match goal with
      | |- context [f ?c] =>
          lazymatch c with
          | File_Close _ => fail
          | _ => rewrite (H c) by reflexivity; env_cbn
          end
      end
    | match goal with
      | |- context [fault w ?c] => destruct (fault w c); env_cbn
      end
    | match goal with
      | |- context [f (File_Close ?n)] => destruct (f (File_Close n)); env_cbn
      end
    | match goal with
      | |- context [FS.mkdir_all_blocked ?a ?b] => destruct (FS.mkdir_all_blocked a b); env_cbn
      end
    | match goal with
      | |- context [FS.create_blocked ?a ?b] => destruct (FS.create_blocked a b); env_cbn
      end ].

(** What the closes answer changes neither the result of [UploadFile] nor
    the stores. *)
Lemma UploadFile_ignores_closes (a : uploader.Adapter)
      (file : option multipart.FileHeader) (w : World) (f : Call -> option cause) :
  (forall c, is_close_call c = false -> f c = fault w c) ->
  fst (uploader.UploadFile a file (with_fault w f)) = fst (uploader.UploadFile a file w) /\
  same_stores (snd (uploader.UploadFile a file (with_fault w f)))
              (snd (uploader.UploadFile a file w)).
Proof.
  intros H. unfold same_stores.
  destruct file as [[name size body]|]; [|destruct a; repeat split].
  destruct a as [u|h|u|u]; cbn [uploader.UploadFile].
  - unfold local.UploadFile, local.UploadFile_opened, local.generateFilePath, local.locator,
      time_Now.
    side_by_side w f H; repeat split.
  - unfold qiniu.UploadFile, qiniu.UploadBinary, qiniu.generateUniqueKey, qiniu.put,
      time_Now, uuid_New.
    cbn [multipart.Filename multipart.Body].
    destruct (String.eqb name ""); [side_by_side w f H; repeat split|].
    destruct (Nat.eqb (List.length body) 0); [side_by_side w f H; repeat split|].
    side_by_side w f H; repeat split.
  - unfold aliyun.UploadFile, aliyun.generateObjectKey, time_Now.
    side_by_side w f H; repeat split.
  - unfold tencent.UploadFile, tencent.generateObjectKey, time_Now.
    side_by_side w f H; repeat split.
Qed.

(** The three failures the code does not look at, in one run each: the
    constructor of the Qiniu adapter returns an adapter and no error when the
    zone lookup fails; [local.UploadFile] returns the locator when both
    closes fail; [local.Delete] removes the file and returns no error when
    [os.Stat] fails otherwise than on a missing file. *)
Lemma unchecked_failures_are_discarded :
  (let w := Sample.failing (fun c => match c with
                                     | storage_GetZone _ _ => true
                                     | _ => false
                                     end) (SdkError 401) [] [] in
   let r := qiniu.New Sample.qiniuCfg w in
   trace (snd r) = [(storage_GetZone "ak" "b", Some (SdkError 401))] /\
   fst r = (Some Sample.qiniuT, None)) /\
  (let w := Sample.failing (fun c => match c with
                                     | File_Close _ => true
                                     | _ => false
                                     end) (Errno 5) [] [] in
   let fh := {| multipart.Filename := "a.txt"; multipart.Size := 5;
                multipart.Body := Sample.hello |} in
   let r := local.UploadFile Sample.localT (Some fh) w in
   fst r = ok "2025/07/01/a_1751328000000000001.txt" /\
   trace (snd r)
   = [(File_Close "a.txt", Some (Errno 5));
      (File_Close "t/2025/07/01/a_1751328000000000001.txt", Some (Errno 5));
      (io_Copy "t/2025/07/01/a_1751328000000000001.txt" Sample.hello, None);
      (os_Create "t/2025/07/01/a_1751328000000000001.txt", None);
      (os_MkdirAll "t/2025/07/01" 493, None);
      (FileHeader_Open "a.txt", None)]) /\
  (let w := Sample.failing (fun c => match c with
                                     | os_Stat _ => true
                                     | _ => false
                                     end) (Errno 5)
                           [("t/a.txt", FS.File Sample.hello); ("t", FS.Dir)] [] in
   let r := local.Delete Sample.localT "a.txt" w in
   fst r = None /\
   FS.lookup (fs (snd r)) "t/a.txt" = None /\
   trace (snd r) = [(os_Remove "t/a.txt", None); (os_Stat "t/a.txt", Some (Errno 5))]).
Proof. vm_compute. repeat split. Qed.

(** C5, as the code has it.  In every operation of the package the calls
    made and the error returned go together: a failed call that the code
    looks at ends the operation, but for the deferred closes of the streams,
    and the operation returns an error that wraps the cause in a new error
    (for a missing file in [local.Delete], the error that names the path);
    no call is made again.  An error that arises in the package itself (a
    rejected input or configuration, an unsupported type, a string that does
    not decode) is returned with no failed call before it; a string that does
    not decode is so answered, and no call is made.  Three failures are not
    looked at and never returned: the zone lookup of [qiniu.New], after which
    the constructor returns its adapter and no error; a failure of [os.Stat]
    in [local.Delete] that is not a missing file, after which [os.Remove] is
    called and its answer is the result; and the deferred closes, whose
    answers change neither the result of [UploadFile] nor the stores. *)
Theorem checked_failures_are_returned :
  (forall o w, accounted w (run o w)) /\
  (forall a name s e w,
      base64.DecodeString s = inr e ->
      exists E, snd (fst (uploader.UploadBase64 a name s w)) = Some E /\ core E /\
                trace (snd (uploader.UploadBase64 a name s w)) = trace w) /\
  (forall c w,
      config.QiniuConfig.AccessKey c <> "" -> config.QiniuConfig.SecretKey c <> "" ->
      config.QiniuConfig.Bucket c <> "" ->
      let z := storage_GetZone (config.QiniuConfig.AccessKey c)
                               (config.QiniuConfig.Bucket c) in
      trace (snd (qiniu.New c w)) = (z, outcome z w) :: trace w /\
      snd (fst (qiniu.New c w)) = None /\
      exists h, fst (fst (qiniu.New c w)) = Some h /\
                (outcome z w <> None -> storage.Region_ (qiniu.cfg h) = None)) /\
  (forall u loc w c,
      let p := filepath.Join [local.basePath u; loc] in
      outcome (os_Stat p) w = Some c -> c <> ENOENT ->
      let r := local.Delete u loc w in
      trace (snd r)
      = (os_Remove p, outcome (os_Remove p) w) :: (os_Stat p, Some c) :: trace w /\
      fst r = match outcome (os_Remove p) w with
              | Some e => Some (fmt_Errorf "failed to delete file: %v" (foreign e))
              | None => None
              end) /\
  (forall a file w f,
      (forall c, is_close_call c = false -> f c = fault w c) ->
      fst (uploader.UploadFile a file (with_fault w f))
      = fst (uploader.UploadFile a file w) /\
      same_stores (snd (uploader.UploadFile a file (with_fault w f)))
                  (snd (uploader.UploadFile a file w))).
Proof.
  split; [|split; [|split; [|split]]].
  - intros o w. destruct o.
    + apply accounted_NewUploader.
    + apply accounted_UploadFile.
    + apply accounted_UploadBinary.
    + apply accounted_UploadBase64.
    + apply accounted_Delete.
  - exact UploadBase64_decode_failure.
  - exact qiniu_New_complete.
  - exact local_Delete_after_Stat_failure.
  - exact UploadFile_ignores_closes.
Qed.

(** ** Uploads call by call *)

(** [aliyun.UploadBinary] on a content that is not empty: one call, whose
    answer decides. *)
Lemma aliyun_UploadBinary_steps (u : aliyun.AliUploader) (name : string)
      (b : byte) (rest : list byte) (w : World) :
  let key := time.Format_2006_01_02 (clock w (ticks w))
             ++ String "/" (storedName name (time.UnixNano (clock w (S (ticks w))))) in
  let c := Bucket_PutObject (oss.BucketName (aliyun.bucket u)) key (b :: rest) in
  let r := aliyun.UploadBinary u name (b :: rest) w in
  trace (snd r) = (c, outcome c w) :: trace w /\
  match outcome c w with
  | Some e =>
      fst r = fail (fmt_Errorf "failed to upload binary to OSS: %w" (foreign e)) /\
      objects (snd r) = objects w
  | None =>
      fst r = ok (aliyun.endpoint u ++ "/" ++ key) /\
      objects (snd r)
      = Store.put (objects w) Store.aliyun_oss (oss.BucketName (aliyun.bucket u)) key
                  (b :: rest)
  end.
Proof.
  intros key c r. subst r.
  unfold aliyun.UploadBinary. cbn [List.length Nat.eqb].
  pose proof (proj1 (aliyun_key u name w)) as Hk. fold key in Hk.
  unfold aliyun.generateObjectKey, time_Now in *. cbn [fst] in Hk.
  rewrite Hk. fold c.
  unfold call. cbv zeta. unfold outcome. cbn [fault natural].
  destruct (fault w c); cbn [fst snd trace log objects effect with_objects aliyun.getFileURL];
    split; try split; reflexivity.
Qed.

Lemma tencent_UploadBinary_steps (u : tencent.TencentUploader) (name : string)
      (b : byte) (rest : list byte) (w : World) :
  let key := time.Format_2006_01_02 (clock w (ticks w))
             ++ String "/" (storedName name (time.UnixNano (clock w (S (ticks w))))) in
  let c := cos_Object_Put (cos.BucketURL (tencent.client u)) key (b :: rest) in
  let r := tencent.UploadBinary u name (b :: rest) w in
  trace (snd r) = (c, outcome c w) :: trace w /\
  match outcome c w with
  | Some e =>
      fst r = fail (fmt_Errorf "failed to upload binary to COS: %w" (foreign e)) /\
      objects (snd r) = objects w
  | None =>
      fst r = ok (tencent.getFileURL u key) /\
      objects (snd r)
      = Store.put (objects w) Store.tencent_cos (cos.BucketURL (tencent.client u)) key
                  (b :: rest)
  end.
Proof.
  intros key c r. subst r.
  unfold tencent.UploadBinary. cbn [List.length Nat.eqb].
  pose proof (proj1 (tencent_key u name w)) as Hk. fold key in Hk.
  unfold tencent.generateObjectKey, time_Now in *. cbn [fst] in Hk.
  rewrite Hk. fold c.
  unfold call. cbv zeta. unfold outcome. cbn [fault natural].
  destruct (fault w c); cbn [fst snd trace log objects effect with_objects];
    split; try split; reflexivity.
Qed.

Lemma decoded_not_empty (s : string) (b : byte) (rest : list byte) :
  base64.DecodeString s = inl (b :: rest) -> String.eqb s "" = false.
Proof.
  intros H. destruct (String.eqb_spec s "") as [->|_]; [discriminate H|reflexivity].
Qed.

(** C10, as the code has it.  The base name of the empty file name is [.]:
    the Local, Aliyun and Tencent adapters accept an empty file name with a
    content that is not empty, by [UploadBinary] and by [UploadBase64], which
    hands the decoded content to it.  The upload fails exactly when one of
    its calls does, with the error that wraps the cause of that call, and
    otherwise stores the content under the name [._<unixNano>]; the Qiniu
    adapter rejects the empty file name before anything else. *)
Theorem empty_filename_uploads :
  (forall nano, storedName "" nano = "._" ++ GoFmt.show_int nano) /\
  (forall cfg b rest w,
      let u := local.New cfg in
      let date := time.Format_2006_01_02 (clock w (ticks w)) in
      let name := "._" ++ GoFmt.show_int (time.UnixNano (clock w (S (ticks w)))) in
      let sd := filepath.Join [local.basePath u; date] in
      let stored := sd ++ "/" ++ name in
      let r := local.UploadBinary u "" (b :: rest) w in
      match outcome (os_MkdirAll sd 493) w with
      | Some c =>
          fst r = fail (fmt_Errorf "failed to generate file path: %w"
                          (fmt_Errorf "failed to create storage directory: %w" (foreign c)))
      | None =>
          match outcome (os_WriteFile stored (b :: rest) 420)
                        (with_fs w (FS.mkdir_all (fs w) sd)) with
          | Some c => fst r = fail (fmt_Errorf "failed to write file: %w" (foreign c))
          | None =>
              fst r = ok (date ++ "/" ++ name) /\
              FS.lookup (fs (snd r)) stored = Some (FS.File (b :: rest))
          end
      end) /\
  (forall u b rest w,
      let key := time.Format_2006_01_02 (clock w (ticks w)) ++ "/._"
                 ++ GoFmt.show_int (time.UnixNano (clock w (S (ticks w)))) in
      let c := Bucket_PutObject (oss.BucketName (aliyun.bucket u)) key (b :: rest) in
      let r := aliyun.UploadBinary u "" (b :: rest) w in
      trace (snd r) = (c, outcome c w) :: trace w /\
      match outcome c w with
      | Some e => fst r = fail (fmt_Errorf "failed to upload binary to OSS: %w" (foreign e))
      | None =>
          fst r = ok (aliyun.endpoint u ++ "/" ++ key) /\
          Store.get (objects (snd r)) Store.aliyun_oss (oss.BucketName (aliyun.bucket u)) key
          = Some (b :: rest)
      end) /\
  (forall u b rest w,
      let key := time.Format_2006_01_02 (clock w (ticks w)) ++ "/._"
                 ++ GoFmt.show_int (time.UnixNano (clock w (S (ticks w)))) in
      let c := cos_Object_Put (cos.BucketURL (tencent.client u)) key (b :: rest) in
      let r := tencent.UploadBinary u "" (b :: rest) w in
      trace (snd r) = (c, outcome c w) :: trace w /\
      match outcome c w with
      | Some e => fst r = fail (fmt_Errorf "failed to upload binary to COS: %w" (foreign e))
      | None =>
          fst r = ok (tencent.getFileURL u key) /\
          Store.get (objects (snd r)) Store.tencent_cos (cos.BucketURL (tencent.client u)) key
          = Some (b :: rest)
      end) /\
  (forall u s b rest w,
      base64.DecodeString s = inl (b :: rest) ->
      local.UploadBase64 u "" s w = local.UploadBinary u "" (b :: rest) w) /\
  (forall u s b rest w,
      base64.DecodeString s = inl (b :: rest) ->
      aliyun.UploadBase64 u "" s w = aliyun.UploadBinary u "" (b :: rest) w) /\
  (forall u s b rest w,
      base64.DecodeString s = inl (b :: rest) ->
      tencent.UploadBase64 u "" s w = tencent.UploadBinary u "" (b :: rest) w) /\
  (forall h content w,
      qiniu.UploadBinary h "" content w = (fail (errors_New "文件名不能为空"), w)) /\
  (forall h base64Code w,
      qiniu.UploadBase64 h "" base64Code w = (fail (errors_New "文件名不能为空"), w)).
Proof.
  split; [exact storedName_empty|].
  split; [|split; [|split; [|split; [|split; [|split; [|split; reflexivity]]]]]].
  - intros cfg b rest w u date name sd stored r.
    destruct (New_basePath cfg) as [_ Hne].
    pose proof (local_UploadBinary_steps u "" b rest w Hne) as Hs. cbv zeta in Hs.
    rewrite storedName_empty in Hs. fold date name sd r in Hs.
    unfold stored. rewrite !sep_app. destruct Hs as [_ Hs].
    destruct (outcome (os_MkdirAll sd 493) w); [exact (proj1 Hs)|].
    destruct (outcome (os_WriteFile _ _ _) _); [exact (proj1 Hs)|].
    destruct Hs as [H1 H2]. split; [exact H1|]. rewrite H2. apply lookup_set.
  - intros u b rest w key c r.
    pose proof (aliyun_UploadBinary_steps u "" b rest w) as Hs. cbv zeta in Hs.
    rewrite storedName_empty in Hs.
    unfold c, key, r. cbn [append] in Hs |- *. destruct Hs as [Ht Hs].
    split; [exact Ht|].
    destruct (outcome _ w); [exact (proj1 Hs)|].
    destruct Hs as [H1 H2]. split; [exact H1|]. rewrite H2. apply get_put.
  - intros u b rest w key c r.
    pose proof (tencent_UploadBinary_steps u "" b rest w) as Hs. cbv zeta in Hs.
    rewrite storedName_empty in Hs.
    unfold c, key, r. cbn [append] in Hs |- *. destruct Hs as [Ht Hs].
    split; [exact Ht|].
    destruct (outcome _ w); [exact (proj1 Hs)|].
    destruct Hs as [H1 H2]. split; [exact H1|]. rewrite H2. apply get_put.
  - intros u s b rest w H. unfold local.UploadBase64.
    rewrite (decoded_not_empty s b rest H), H. reflexivity.
  - intros u s b rest w H. unfold aliyun.UploadBase64.
    rewrite (decoded_not_empty s b rest H), H. reflexivity.
  - intros u s b rest w H. unfold tencent.UploadBase64.
    rewrite (decoded_not_empty s b rest H), H. reflexivity.
Qed.

(** ** [UploadFile] call by call *)

Ltac world_cbn :=
  cbn [fst snd fail ok clock ticks uuids drawn fault fs objects trace log effect natural
       with_fs with_objects multipart.Filename multipart.Body].

Ltac by_calls :=
  unfold call, outcome; world_cbn;
  repeat match goal with
         | |- context [fault ?w ?c] => destruct (fault w c); world_cbn
         end.

(** [qiniu.UploadFile] opens the stream, reads it, and returns what
    [UploadBinary] returns for the name and the bytes read. *)
Lemma qiniu_UploadFile_steps (h : qiniu.qiniuUploader) (fh : multipart.FileHeader)
      (w : World) :
  let name := multipart.Filename fh in
  let r := qiniu.UploadFile h (Some fh) w in
  let b := qiniu.UploadBinary h name (multipart.Body fh) w in
  match outcome (FileHeader_Open name) w with
  | Some c => fst r = fail (fmt_Errorf "打开文件失败: %v" (foreign c)) /\ same_stores (snd r) w
  | None =>
      match outcome (io_ReadAll name) w with
      | Some c =>
          fst r = fail (fmt_Errorf "读取文件失败: %v" (foreign c)) /\ same_stores (snd r) w
      | None => fst r = fst b /\ same_stores (snd r) (snd b)
      end
  end.
Proof.
  destruct fh as [name size body]. cbn [multipart.Filename multipart.Body]. cbv zeta.
  unfold qiniu.UploadFile, qiniu.UploadBinary, qiniu.generateUniqueKey, qiniu.put,
    time_Now, uuid_New, same_stores.
  cbn [multipart.Filename multipart.Body].
  destruct (String.eqb name ""); [by_calls; repeat split|].
  destruct (Nat.eqb (List.length body) 0); [by_calls; repeat split|].
  by_calls; repeat split.
Qed.

Ltac take_call :=
  match goal with
  | |- context [call ?c ?w0] =>
      lazymatch w0 with
      | context [call] => fail
      | _ => idtac
      end;
      let E := fresh "Ec" in
      let err := fresh "err" in
      let w' := fresh "w" in
      destruct (call c w0) as [err w'] eqn:E;
      unfold call, outcome in E; cbv zeta in E; injection E as <- <-;
      world_cbn
  end.

Ltac fold_names :=
  change (GoStrings.TrimSuffix (filepath.Base ?n) (filepath.Ext ?n)
          ++ "_" ++ GoFmt.show_int ?z ++ filepath.Ext ?n)
    with (uniqueName n z).

(** [aliyun.UploadFile] streams whatever the stream holds. *)
Lemma aliyun_UploadFile_steps (u : aliyun.AliUploader) (fh : multipart.FileHeader)
      (w : World) :
  let name := multipart.Filename fh in
  let key := time.Format_2006_01_02 (clock w (ticks w))
             ++ String "/" (storedName name (time.UnixNano (clock w (S (ticks w))))) in
  let put := Bucket_PutObject (oss.BucketName (aliyun.bucket u)) key (multipart.Body fh) in
  let r := aliyun.UploadFile u (Some fh) w in
  match outcome (FileHeader_Open name) w with
  | Some c =>
      fst r = fail (fmt_Errorf "failed to open uploaded file: %w" (foreign c)) /\
      objects (snd r) = objects w
  | None =>
      match outcome put w with
      | Some c =>
          fst r = fail (fmt_Errorf "failed to upload file to OSS: %w" (foreign c)) /\
          objects (snd r) = objects w
      | None =>
          fst r = ok (aliyun.endpoint u ++ String "/" key) /\
          objects (snd r)
          = Store.put (objects w) Store.aliyun_oss (oss.BucketName (aliyun.bucket u)) key
                      (multipart.Body fh)
      end
  end.
Proof.
  destruct fh as [name size body]. cbn [multipart.Filename multipart.Body]. cbv zeta.
  unfold aliyun.UploadFile, aliyun.generateObjectKey, aliyun.getFileURL, time_Now.
  cbn [multipart.Filename multipart.Body].
  destruct (call (FileHeader_Open name) w) as [err w0] eqn:Ec.
  unfold call in Ec. cbv zeta in Ec. injection Ec as <- <-.
  unfold outcome. world_cbn.
  destruct (fault w (FileHeader_Open name)); world_cbn; [split; reflexivity|].
  fold_names. rewrite dated_key.
  by_calls; split; reflexivity.
Qed.

(** [tencent.UploadFile] streams whatever the stream holds. *)
Lemma tencent_UploadFile_steps (u : tencent.TencentUploader) (fh : multipart.FileHeader)
      (w : World) :
  let name := multipart.Filename fh in
  let key := time.Format_2006_01_02 (clock w (ticks w))
             ++ String "/" (storedName name (time.UnixNano (clock w (S (ticks w))))) in
  let put := cos_Object_Put (cos.BucketURL (tencent.client u)) key (multipart.Body fh) in
  let r := tencent.UploadFile u (Some fh) w in
  match outcome (FileHeader_Open name) w with
  | Some c =>
      fst r = fail (fmt_Errorf "failed to open uploaded file: %w" (foreign c)) /\
      objects (snd r) = objects w
  | None =>
      match outcome put w with
      | Some c =>
          fst r = fail (fmt_Errorf "failed to upload file to COS: %w" (foreign c)) /\
          objects (snd r) = objects w
      | None =>
          fst r = ok (tencent.getFileURL u key) /\
          objects (snd r)
          = Store.put (objects w) Store.tencent_cos (cos.BucketURL (tencent.client u)) key
                      (multipart.Body fh)
      end
  end.
Proof.
  destruct fh as [name size body]. cbn [multipart.Filename multipart.Body]. cbv zeta.
  unfold tencent.UploadFile, tencent.generateObjectKey, time_Now.
  cbn [multipart.Filename multipart.Body].
  destruct (call (FileHeader_Open name) w) as [err w0] eqn:Ec.
  unfold call in Ec. cbv zeta in Ec. injection Ec as <- <-.
  unfold outcome. world_cbn.
  destruct (fault w (FileHeader_Open name)); world_cbn; [split; reflexivity|].
  fold_names. rewrite dated_key.
  by_calls; split; reflexivity.
Qed.

(** [local.UploadFile] streams whatever the stream holds into the file it
    creates. *)
Lemma local_UploadFile_steps (u : local.LocalUploader) (fh : multipart.FileHeader)
      (w : World) :
  local.basePath u <> "" ->
  let name := multipart.Filename fh in
  let date := time.Format_2006_01_02 (clock w (ticks w)) in
  let nm := storedName name (time.UnixNano (clock w (S (ticks w)))) in
  let sd := filepath.Join [local.basePath u; date] in
  let stored := sd ++ String "/" nm in
  let r := local.UploadFile u (Some fh) w in
  match outcome (FileHeader_Open name) w with
  | Some c => fst r = fail (fmt_Errorf "failed to open uploaded file: %w" (foreign c))
  | None =>
      match outcome (os_MkdirAll sd 493) w with
      | Some c =>
          fst r = fail (fmt_Errorf "failed to generate file path: %w"
                          (fmt_Errorf "failed to create storage directory: %w" (foreign c)))
      | None =>
          match outcome (os_Create stored) (with_fs w (FS.mkdir_all (fs w) sd)) with
          | Some c =>
              fst r = fail (fmt_Errorf "failed to create destination file: %w" (foreign c))
          | None =>
              match outcome (io_Copy stored (multipart.Body fh)) w with
              | Some c => fst r = fail (fmt_Errorf "failed to save file: %w" (foreign c))
              | None =>
                  fst r = ok (date ++ String "/" nm) /\
                  FS.lookup (fs (snd r)) stored = Some (FS.File (multipart.Body fh))
              end
          end
      end
  end.
Proof.
  intros Hbp name0 date nm sd stored r. subst name0 r.
  destruct fh as [name size body]. cbn [multipart.Filename multipart.Body] in *.
  destruct (stored_under_directory (local.basePath u) (clock w (ticks w)) name
              (time.UnixNano (clock w (S (ticks w)))) Hbp) as (Hst & _ & _).
  cbv zeta in Hst. fold date nm sd stored in Hst.
  unfold local.UploadFile, local.UploadFile_opened, local.generateFilePath, time_Now.
  cbn [multipart.Filename multipart.Body].
  unfold outcome. world_cbn.
  take_call. destruct (fault w (FileHeader_Open name)); world_cbn; [reflexivity|].
  fold date sd. take_call.
  destruct (fault w (os_MkdirAll sd 493)); world_cbn; [reflexivity|].
  destruct (FS.mkdir_all_blocked (fs w) sd); world_cbn; [reflexivity|].
  fold_names. unfold sd, date. rewrite dated_path by assumption.
  fold date nm sd. rewrite Hst.
  take_call.
  destruct (fault w (os_Create stored)); world_cbn.
  { by_calls; reflexivity. }
  destruct (FS.create_blocked _ stored); world_cbn.
  { by_calls; reflexivity. }
  unfold local.locator. rewrite <- Hst. unfold nm, date.
  rewrite dated_locator by assumption. fold date nm. rewrite Hst.
  by_calls; try reflexivity.
  all: split; [reflexivity | apply lookup_set].
Qed.

(** C3, as the code has it.  Every adapter rejects a nil header with an
    invalid-input error before any call, in every world.  The Qiniu adapter
    opens the stream and reads it fully; when both calls succeed it returns
    what [UploadBinary] returns for the name and the bytes read, the rejection
    of an empty content or name included, and leaves the same stores.  The
    Local, Aliyun and Tencent adapters open the stream and copy it to the path
    or key [UploadBinary] would generate, without looking at the content: the
    upload fails exactly when one of its calls does, with an error that wraps
    the cause, and otherwise whatever the stream held, an empty content
    included, is stored, where [UploadBinary] rejects an empty content.  On a
    content that is not empty, in a world that makes no call fail, they return
    the locator [UploadBinary] returns, or an error of the same cause and
    kind, and leave the same stores. *)
Theorem UploadFile_and_UploadBinary :
  (forall a w, exists e,
      uploader.UploadFile a None w = (fail e, w) /\ kind e = InvalidInput) /\
  (forall h fh w,
      let name := multipart.Filename fh in
      let r := qiniu.UploadFile h (Some fh) w in
      let b := qiniu.UploadBinary h name (multipart.Body fh) w in
      match outcome (FileHeader_Open name) w with
      | Some c =>
          fst r = fail (fmt_Errorf "打开文件失败: %v" (foreign c)) /\ same_stores (snd r) w
      | None =>
          match outcome (io_ReadAll name) w with
          | Some c =>
              fst r = fail (fmt_Errorf "读取文件失败: %v" (foreign c)) /\
              same_stores (snd r) w
          | None => fst r = fst b /\ same_stores (snd r) (snd b)
          end
      end) /\
  (forall a name w, exists e,
      uploader.UploadBinary a name [] w = (fail e, w) /\ kind e = InvalidInput) /\
  (forall cfg fh w,
      let u := local.New cfg in
      let name := multipart.Filename fh in
      let date := time.Format_2006_01_02 (clock w (ticks w)) in
      let nm := storedName name (time.UnixNano (clock w (S (ticks w)))) in
      let sd := filepath.Join [local.basePath u; date] in
      let stored := sd ++ "/" ++ nm in
      let r := local.UploadFile u (Some fh) w in
      match outcome (FileHeader_Open name) w with
      | Some c => fst r = fail (fmt_Errorf "failed to open uploaded file: %w" (foreign c))
      | None =>
          match outcome (os_MkdirAll sd 493) w with
          | Some c =>
              fst r = fail (fmt_Errorf "failed to generate file path: %w"
                              (fmt_Errorf "failed to create storage directory: %w"
                                          (foreign c)))
          | None =>
              match outcome (os_Create stored) (with_fs w (FS.mkdir_all (fs w) sd)) with
              | Some c =>
                  fst r = fail (fmt_Errorf "failed to create destination file: %w"
                                           (foreign c))
              | None =>
                  match outcome (io_Copy stored (multipart.Body fh)) w with
                  | Some c => fst r = fail (fmt_Errorf "failed to save file: %w" (foreign c))
                  | None =>
                      fst r = ok (date ++ "/" ++ nm) /\
                      FS.lookup (fs (snd r)) stored = Some (FS.File (multipart.Body fh))
                  end
              end
          end
      end) /\
  (forall u fh w,
      let name := multipart.Filename fh in
      let key := time.Format_2006_01_02 (clock w (ticks w)) ++ "/"
                 ++ storedName name (time.UnixNano (clock w (S (ticks w)))) in
      let put := Bucket_PutObject (oss.BucketName (aliyun.bucket u)) key
                                  (multipart.Body fh) in
      let r := aliyun.UploadFile u (Some fh) w in
      match outcome (FileHeader_Open name) w with
      | Some c => fst r = fail (fmt_Errorf "failed to open uploaded file: %w" (foreign c))
      | None =>
          match outcome put w with
          | Some c => fst r = fail (fmt_Errorf "failed to upload file to OSS: %w" (foreign c))
          | None =>
              fst r = ok (aliyun.endpoint u ++ "/" ++ key) /\
              Store.get (objects (snd r)) Store.aliyun_oss
                        (oss.BucketName (aliyun.bucket u)) key
              = Some (multipart.Body fh)
          end
      end) /\
  (forall u fh w,
      let name := multipart.Filename fh in
      let key := time.Format_2006_01_02 (clock w (ticks w)) ++ "/"
                 ++ storedName name (time.UnixNano (clock w (S (ticks w)))) in
      let put := cos_Object_Put (cos.BucketURL (tencent.client u)) key
                                (multipart.Body fh) in
      let r := tencent.UploadFile u (Some fh) w in
      match outcome (FileHeader_Open name) w with
      | Some c => fst r = fail (fmt_Errorf "failed to open uploaded file: %w" (foreign c))
      | None =>
          match outcome put w with
          | Some c => fst r = fail (fmt_Errorf "failed to upload file to COS: %w" (foreign c))
          | None =>
              fst r = ok (tencent.getFileURL u key) /\
              Store.get (objects (snd r)) Store.tencent_cos
                        (cos.BucketURL (tencent.client u)) key
              = Some (multipart.Body fh)
          end
      end) /\
  (forall a fh w,
      reads_fully a = false -> quiet w -> is_empty (multipart.Body fh) = false ->
      let r1 := uploader.UploadFile a (Some fh) w in
      let r2 := uploader.UploadBinary a (multipart.Filename fh) (multipart.Body fh) w in
      same_outcome (fst r1) (fst r2) /\ same_stores (snd r1) (snd r2)).
Proof.
  split; [|split; [|split; [|split; [|split; [|split]]]]].
  - intros a w. destruct (UploadFile_nil_rejected a w) as [msg H].
    exists (errors_New msg). split; [exact H | reflexivity].
  - exact qiniu_UploadFile_steps.
  - intros a name w. destruct (UploadBinary_empty_rejected a name w) as [msg H].
    exists (errors_New msg). split; [exact H | reflexivity].
  - intros cfg fh w u name date nm sd stored r.
    destruct (New_basePath cfg) as [_ Hne].
    pose proof (local_UploadFile_steps u fh w Hne) as H. cbv zeta in H.
    unfold stored. rewrite !sep_app. exact H.
  - intros u fh w name key put r.
    pose proof (aliyun_UploadFile_steps u fh w) as H. cbv zeta in H.
    unfold put, key, r, name. rewrite !sep_app.
    destruct (outcome (FileHeader_Open _) w); [exact (proj1 H)|].
    destruct (outcome (Bucket_PutObject _ _ _) w); [exact (proj1 H)|].
    destruct H as [H1 H2]. split; [exact H1|]. rewrite H2. apply get_put.
  - intros u fh w name key put r.
    pose proof (tencent_UploadFile_steps u fh w) as H. cbv zeta in H.
    unfold put, key, r, name. rewrite !sep_app.
    destruct (outcome (FileHeader_Open _) w); [exact (proj1 H)|].
    destruct (outcome (cos_Object_Put _ _ _) w); [exact (proj1 H)|].
    destruct H as [H1 H2]. split; [exact H1|]. rewrite H2. apply get_put.
  - intros a fh w Hs Hq He r1 r2. subst r1 r2.
    assert (Hne : multipart.Body fh <> []).
    { destruct (multipart.Body fh); [discriminate He | discriminate]. }
    destruct a as [u|h|u|u]; [| discriminate Hs | |];
      cbn [uploader.UploadFile uploader.UploadBinary].
    + apply local_UploadFile_streams; assumption.
    + apply aliyun_UploadFile_streams; assumption.
    + apply tencent_UploadFile_streams; assumption.
Qed.

Lemma UploadFile_and_UploadBinary_witness :
  let a := uploader.LocalAdapter Sample.localT in
  let fh := {| multipart.Filename := "a.txt"; multipart.Size := 5;
               multipart.Body := Sample.hello |} in
  let w := Sample.world [] [] in
  quiet w /\
  same_outcome (fst (uploader.UploadFile a (Some fh) w))
               (fst (uploader.UploadBinary a "a.txt" Sample.hello w)) /\
  same_stores (snd (uploader.UploadFile a (Some fh) w))
              (snd (uploader.UploadBinary a "a.txt" Sample.hello w)).
Proof.
  intros a fh w.
  assert (Hq : quiet w) by (intro c; reflexivity).
  split; [exact Hq|].
  exact (proj2 (proj2 (proj2 (proj2 (proj2 (proj2 UploadFile_and_UploadBinary)))))
           a fh w eq_refl Hq eq_refl).
Defined.
